(** * School management system: a shallow embedding of [index.py]

    The development models the class [SchoolManagementSystem] of
    [index.py]: the six tables of its SQLite database, the session variable
    [logged_in_user], and the operations [login], [add_user],
    [enroll_student], [assign_grade], [mark_attendance], [add_timetable] and
    [export_report].

    Conventions.
    - A Python [str] is a Rocq [string]; each [ascii] is one code point in
      the range 0..255, so the strings of the development are the Python
      strings of code points below 256.  [str.encode()] is UTF-8, so code
      points above 127 take two bytes.
    - A Python [int] is a [Z], a Python [float] a primitive [float], [None]
      is [None] of an option type.  An [int] bound to a parameter of a
      statement must fit SQLite's INTEGER of 64 bits.
    - A table is the list of its rows in insertion order.
    - An operation is a computation in the monad [M]: it reads and writes
      the object ([self]) and either returns a value or raises.
    - What the program takes from outside is an [environment]: the text
      that Python prints for a float, the order in which SQLite returns the
      rows of the report, what [open] makes of a file name, and what the
      encoding of the locale can write. *)

From Stdlib Require Import ZArith List String Ascii Bool Lia Floats DecimalString.
From stdpp Require Import gmap strings.
Import ListNotations.

Local Open Scope string_scope.
Local Open Scope Z_scope.
Local Open Scope list_scope.

(** ** Python string methods *)

Module Py.

(** [bool(s)] for a string that may be [None]. *)
Definition truthy (s : option string) : bool :=
  match s with
  | None => false
  | Some "" => false
  | Some _ => true
  end.

(** [bool(n)] for an integer that may be [None]. *)
Definition truthy_int (n : option Z) : bool :=
  match n with
  | None => false
  | Some n => negb (n =? 0)
  end.

(** The value of a parameter known to be an integer. *)
Definition int_val (n : option Z) : Z :=
  match n with
  | None => 0
  | Some n => n
  end.

(** [row is not None], as [if row:] tests the result of [fetchone]. *)
Definition found {A : Type} (row : option A) : bool :=
  match row with
  | None => false
  | Some _ => true
  end.

(** The value of a parameter known to be a string. *)
Definition val (s : option string) : string :=
  match s with
  | None => ""
  | Some s => s
  end.

Definition code (c : ascii) : Z := Z.of_N (N_of_ascii c).

(** [c.isspace()] on the code points below 256. *)
Definition isspace (c : ascii) : bool :=
  let n := code c in
  ((9 <=? n) && (n <=? 13)) || ((28 <=? n) && (n <=? 32))
  || (n =? 133) || (n =? 160).

(** [c.isdigit()] as the regular expression class [\d] sees it: on the
    code points below 256 only the ten ASCII digits are decimal digits. *)
Definition isdigit (c : ascii) : bool :=
  let n := code c in (48 <=? n) && (n <=? 57).

Fixpoint lstrip (s : string) : string :=
  match s with
  | "" => ""
  | String c s' => if isspace c then lstrip s' else s
  end.

Fixpoint rstrip (s : string) : string :=
  match s with
  | "" => ""
  | String c s' =>
      match rstrip s' with
      | "" => if isspace c then "" else String c ""
      | r => String c r
      end
  end.

(** [s.strip()] *)
Definition strip (s : string) : string := rstrip (lstrip s).

(** [s.split(sep)] for a one-character separator. *)
Fixpoint split (sep : ascii) (s : string) : list string :=
  match s with
  | "" => [""]
  | String c s' =>
      if Ascii.eqb c sep then "" :: split sep s'
      else match split sep s' with
           | [] => [String c ""]
           | w :: ws => String c w :: ws
           end
  end.

(** [s[-n:]] for [n > 0]: the last [n] characters, or all of [s]. *)
Fixpoint last_chars (n : nat) (s : string) : string :=
  match s with
  | "" => ""
  | String _ s' => if (String.length s <=? n)%nat then s else last_chars n s'
  end.

Fixpoint zeros (n : nat) : string :=
  match n with
  | O => ""
  | S n => String "0"%char (zeros n)
  end.

(** [s.zfill(width)]: zeros on the left, after a leading sign. *)
Definition zfill (width : nat) (s : string) : string :=
  if (width <=? String.length s)%nat then s
  else
    let fill := zeros (width - String.length s) in
    match s with
    | String c s' =>
        if Ascii.eqb c "+"%char || Ascii.eqb c "-"%char then String c (fill +:+ s')
        else fill +:+ s
    | "" => fill
    end.

(** [str(n)] for an integer. *)
Definition str_int (n : Z) : string := NilZero.string_of_int (Z.to_int n).

(** [f"{n:02d}"]: at least two characters, the sign included, padded with
    zeros after the sign. *)
Definition format_02d (n : Z) : string := zfill 2 (str_int n).

(** [s.encode()]: UTF-8 of code points below 256. *)
Fixpoint encode (s : string) : list Z :=
  match s with
  | "" => []
  | String c s' =>
      let n := code c in
      if n <? 128 then n :: encode s'
      else (192 + n / 64) :: (128 + n mod 64) :: encode s'
  end.

End Py.

(** ** [hashlib.sha256]: SHA-256 of FIPS 180-4 on 32-bit words held in [Z] *)

Module Sha256.

Definition w32 (x : Z) : Z := x mod 2 ^ 32.
Definition add32 (x y : Z) : Z := w32 (x + y).
Definition rotr (n x : Z) : Z :=
  Z.lor (Z.shiftr x n) (w32 (Z.shiftl x (32 - n))).
Definition shr (n x : Z) : Z := Z.shiftr x n.
Definition xor3 (x y z : Z) : Z := Z.lxor x (Z.lxor y z).

Definition Ch (x y z : Z) : Z :=
  Z.lxor (Z.land x y) (Z.land (Z.lxor x (2 ^ 32 - 1)) z).
Definition Maj (x y z : Z) : Z :=
  xor3 (Z.land x y) (Z.land x z) (Z.land y z).
Definition Sigma0 (x : Z) : Z := xor3 (rotr 2 x) (rotr 13 x) (rotr 22 x).
Definition Sigma1 (x : Z) : Z := xor3 (rotr 6 x) (rotr 11 x) (rotr 25 x).
Definition sigma0 (x : Z) : Z := xor3 (rotr 7 x) (rotr 18 x) (shr 3 x).
Definition sigma1 (x : Z) : Z := xor3 (rotr 17 x) (rotr 19 x) (shr 10 x).

(** The constants are the first 32 bits of the fractional parts of the
    square roots (initial hash) and cube roots (round constants) of the
    first primes; they are computed rather than tabulated. *)

Definition is_prime (n : Z) : bool :=
  (1 <? n) &&
  forallb (fun d => negb (n mod d =? 0) || (n <=? d))
          (map Z.of_nat (seq 2 20)).

Definition primes64 : list Z :=
  Eval vm_compute in List.filter is_prime (map Z.of_nat (seq 2 310)).

(** Integer cube root by bisection on [lo, lo + 2^k). *)
Fixpoint cbrt_bits (k : nat) (lo x : Z) : Z :=
  match k with
  | O => lo
  | S k' =>
      let mid := lo + 2 ^ Z.of_nat k' in
      if mid * mid * mid <=? x then cbrt_bits k' mid x else cbrt_bits k' lo x
  end.

Definition frac_sqrt (p : Z) : Z := w32 (Z.sqrt (p * 2 ^ 64)).
Definition frac_cbrt (p : Z) : Z := w32 (cbrt_bits 40 0 (p * 2 ^ 96)).

Definition H0 : list Z := Eval vm_compute in map frac_sqrt (firstn 8 primes64).
Definition K : list Z := Eval vm_compute in map frac_cbrt primes64.

(** Padding: a one bit, zeros up to 56 modulo 64 bytes, then the bit
    length as a 64-bit big-endian number. *)
Fixpoint be_bytes (n : nat) (x : Z) : list Z :=
  match n with
  | O => []
  | S n' => (x / 256 ^ Z.of_nat n') mod 256 :: be_bytes n' x
  end.

Definition pad (msg : list Z) : list Z :=
  let len := Z.of_nat (List.length msg) in
  let k := (55 - len) mod 64 in
  msg ++ [128] ++ repeat 0 (Z.to_nat k) ++ be_bytes 8 (8 * len).

Fixpoint words (fuel : nat) (bs : list Z) : list Z :=
  match fuel, bs with
  | S fuel', b0 :: b1 :: b2 :: b3 :: rest =>
      (((b0 * 256 + b1) * 256 + b2) * 256 + b3) :: words fuel' rest
  | _, _ => []
  end.

(** Message schedule: [recent] holds the words so far, newest first. *)
Fixpoint schedule (n : nat) (recent : list Z) : list Z :=
  match n with
  | O => rev recent
  | S n' =>
      let w := add32 (add32 (sigma1 (nth 1 recent 0)) (nth 6 recent 0))
                     (add32 (sigma0 (nth 14 recent 0)) (nth 15 recent 0)) in
      schedule n' (w :: recent)
  end.

Definition regs : Type := (Z * Z * Z * Z * Z * Z * Z * Z)%type.

Definition round (r : regs) (kw : Z * Z) : regs :=
  let '(a, b, c, d, e, f, g, h) := r in
  let t1 := add32 (add32 (add32 h (Sigma1 e)) (add32 (Ch e f g) (fst kw)))
                  (snd kw) in
  let t2 := add32 (Sigma0 a) (Maj a b c) in
  (add32 t1 t2, a, b, c, add32 d t1, e, f, g).

Definition compress (r : regs) (block : list Z) : regs :=
  let w := schedule 48 (rev block) in
  let '(a, b, c, d, e, f, g, h) := fold_left round (combine K w) r in
  let '(a0, b0, c0, d0, e0, f0, g0, h0) := r in
  (add32 a0 a, add32 b0 b, add32 c0 c, add32 d0 d,
   add32 e0 e, add32 f0 f, add32 g0 g, add32 h0 h).

Fixpoint blocks (fuel : nat) (r : regs) (ws : list Z) : regs :=
  match fuel, ws with
  | S fuel', _ :: _ => blocks fuel' (compress r (firstn 16 ws)) (skipn 16 ws)
  | _, _ => r
  end.

Definition initial : regs :=
  match H0 with
  | [a; b; c; d; e; f; g; h] => (a, b, c, d, e, f, g, h)
  | _ => (0, 0, 0, 0, 0, 0, 0, 0)
  end.

Definition digest (msg : list Z) : list Z :=
  let bs := pad msg in
  let ws := words (List.length bs) bs in
  let '(a, b, c, d, e, f, g, h) := blocks (List.length ws) initial ws in
  flat_map (be_bytes 4) [a; b; c; d; e; f; g; h].

Definition hex_digit (n : Z) : ascii :=
  ascii_of_N (Z.to_N (if n <? 10 then 48 + n else 87 + n)).

(** [hexdigest()]: two lower-case hexadecimal digits per byte. *)
Fixpoint hex (bs : list Z) : string :=
  match bs with
  | [] => ""
  | b :: bs' => String (hex_digit (b / 16)) (String (hex_digit (b mod 16)) (hex bs'))
  end.

Definition hexdigest (msg : list Z) : string := hex (digest msg).

End Sha256.

(** [hash_password]: [hashlib.sha256(password.encode()).hexdigest()] *)
Definition hash_password (password : string) : string :=
  Sha256.hexdigest (Py.encode password).

(** ** [re.match] for the two patterns of the program

    Both patterns are sequences of quantified character classes, so a
    pattern is a list of pieces and matching tries every repetition count
    that the quantifier allows.  [re.match] looks for a match that starts at
    the first character and may stop before the end of the string. *)

Module Re.

Inductive class : Type :=
| Lit (c : ascii)       (* one given character, as [@] or [\.] *)
| Except (c : ascii)    (* [[^c]]: any character but [c], line feeds too *)
| Digit.                (* [\d] *)

Definition class_match (k : class) (c : ascii) : bool :=
  match k with
  | Lit d => Ascii.eqb c d
  | Except d => negb (Ascii.eqb c d)
  | Digit => Py.isdigit c
  end.

(** A class repeated at least [lo] and, with [hi] given, at most [hi]
    times. *)
Record piece : Type := Piece { atom : class; lo : nat; hi : option nat }.

Definition one (k : class) : piece := Piece k 1 (Some 1%nat).
Definition plus (k : class) : piece := Piece k 1 None.
Definition opt (k : class) : piece := Piece k 0 (Some 1%nat).
Definition between (m n : nat) (k : class) : piece := Piece k m (Some n).

Definition room (hi : option nat) : bool :=
  match hi with
  | Some O => false
  | _ => true
  end.

(** [rep rest k lo hi s]: some number of leading characters of [s] within
    the quantifier's bounds are all in class [k], and [rest] accepts what
    follows them. *)
Fixpoint rep (rest : string -> bool) (k : class) (lo : nat) (hi : option nat)
         (s : string) {struct s} : bool :=
  match lo with
  | O => rest s
  | S _ => false
  end
  || match s with
     | "" => false
     | String c s' =>
         class_match k c && room hi
         && rep rest k (Nat.pred lo) (option_map Nat.pred hi) s'
     end.

Fixpoint run (ps : list piece) (stop : string -> bool) (s : string) : bool :=
  match ps with
  | [] => stop s
  | p :: ps' => rep (run ps' stop) (atom p) (lo p) (hi p) s
  end.

(** A pattern without [$] may stop anywhere. *)
Definition anywhere (s : string) : bool := true.

(** [$] holds at the end of the string and before a line feed that ends
    the string. *)
Definition dollar (s : string) : bool :=
  match s with
  | "" => true
  | String c "" => Ascii.eqb c "010"%char
  | _ => false
  end.

End Re.

(** [validate_email]: [re.match(r"[^@]+@[^@]+\.[^@]+", email) is not None] *)
Definition validate_email (email : string) : bool :=
  Re.run [Re.plus (Re.Except "@"); Re.one (Re.Lit "@"); Re.plus (Re.Except "@");
          Re.one (Re.Lit "."); Re.plus (Re.Except "@")]
         Re.anywhere email.

(** [validate_phone]:
    [re.match(r"^\+?\d{10,15}$", phone) is not None if phone else True] *)
Definition validate_phone (phone : option string) : bool :=
  if Py.truthy phone then
    Re.run [Re.opt (Re.Lit "+"); Re.between 10 15 Re.Digit] Re.dollar (Py.val phone)
  else true.

(** ** The tables

    Rows carry the columns that the statements of the program write or
    read; [users.created_at], filled from the clock and never read, is left
    out.  SQLite does not enforce the foreign keys (the program never turns
    them on), so they put no condition on a row. *)

Module Users.
Record row : Type := Row {
  username : string;
  password : string;
  role : string;
  name : string;
  email : string;
  phone : option string
}.
End Users.

Module Students.
Record row : Type := Row {
  student_id : string;
  username : string;
  grade_level : Z;
  assigned_teacher : option string
}.
End Students.

Module Courses.
Record row : Type := Row {
  course_id : Z;
  course_name : string;
  teacher_username : option string;
  credits : Z
}.
End Courses.

Module Enrollments.
Record row : Type := Row {
  enrollment_id : Z;
  student_username : string;
  course_id : Z;
  grade : option float
}.
End Enrollments.

Module Attendance.
Record row : Type := Row {
  attendance_id : Z;
  student_username : string;
  course_id : Z;
  date : string;
  status : string
}.
End Attendance.

Module Timetable.
Record row : Type := Row {
  timetable_id : Z;
  course_id : Z;
  day : string;
  start_time : string;
  end_time : string
}.
End Timetable.

Record database : Type := Database {
  users : list Users.row;
  students : list Students.row;
  courses : list Courses.row;
  enrollments : list Enrollments.row;
  attendance : list Attendance.row;
  timetable : list Timetable.row
}.

Definition no_tables : database := Database [] [] [] [] [] [].

(** ** Statements

    A statement that breaks a constraint changes nothing and raises
    [sqlite3.IntegrityError]; SQLite tests the CHECK constraints of a row
    before its UNIQUE constraints. *)

Inductive constraint : Type := CHECK | UNIQUE.

Definition mem (s : string) (l : list string) : bool :=
  existsb (String.eqb s) l.

(** The next key of an [INTEGER PRIMARY KEY AUTOINCREMENT] column: one more
    than the largest key used so far.  No statement deletes a row, so the
    largest key in the table is the largest key ever used. *)
Definition autoincrement (keys : list Z) : Z := 1 + fold_right Z.max 0 keys.

Definition insert_users (r : Users.row) (db : database) : constraint + database :=
  if negb (mem (Users.role r) ["admin"; "teacher"; "student"]) then inl CHECK
  else if existsb (fun u => String.eqb (Users.username u) (Users.username r)) (users db)
          || existsb (fun u => String.eqb (Users.email u) (Users.email r)) (users db)
  then inl UNIQUE
  else inr (Database (users db ++ [r]) (students db) (courses db)
                     (enrollments db) (attendance db) (timetable db)).

Definition insert_students (r : Students.row) (db : database) : constraint + database :=
  if negb ((1 <=? Students.grade_level r) && (Students.grade_level r <=? 12))
  then inl CHECK
  else if existsb (fun s => String.eqb (Students.student_id s) (Students.student_id r))
                  (students db)
          || existsb (fun s => String.eqb (Students.username s) (Students.username r))
                     (students db)
  then inl UNIQUE
  else inr (Database (users db) (students db ++ [r]) (courses db)
                     (enrollments db) (attendance db) (timetable db)).

(** [INSERT INTO courses (course_name, teacher_username, credits)]: no
    constraint can fail. *)
Definition with_course (course_name teacher_username : string) (credits : Z)
           (db : database) : database :=
  let r := Courses.Row (autoincrement (map Courses.course_id (courses db)))
                       course_name (Some teacher_username) credits in
  Database (users db) (students db) (courses db ++ [r])
           (enrollments db) (attendance db) (timetable db).

Definition insert_courses (course_name teacher_username : string) (credits : Z)
           (db : database) : constraint + database :=
  inr (with_course course_name teacher_username credits db).

(** [INSERT INTO enrollments (student_username, course_id)]: the grade is
    not given and has no default, so it is NULL; no constraint can fail. *)
Definition with_enrollment (student_username : string) (course_id : Z)
           (db : database) : database :=
  let r := Enrollments.Row (autoincrement (map Enrollments.enrollment_id (enrollments db)))
                           student_username course_id None in
  Database (users db) (students db) (courses db)
           (enrollments db ++ [r]) (attendance db) (timetable db).

Definition insert_enrollments (student_username : string) (course_id : Z)
           (db : database) : constraint + database :=
  inr (with_enrollment student_username course_id db).

(** A [float] bound to a parameter: SQLite keeps no NaN, it stores NULL, and
    it gives a zero back as [0.0] whatever its sign. *)
Definition bind_real (x : float) : option float :=
  if PrimFloat.is_nan x then None
  else if PrimFloat.eqb x 0 then Some 0%float
  else Some x.

(** [CHECK(grade BETWEEN 0 AND 100)]; a NULL passes. *)
Definition grade_check (g : option float) : bool :=
  match g with
  | None => true
  | Some x => PrimFloat.leb 0 x && PrimFloat.leb x 100
  end.

Definition enrollment_of (student_username : string) (course_id : Z)
           (e : Enrollments.row) : bool :=
  String.eqb (Enrollments.student_username e) student_username
  && (Enrollments.course_id e =? course_id).

(** [UPDATE enrollments SET grade = ? WHERE student_username = ? AND
    course_id = ?]: the CHECK is tested on the rows that the statement
    changes, so with no such row it cannot fail. *)
Definition update_enrollments_grade (grade : option float) (student_username : string)
           (course_id : Z) (db : database) : constraint + database :=
  if existsb (enrollment_of student_username course_id) (enrollments db)
     && negb (grade_check grade)
  then inl CHECK
  else inr (Database (users db) (students db) (courses db)
              (map (fun e =>
                      if enrollment_of student_username course_id e
                      then Enrollments.Row (Enrollments.enrollment_id e)
                             (Enrollments.student_username e)
                             (Enrollments.course_id e) grade
                      else e)
                   (enrollments db))
              (attendance db) (timetable db)).

Definition insert_attendance (student_username : string) (course_id : Z)
           (date status : string) (db : database) : constraint + database :=
  if negb (mem status ["Present"; "Absent"; "Late"]) then inl CHECK
  else
    let r := Attendance.Row (autoincrement (map Attendance.attendance_id (attendance db)))
                            student_username course_id date status in
    inr (Database (users db) (students db) (courses db)
                  (enrollments db) (attendance db ++ [r]) (timetable db)).

Definition insert_timetable (course_id : Z) (day start_time end_time : string)
           (db : database) : constraint + database :=
  if negb (mem day ["Monday"; "Tuesday"; "Wednesday"; "Thursday"; "Friday"])
  then inl CHECK
  else
    let r := Timetable.Row (autoincrement (map Timetable.timetable_id (timetable db)))
                           course_id day start_time end_time in
    inr (Database (users db) (students db) (courses db)
                  (enrollments db) (attendance db) (timetable db ++ [r])).

(** ** The object and its operations *)

(** [logged_in_user]: the dictionary with keys "username", "role", "name". *)
Module Session.
Record t : Type := Make { username : string; role : string; name : string }.
End Session.

(** [conn] is the database as the connection sees it, uncommitted changes
    included; [committed] is what [conn.commit()] last made durable.  The
    module [sqlite3] opens a transaction before the first INSERT or UPDATE
    and leaves it open when a later statement raises.  [files] holds the
    regular files that reports are written to, from the path that a name
    resolves to, to the text in the file. *)
Record sms : Type := Sms {
  conn : database;
  committed : database;
  logged_in_user : option Session.t;
  files : gmap string string
}.

(** What a [ValueError] says. *)
Inductive message : Type :=
| Msg (text : string)
| UserCreationFailed (cause : constraint).   (* f"User creation failed: {str(e)}" *)

Inductive exn : Type :=
| PermissionError (msg : string)
| ValueError (msg : message)
| IntegrityError (cause : constraint)        (* sqlite3.IntegrityError *)
| OverflowError                              (* an int beyond 64 bits is bound *)
| OSError (strerror : string)                (* FileNotFoundError and the like *)
| UnicodeEncodeError.                        (* the text does not fit the encoding *)

(** A call returns a value or raises.  The third outcome stands for the
    one case that the development does not follow: a report written to
    something that is not a regular file of its own, such as the file of
    the database itself. *)
Inductive outcome (A : Type) : Type :=
| Return (a : A)
| Raise (e : exn)
| Unknown.
Arguments Return {A} a.
Arguments Raise {A} e.
Arguments Unknown {A}.

(** A computation on the object: the outcome and the object as it is when
    the computation returns or raises. *)
Definition M (A : Type) : Type := sms -> outcome A * sms.

Definition ret {A : Type} (a : A) : M A := fun self => (Return a, self).

Definition bind {A B : Type} (m : M A) (f : A -> M B) : M B :=
  fun self =>
    match m self with
    | (Return a, self') => f a self'
    | (Raise e, self') => (Raise e, self')
    | (Unknown, self') => (Unknown, self')
    end.

Declare Scope M_scope.
Delimit Scope M_scope with M.
Bind Scope M_scope with M.
Notation "'let*' x ':=' m 'in' k" := (bind m (fun x => k))
  (at level 10, x name, m at level 100, k at level 200) : M_scope.
Notation "m ;; k" := (bind m (fun _ => k))
  (at level 100, k at level 200, right associativity) : M_scope.
Local Open Scope M_scope.

Definition with_conn (db : database) (self : sms) : sms :=
  Sms db (committed self) (logged_in_user self) (files self).

Definition raise {A : Type} (e : exn) : M A := fun self => (Raise e, self).

Definition get : M sms := fun self => (Return self, self).

(** [cursor.execute] of a statement that writes. *)
Definition execute (stmt : database -> constraint + database) : M unit :=
  fun self =>
    match stmt (conn self) with
    | inl c => (Raise (IntegrityError c), self)
    | inr db => (Return tt, with_conn db self)
    end.

(** [cursor.execute] of a SELECT followed by [fetchone] or [fetchall]. *)
Definition query {A : Type} (q : database -> A) : M A :=
  fun self => (Return (q (conn self)), self).

(** An integer that fits SQLite's INTEGER, 64 bits with a sign. *)
Definition int64 (n : Z) : bool := (- 2 ^ 63 <=? n) && (n <? 2 ^ 63).

(** [cursor.execute(sql, params)] with the Python [int] [n] among the
    parameters: the module [sqlite3] raises [OverflowError] when [n] does
    not fit, before the statement [m] runs. *)
Definition binding {A : Type} (n : Z) (m : M A) : M A :=
  if int64 n then m else raise OverflowError.

(** [self.conn.commit()] *)
Definition commit : M unit :=
  fun self => (Return tt, Sms (conn self) (conn self) (logged_in_user self) (files self)).

(** [try: body except sqlite3.IntegrityError as e: handler] *)
Definition try_except_IntegrityError {A : Type} (body : M A)
           (handler : constraint -> M A) : M A :=
  fun self =>
    match body self with
    | (Raise (IntegrityError c), self') => handler c self'
    | r => r
    end.

(** [for x in xs: body] *)
Fixpoint for_each {A : Type} (xs : list A) (body : A -> M unit) : M unit :=
  match xs with
  | [] => ret tt
  | x :: xs' => body x;; for_each xs' body
  end.

(** [not self.logged_in_user or self.logged_in_user["role"] != role] *)
Definition lacks_role (role : string) (self : sms) : bool :=
  match logged_in_user self with
  | None => true
  | Some u => negb (String.eqb (Session.role u) role)
  end.

Definition initialize_admin : M unit :=
  let* n := query (fun db =>
       List.length (List.filter (fun u => String.eqb (Users.role u) "admin") (users db))) in
  if (n =? 0)%nat then
    execute (insert_users
               (Users.Row "admin" (hash_password "admin123") "admin"
                          "System Administrator" "admin@school.edu" None));;
    commit
  else ret tt.

(** [SchoolManagementSystem()]: the tables are dropped and created again,
    nobody is logged in, and the administrator is inserted.  [fs] holds the
    regular files, apart from those of the connection, as the program finds
    them. *)
Definition __init__ (fs : gmap string string) : sms :=
  snd (initialize_admin (Sms no_tables no_tables None fs)).

Definition set_logged_in_user (u : Session.t) : M unit :=
  fun self => (Return tt, Sms (conn self) (committed self) (Some u) (files self)).

Definition login (username password : string) : M bool :=
  let* user := query (fun db =>
       find (fun u => String.eqb (Users.username u) username
                      && String.eqb (Users.password u) (hash_password password))
            (users db)) in
  match user with
  | Some u =>
      set_logged_in_user
        (Session.Make (Users.username u) (Users.role u) (Users.name u));;
      ret true
  | None => ret false
  end.

(** [SELECT course_id FROM courses WHERE teacher_username = ?] *)
Definition select_course_ids_of (teacher : string) (db : database) : list Z :=
  map Courses.course_id
      (List.filter (fun c => match Courses.teacher_username c with
                             | Some t => String.eqb t teacher
                             | None => false
                             end)
                   (courses db)).

(** In the loop of [add_user] the integer bound to the INSERT is a course id
    that SQLite has just returned, so it fits and is bound without a test;
    the grade level comes from the caller.  An [OverflowError] is no
    [sqlite3.IntegrityError]: it passes the [except] clause. *)
Definition add_user (username password role name email phone : option string)
           (grade_level : option Z) (assigned_teacher courses : option string) : M bool :=
  let* self := get in
  if lacks_role "admin" self then raise (PermissionError "Admin access required")
  else if negb (forallb Py.truthy [username; password; role; name; email])
  then raise (ValueError (Msg "Missing required fields"))
  else if negb (validate_email (Py.val email))
  then raise (ValueError (Msg "Invalid email format"))
  else if Py.truthy phone && negb (validate_phone phone)
  then raise (ValueError (Msg "Invalid phone format"))
  else
    let username := Py.val username in
    let role := Py.val role in
    try_except_IntegrityError
      (execute (insert_users
                  (Users.Row username (hash_password (Py.val password)) role
                             (Py.val name) (Py.val email) phone));;
       (if String.eqb role "student" && Py.truthy_int grade_level then
          let student_id :=
            "STU" +:+ Py.zfill 4 (Py.last_chars 4 username)
                  +:+ Py.format_02d (Py.int_val grade_level) in
          binding (Py.int_val grade_level)
            (execute (insert_students
                        (Students.Row student_id username (Py.int_val grade_level)
                                      assigned_teacher)));;
          if Py.truthy assigned_teacher then
            let* rows := query (select_course_ids_of (Py.val assigned_teacher)) in
            for_each rows (fun course => execute (insert_enrollments username course))
          else ret tt
        else if String.eqb role "teacher" && Py.truthy courses then
          for_each (Py.split "," (Py.val courses)) (fun course_name =>
            let course_name := Py.strip course_name in
            if Py.truthy (Some course_name)
            then execute (insert_courses course_name username 3)
            else ret tt)
        else ret tt);;
       commit;;
       ret true)
      (fun e => raise (ValueError (UserCreationFailed e))).

Definition enroll_student (student_username : string) (course_id : Z) : M bool :=
  let* student := query (fun db =>
       find (fun u => String.eqb (Users.username u) student_username
                      && String.eqb (Users.role u) "student")
            (users db)) in
  if negb (Py.found student) then raise (ValueError (Msg "Invalid student username"))
  else
    let* course := binding course_id (query (fun db =>
         find (fun c => Courses.course_id c =? course_id) (courses db))) in
    if negb (Py.found course) then raise (ValueError (Msg "Invalid course ID"))
    else
      binding course_id (execute (insert_enrollments student_username course_id));;
      commit;;
      ret true.

Definition assign_grade (student_username : string) (course_id : Z) (grade : float)
  : M bool :=
  let* self := get in
  if lacks_role "teacher" self then raise (PermissionError "Permission denied")
  else
    binding course_id
      (execute (update_enrollments_grade (bind_real grade) student_username
                                         course_id));;
    commit;;
    ret true.

(** [today] is [datetime.now().date()] as the statement stores it, the
    text YYYY-MM-DD. *)
Definition mark_attendance (today : string) (student_username : string)
           (course_id : Z) (status : string) : M bool :=
  let* self := get in
  if lacks_role "teacher" self then raise (PermissionError "Permission denied")
  else
    binding course_id
      (execute (insert_attendance student_username course_id today status));;
    commit;;
    ret true.

Definition add_timetable (course_id : Z) (day start_time end_time : string) : M bool :=
  let* self := get in
  if lacks_role "admin" self then raise (PermissionError "Admin access required")
  else
    binding course_id
      (execute (insert_timetable course_id day start_time end_time));;
    commit;;
    ret true.

(** *** The report *)

(** The rows of
    [SELECT c.course_name, e.grade, a.status, a.date, t.day, t.start_time,
    t.end_time FROM enrollments e JOIN courses c ... LEFT JOIN attendance a
    ... LEFT JOIN timetable t ... WHERE e.student_username = ?]. *)
Module Record_.
Record t : Type := Make {
  course_name : string;
  grade : option float;
  status : option string;
  date : option string;
  day : option string;
  start_time : option string;
  end_time : option string
}.
End Record_.

(** The right side of a LEFT JOIN: the rows that satisfy the ON clause, or
    one row of NULLs when there is none. *)
Definition left_join {A : Type} (on : A -> bool) (rows : list A) : list (option A) :=
  match List.filter on rows with
  | [] => [None]
  | matching => map Some matching
  end.

Definition joined (c : Courses.row) (e : Enrollments.row)
           (a : option Attendance.row) (t : option Timetable.row) : Record_.t :=
  Record_.Make (Courses.course_name c) (Enrollments.grade e)
               (option_map Attendance.status a) (option_map Attendance.date a)
               (option_map Timetable.day t) (option_map Timetable.start_time t)
               (option_map Timetable.end_time t).

(** [ON e.course_id = c.course_id] *)
Definition course_of (e : Enrollments.row) (c : Courses.row) : bool :=
  Enrollments.course_id e =? Courses.course_id c.

(** [ON a.student_username = e.student_username AND a.course_id =
    e.course_id] *)
Definition attendance_of (e : Enrollments.row) (a : Attendance.row) : bool :=
  String.eqb (Attendance.student_username a) (Enrollments.student_username e)
  && (Attendance.course_id a =? Enrollments.course_id e).

(** [ON t.course_id = e.course_id] *)
Definition timetable_of (e : Enrollments.row) (t : Timetable.row) : bool :=
  Timetable.course_id t =? Enrollments.course_id e.

(** [WHERE e.student_username = ?] *)
Definition enrollment_of_student (student_username : string) (e : Enrollments.row)
  : bool :=
  String.eqb (Enrollments.student_username e) student_username.

(** The rows that one enrollment contributes: one per course with its
    course id, attendance row or NULLs, and timetable row or NULLs, each
    table taken in insertion order. *)
Definition records_of_enrollment (db : database) (e : Enrollments.row) : list Record_.t :=
  flat_map (fun c =>
    flat_map (fun a =>
      map (fun t => joined c e a t)
          (left_join (timetable_of e) (timetable db)))
      (left_join (attendance_of e) (attendance db)))
    (List.filter (course_of e) (courses db)).

(** The rows of the statement, enrollment by enrollment.  The statement has
    no ORDER BY: these are the rows that [fetchall] returns, each as often
    as it is here, but SQLite, which reaches the attendance and timetable
    rows through an index that it builds for the query, returns them in an
    order of its own (see [fetchall] below). *)
Definition select_report (student_username : string) (db : database) : list Record_.t :=
  flat_map (records_of_enrollment db)
           (List.filter (enrollment_of_student student_username) (enrollments db)).

(** [f"{x}"] of a value that may be [None]. *)
Definition str_opt (x : option string) : string :=
  match x with
  | Some s => s
  | None => "None"
  end.

Definition newline : string := String "010"%char "".

(** *** The environment *)

(** What [open(filename, 'w')] makes of a file name: the call raises (the
    empty name, a name in a directory that is not there, a directory, a
    name with a NUL); or it creates or empties a regular file, known by the
    path that the name resolves to, so that two names of one file give one
    path; or the name leads to something else, a file that the connection
    [conn] itself works on (the database, its journal), a device, a pipe. *)
Inductive target : Type :=
| Refused (e : exn)
| Regular (path : string)
| Other.

(** [repr_float x] is the text that Python prints for the float [x].
    [fetchall db rows] is the list [rows], selected from [db] for the
    report, in the order in which SQLite returns it.  [encodable text]
    tells whether the encoding of the locale, which [open] takes when none
    is given, has every character of [text]. *)
Record environment : Type := Environment {
  repr_float : float -> string;
  fetchall : database -> list Record_.t -> list Record_.t;
  fetchall_permutes : forall db rows, Permutation (fetchall db rows) rows;
  resolve : string -> target;
  encodable : string -> bool
}.

Definition with_file (path content : string) (self : sms) : sms :=
  Sms (conn self) (committed self) (logged_in_user self)
      (<[path := content]> (files self)).

Section Report.

Variable env : environment.

(** [with open(filename, 'w', newline='') as f: f.write(report)].  [open]
    empties the file before anything is written, and [write] encodes the
    whole text before it writes any of it, so a text that cannot be encoded
    leaves the file empty.  Of a name that leads to no regular file of its
    own the development says only that the outcome is not known, and from
    then on [conn] and [committed] no longer tell what the database file
    holds. *)
Definition write_file (filename content : string) : M unit :=
  fun self =>
    match resolve env filename with
    | Refused e => (Raise e, self)
    | Regular path =>
        if encodable env content then (Return tt, with_file path content self)
        else (Raise UnicodeEncodeError, with_file path "" self)
    | Other => (Unknown, self)
    end.

(** [record[1] if record[1] else 'N/A'] *)
Definition grade_text (g : option float) : string :=
  match g with
  | Some x => if PrimFloat.eqb x 0 then "N/A" else repr_float env x
  | None => "N/A"
  end.

(** The text that the body of [for record in records] appends. *)
Definition block (record : Record_.t) : string :=
  "Course: " +:+ Record_.course_name record +:+ newline
  +:+ "Grade: " +:+ grade_text (Record_.grade record) +:+ newline
  +:+ (if Py.truthy (Record_.status record)
       then "Attendance: " +:+ str_opt (Record_.status record) +:+ " on "
            +:+ str_opt (Record_.date record) +:+ newline
       else "")
  +:+ (if Py.truthy (Record_.day record)
       then "Schedule: " +:+ str_opt (Record_.day record) +:+ " "
            +:+ str_opt (Record_.start_time record) +:+ "-"
            +:+ str_opt (Record_.end_time record) +:+ newline
       else "")
  +:+ newline.

Definition header (student_username : string) (student : Students.row) : string :=
  "Report for " +:+ student_username +:+ " (ID: " +:+ Students.student_id student
  +:+ ")" +:+ newline
  +:+ "Grade Level: " +:+ Py.str_int (Students.grade_level student) +:+ newline
  +:+ "Assigned Teacher: "
  +:+ (if Py.truthy (Students.assigned_teacher student)
       then Py.val (Students.assigned_teacher student) else "None")
  +:+ newline +:+ newline.

Definition report_text (student_username : string) (student : Students.row)
           (records : list Record_.t) : string :=
  fold_left (fun report record => report +:+ block record) records
            (header student_username student).

Definition export_report (student_username filename : string) : M bool :=
  let* student := query (fun db =>
       find (fun s => String.eqb (Students.username s) student_username)
            (students db)) in
  match student with
  | None => ret false
  | Some student =>
      let* records := query (fun db =>
           fetchall env db (select_report student_username db)) in
      write_file filename (report_text student_username student records);;
      ret true
  end.

(** *** Runs of the program *)

Inductive call : Type :=
| Login (username password : string)
| AddUser (username password role name email phone : option string)
          (grade_level : option Z) (assigned_teacher courses : option string)
| EnrollStudent (student_username : string) (course_id : Z)
| AssignGrade (student_username : string) (course_id : Z) (grade : float)
| MarkAttendance (today student_username : string) (course_id : Z) (status : string)
| AddTimetable (course_id : Z) (day start_time end_time : string)
| ExportReport (student_username filename : string).

Definition perform (c : call) : M bool :=
  match c with
  | Login u p => login u p
  | AddUser u p r n e ph g t cs => add_user u p r n e ph g t cs
  | EnrollStudent u c => enroll_student u c
  | AssignGrade u c g => assign_grade u c g
  | MarkAttendance d u c s => mark_attendance d u c s
  | AddTimetable c d s e => add_timetable c d s e
  | ExportReport u f => export_report u f
  end.

(** The object after a sequence of calls, each one returning or raising. *)
Definition run (cs : list call) (self : sms) : sms :=
  fold_left (fun self c => snd (perform c self)) cs self.

(** The states of the object that the program can be in.  A call whose
    outcome is not known counts as a step that leaves the object as it is;
    the properties that need the database file to be intact say so. *)
Inductive reachable : sms -> Prop :=
| reachable_init fs : reachable (__init__ fs)
| reachable_step c self : reachable self -> reachable (snd (perform c self)).

End Report.

(** ** Vocabulary of the properties *)

(** The WHERE clause of [login]. *)
Definition credentials (username password : string) (u : Users.row) : bool :=
  String.eqb (Users.username u) username
  && String.eqb (Users.password u) (hash_password password).

Definition is_student_row (student_username : string) (u : Users.row) : bool :=
  String.eqb (Users.username u) student_username && String.eqb (Users.role u) "student".

Definition is_course_row (course_id : Z) (c : Courses.row) : bool :=
  Courses.course_id c =? course_id.

(** The username belongs to a user with role student. *)
Definition student_user (db : database) (student_username : string) : Prop :=
  exists u, In u (users db)
            /\ Users.username u = student_username /\ Users.role u = "student".

(** The course id exists. *)
Definition course_exists (db : database) (course_id : Z) : Prop :=
  exists c, In c (courses db) /\ Courses.course_id c = course_id.

(** The row of [users] and the row of [students] that [add_user] builds
    from its arguments. *)
Definition new_user_row (username password role name email phone : option string)
  : Users.row :=
  Users.Row (Py.val username) (hash_password (Py.val password)) (Py.val role)
            (Py.val name) (Py.val email) phone.

Definition new_student_row (username : option string) (grade_level : option Z)
           (assigned_teacher : option string) : Students.row :=
  Students.Row ("STU" +:+ Py.zfill 4 (Py.last_chars 4 (Py.val username))
                      +:+ Py.format_02d (Py.int_val grade_level))
               (Py.val username) (Py.int_val grade_level) assigned_teacher.


(** The entries of a comma-separated course list that are not empty once
    the white space around them is removed. *)
Definition course_names (courses : option string) : list string :=
  match courses with
  | None => []
  | Some cs =>
      List.filter (fun n => negb (String.eqb n ""))
                  (map Py.strip (Py.split "," cs))
  end.

(** One course with three credits per name, in order. *)
Definition with_courses (teacher_username : string) (names : list string)
           (db : database) : database :=
  fold_left (fun db n => with_course n teacher_username 3 db) names db.

(** One enrollment per course id, in order. *)
Definition with_enrollments (student_username : string) (course_ids : list Z)
           (db : database) : database :=
  fold_left (fun db c => with_enrollment student_username c db) course_ids db.

(** The WHERE clause of [SELECT course_id FROM courses WHERE
    teacher_username = ?]. *)
Definition taught_by (teacher : string) (c : Courses.row) : bool :=
  match Courses.teacher_username c with
  | Some t => String.eqb t teacher
  | None => false
  end.

(** The student has a row in [enrollments] for the course. *)
Definition enrolled_in (db : database) (student_username : string) (course_id : Z) : Prop :=
  exists e, In e (enrollments db)
            /\ Enrollments.student_username e = student_username
            /\ Enrollments.course_id e = course_id.

(** The three roles that the CHECK on [users.role] lets in. *)
Definition known_role (role : string) : Prop :=
  role = "admin" \/ role = "teacher" \/ role = "student".

(** The two consistency conditions on a database that the runs of the
    program keep: a row of [students] belongs to a user with role student,
    and a row of [enrollments] belongs to a user. *)
Definition students_are_student_users (db : database) : Prop :=
  forall s, In s (students db) -> student_user db (Students.username s).

Definition enrollments_have_users (db : database) : Prop :=
  forall e, In e (enrollments db) ->
            exists u, In u (users db)
                      /\ Users.username u = Enrollments.student_username e.

Definition consistent (db : database) : Prop :=
  students_are_student_users db /\ enrollments_have_users db.

(** Both the database as seen and the database as committed are
    consistent. *)
Definition good (self : sms) : Prop :=
  consistent (conn self) /\ consistent (committed self).

(** Two further conditions that the runs keep: the teacher of a course has
    a name that is not empty, and an enrollment is for a course that
    exists. *)
Definition courses_have_teachers (db : database) : Prop :=
  forall c, In c (courses db) ->
            exists t, Courses.teacher_username c = Some t /\ t <> "".

Definition enrollments_have_courses (db : database) : Prop :=
  forall e, In e (enrollments db) -> course_exists db (Enrollments.course_id e).

Definition referenced (db : database) : Prop :=
  courses_have_teachers db /\ enrollments_have_courses db.

(** The WHERE clause of [SELECT * FROM students WHERE username = ?]. *)
Definition is_student_of (student_username : string) (s : Students.row) : bool :=
  String.eqb (Students.username s) student_username.

(** The strings of a list one after the other. *)
Definition join_all (l : list string) : string := fold_right String.append "" l.

(** The number of blocks that the report has for one enrollment. *)
Definition blocks_of (db : database) (e : Enrollments.row) : nat :=
  (List.length (List.filter (course_of e) (courses db))
   * (Nat.max 1 (List.length (List.filter (attendance_of e) (attendance db)))
      * Nat.max 1 (List.length (List.filter (timetable_of e) (timetable db)))))%nat.

(** ** Sample runs *)

(** The text of the one float that the sample runs print. *)
Definition sample_repr (x : float) : string :=
  if PrimFloat.eqb x 85 then "85.0" else "?".

(** The directory in which the sample runs take place holds regular files
    only, and the program was started in it: the empty name is refused,
    the names of the database and of its journal lead to the files of the
    connection, and any other name is the path of the file. *)
Definition sample_resolve (filename : string) : target :=
  if String.eqb filename "" then Refused (OSError "No such file or directory")
  else if mem filename ["school_management.db"; "school_management.db-journal"]
  then Other
  else Regular filename.

(** The rows in the order of [select_report] are the rows selected. *)
Definition as_selected (db : database) (rows : list Record_.t)
  : Permutation rows rows := Permutation_refl rows.

(** The environment of the sample runs: rows come as selected and every
    text can be encoded, as with UTF-8. *)
Definition sample_env : environment :=
  Environment sample_repr (fun _ rows => rows) as_selected sample_resolve
              (fun _ => true).

Definition as_admin : call := Login "admin" "admin123".

Definition add_teacher_t1 : call :=
  AddUser (Some "t1") (Some "pw") (Some "teacher") (Some "T One") (Some "t1@school.edu")
          None None None (Some "Math, Science").

Definition add_student_s1 : call :=
  AddUser (Some "s1") (Some "pw") (Some "student") (Some "S One") (Some "s1@school.edu")
          (Some "+1234567890") (Some 9) (Some "t1") None.

(** A student for whom no grade level is given. *)
Definition add_student_s2 : call :=
  AddUser (Some "s2") (Some "pw") (Some "student") (Some "S Two") (Some "s2@school.edu")
          None None (Some "t1") None.

(** The program just started. *)
Definition fresh : sms := Eval vm_compute in __init__ ∅.

(** The administrator has logged in. *)
Definition office : sms := Eval vm_compute in run sample_env [as_admin] fresh.

(** The administrator has logged in and created a teacher with two
    courses. *)
Definition school : sms :=
  Eval vm_compute in run sample_env [as_admin; add_teacher_t1] fresh.

(** A student of that teacher has been created and the teacher has logged
    in. *)
Definition class_of_t1 : sms :=
  Eval vm_compute in run sample_env [add_student_s1; Login "t1" "pw"] school.

(** In the school, a student has been created without a grade level. *)
Definition school_with_s2 : sms :=
  Eval vm_compute in run sample_env [add_student_s2] school.

(** The teacher has marked the student absent on one day and late on the
    next in the first course. *)
Definition two_days : sms :=
  Eval vm_compute in run sample_env [MarkAttendance "2026-11-04" "s1" 1 "Absent";
                   MarkAttendance "2026-11-05" "s1" 1 "Late"] class_of_t1.

(** ** Vocabulary of the further properties *)

(** Every character of the string is in the class. *)
Fixpoint all_chars (p : ascii -> bool) (s : string) : bool :=
  match s with
  | "" => true
  | String c s' => p c && all_chars p s'
  end.

(** The character is not an at sign; is not a comma. *)
Definition not_at (c : ascii) : bool := negb (Ascii.eqb c "@").
Definition not_comma (c : ascii) : bool := negb (Ascii.eqb c ",").

(** A count within the bounds of a quantifier. *)
Definition within (lo : nat) (hi : option nat) (n : nat) : Prop :=
  (lo <= n)%nat /\ match hi with
                   | Some h => (n <= h)%nat
                   | None => True
                   end.

(** A lower-case hexadecimal digit. *)
Definition is_hex (c : ascii) : bool :=
  Py.isdigit c || ((97 <=? Py.code c) && (Py.code c <=? 102)).

(** A relation between databases that holds from a database to itself,
    composes, and holds from a database to what a statement of the program
    makes of it when the statement succeeds. *)
Record across_statements (R : database -> database -> Prop) : Prop := Across {
  across_refl : forall db, R db db;
  across_trans : forall a b c, R a b -> R b c -> R a c;
  across_users : forall r db db', insert_users r db = inr db' -> R db db';
  across_students : forall r db db', insert_students r db = inr db' -> R db db';
  across_course : forall n t c db, R db (with_course n t c db);
  across_enrollment : forall u c db, R db (with_enrollment u c db);
  across_update :
    forall g u c db db', update_enrollments_grade g u c db = inr db' -> R db db';
  across_attendance :
    forall u c d s db db', insert_attendance u c d s db = inr db' -> R db db';
  across_timetable :
    forall c d s e db db', insert_timetable c d s e db = inr db' -> R db db'
}.

(** The call is one of the five that end in [self.conn.commit()]. *)
Definition commits (c : call) : bool :=
  match c with
  | Login _ _ => false
  | ExportReport _ _ => false
  | _ => true
  end.

(** The row that [initialize_admin] inserts. *)
Definition admin_row : Users.row :=
  Users.Row "admin" (hash_password "admin123") "admin"
            "System Administrator" "admin@school.edu" None.

(** The columns of an enrollment that no statement changes. *)
Definition enrollment_key (e : Enrollments.row) : Z * string * Z :=
  (Enrollments.enrollment_id e, Enrollments.student_username e,
   Enrollments.course_id e).

(** The second database has every row of the first, unchanged and in the
    same place, and possibly more rows after them; of an enrollment only
    the grade may differ. *)
Definition extends (db db' : database) : Prop :=
  prefix (users db) (users db')
  /\ prefix (students db) (students db')
  /\ prefix (courses db) (courses db')
  /\ prefix (map enrollment_key (enrollments db))
            (map enrollment_key (enrollments db'))
  /\ prefix (attendance db) (attendance db')
  /\ prefix (timetable db) (timetable db').

(** The keys that the schema declares PRIMARY KEY or UNIQUE are pairwise
    different. *)
Definition keys_distinct (db : database) : Prop :=
  NoDup (map Users.username (users db))
  /\ NoDup (map Users.email (users db))
  /\ NoDup (map Students.student_id (students db))
  /\ NoDup (map Students.username (students db))
  /\ NoDup (map Courses.course_id (courses db))
  /\ NoDup (map Enrollments.enrollment_id (enrollments db))
  /\ NoDup (map Attendance.attendance_id (attendance db))
  /\ NoDup (map Timetable.timetable_id (timetable db)).



(** The call writes its report, if it writes one, to a regular file, or is
    refused the file: it does not write over a file that the connection
    works on, nor to a device. *)
Definition on_regular_files (env : environment) (c : call) : Prop :=
  match c with
  | ExportReport _ filename => resolve env filename <> Other
  | _ => True
  end.

(** Nobody is logged in, or somebody with another role. *)
Definition not_logged_in_as (role : string) (self : sms) : Prop :=
  logged_in_user self = None
  \/ exists u, logged_in_user self = Some u /\ Session.role u <> role.

(** Somebody with the role is logged in. *)
Definition logged_in_as (role : string) (self : sms) : Prop :=
  exists u, logged_in_user self = Some u /\ Session.role u = role.

(** In the school, the student of the sample class has been created; the
    administrator is still logged in. *)
Definition school_with_s1 : sms :=
  Eval vm_compute in run sample_env [add_student_s1] school.

(** ** The queries of the dashboards

    Each tab of a dashboard runs one SELECT with the username of the
    logged-in user and shows its rows; here the username is an argument.
    An inner join is a loop over the first table with, inside, the rows of
    the second that satisfy the ON clause. *)

(** [create_student_courses_tab]: [SELECT c.course_id, c.course_name,
    c.teacher_username, c.credits FROM enrollments e JOIN courses c ON
    e.course_id = c.course_id WHERE e.student_username = ?] *)
Definition student_courses (username : string) (db : database) : list Courses.row :=
  flat_map (fun e => List.filter (course_of e) (courses db))
           (List.filter (enrollment_of_student username) (enrollments db)).

(** [create_student_grades_tab]: [SELECT e.course_id, c.course_name, e.grade
    FROM enrollments e JOIN courses c ON e.course_id = c.course_id WHERE
    e.student_username = ?] *)
Definition student_grades (username : string) (db : database)
  : list (Z * string * option float) :=
  flat_map (fun e =>
              map (fun c => (Enrollments.course_id e, Courses.course_name c,
                             Enrollments.grade e))
                  (List.filter (course_of e) (courses db)))
           (List.filter (enrollment_of_student username) (enrollments db)).

(** [ON a.course_id = c.course_id] *)
Definition course_of_attendance (a : Attendance.row) (c : Courses.row) : bool :=
  Attendance.course_id a =? Courses.course_id c.

(** [create_student_attendance_tab]: [SELECT a.course_id, c.course_name,
    a.date, a.status FROM attendance a JOIN courses c ON a.course_id =
    c.course_id WHERE a.student_username = ?] *)
Definition student_attendance (username : string) (db : database)
  : list (Z * string * string * string) :=
  flat_map (fun a =>
              map (fun c => (Attendance.course_id a, Courses.course_name c,
                             Attendance.date a, Attendance.status a))
                  (List.filter (course_of_attendance a) (courses db)))
           (List.filter (fun a => String.eqb (Attendance.student_username a) username)
                        (attendance db)).

(** [create_attendance_tab], of the teacher: [SELECT a.student_username,
    a.course_id, a.date, a.status FROM attendance a JOIN courses c ON
    a.course_id = c.course_id WHERE c.teacher_username = ?] *)
Definition teacher_attendance (teacher : string) (db : database)
  : list (string * Z * string * string) :=
  flat_map (fun a =>
              map (fun c => (Attendance.student_username a, Attendance.course_id a,
                             Attendance.date a, Attendance.status a))
                  (List.filter (fun c => course_of_attendance a c && taught_by teacher c)
                               (courses db)))
           (attendance db).

(** [create_grades_tab], of the teacher: [SELECT e.student_username,
    e.course_id, c.course_name, e.grade FROM enrollments e JOIN courses c ON
    e.course_id = c.course_id WHERE c.teacher_username = ?] *)
Definition teacher_grades (teacher : string) (db : database)
  : list (string * Z * string * option float) :=
  flat_map (fun e =>
              map (fun c => (Enrollments.student_username e, Enrollments.course_id e,
                             Courses.course_name c, Enrollments.grade e))
                  (List.filter (fun c => course_of e c && taught_by teacher c)
                               (courses db)))
           (enrollments db).

(** ** Properties *)

Lemma eqb_true (a b : string) : String.eqb a b = true <-> a = b.
Proof. apply String.eqb_eq. Qed.

Lemma eqb_false (a b : string) : String.eqb a b = false <-> a <> b.
Proof. apply String.eqb_neq. Qed.

Lemma append_assoc (a b c : string) : (a +:+ b) +:+ c = a +:+ (b +:+ c).
Proof.
  induction a as [|ch a IH]; [reflexivity |].
  change (String ch ((a +:+ b) +:+ c) = String ch (a +:+ (b +:+ c))).
  f_equal. exact IH.
Qed.

Lemma append_empty (a : string) : a +:+ "" = a.
Proof.
  induction a as [|ch a IH]; [reflexivity |].
  change (String ch (a +:+ "") = String ch a).
  f_equal. exact IH.
Qed.

(** *** The library functions on known values *)

Example sha256_of_abc :
  hash_password "abc"
  = "ba7816bf8f01cfea414140de5dae2223b00361a396177a9cb410ff61f20015ad".
Proof. vm_compute. reflexivity. Qed.

Example sha256_of_the_initial_password :
  hash_password "admin123"
  = "240be518fabd2724ddb6f04eeb1da5967448d7e831c08c8fa822809f74c720a9".
Proof. vm_compute. reflexivity. Qed.

(** 56 bytes fill the first block up to the length field, so the padding
    takes a second block. *)
Example sha256_of_56_bytes :
  hash_password "aaaaaaaaaaaaaaaaaaaaaaaaaaaaaaaaaaaaaaaaaaaaaaaaaaaaaaaa"
  = "b35439a4ac6f0948b6d6f9e3c6af0f5f590ce20f1bde7090ef7970686ec6738a".
Proof. vm_compute. reflexivity. Qed.

(** The code point 233 is encoded in two bytes. *)
Example sha256_of_e_acute :
  hash_password (String (ascii_of_nat 233) "")
  = "4a99557e4033c3539de2eb65472017cad5f9557f7a0625a09f1c3f6e2ba69c4c".
Proof. vm_compute. reflexivity. Qed.

Example zfill_values :
  map (Py.zfill 4) ["ab"; "+a"; "-"; "-abc"; "abcd"; "alice"]
  = ["00ab"; "+00a"; "-000"; "-abc"; "abcd"; "alice"].
Proof. reflexivity. Qed.

Example format_02d_values :
  map Py.format_02d [5; -3; 123; -12; 0] = ["05"; "-3"; "123"; "-12"; "00"].
Proof. reflexivity. Qed.

Example split_strip_values :
  Py.split "," " a, b ,,c " = [" a"; " b "; ""; "c "]
  /\ map Py.strip (Py.split "," " a, b ,,c ") = ["a"; "b"; ""; "c"]
  /\ course_names (Some "Math, Science") = ["Math"; "Science"]
  /\ course_names (Some " , ,") = [].
Proof. repeat split; reflexivity. Qed.

Example last_chars_values :
  map (Py.last_chars 4) ["alice1234"; "bob"; "s1"] = ["1234"; "bob"; "s1"].
Proof. reflexivity. Qed.

Example student_id_values :
  Students.student_id (new_student_row (Some "alice1234") (Some 9) None) = "STU123409"
  /\ Students.student_id (new_student_row (Some "s1") (Some 12) None) = "STU00s112".
Proof. split; reflexivity. Qed.

(** The email pattern needs a match at the start only; the phone pattern
    reaches to the end, before a final line feed at most. *)
Example validate_email_values :
  map validate_email ["a@b.c"; "a@b"; "a@.c"; "@b.c"; "a@b.c@@@"; "a b@c d.e"]
  = [true; false; false; false; true; true].
Proof. reflexivity. Qed.

Example validate_phone_values :
  map validate_phone
      [None; Some ""; Some "+1234567890"; Some "1234567890"; Some "123456789";
       Some "1234567890123456"; Some "12345-67890";
       Some ("1234567890" +:+ newline); Some ("1234567890" +:+ newline +:+ newline)]
  = [true; true; true; true; false; false; false; true; false].
Proof. reflexivity. Qed.

(** *** [login] *)

Lemma credentials_true username password u :
  credentials username password u = true <->
  Users.username u = username /\ Users.password u = hash_password password.
Proof.
  unfold credentials. rewrite andb_true_iff, !eqb_true. reflexivity.
Qed.

Lemma no_credentials username password (rows : list Users.row) :
  find (credentials username password) rows = None ->
  forall u, In u rows ->
            ~ (Users.username u = username /\ Users.password u = hash_password password).
Proof.
  intros F u Hin Hc. apply credentials_true in Hc.
  pose proof (find_none _ _ F u Hin). congruence.
Qed.

Lemma login_unfold username password self :
  login username password self =
  match find (credentials username password) (users (conn self)) with
  | Some u =>
      (Return true,
       Sms (conn self) (committed self)
           (Some (Session.Make (Users.username u) (Users.role u) (Users.name u)))
           (files self))
  | None => (Return false, self)
  end.
Proof.
  unfold login, bind, query, set_logged_in_user, ret, credentials. simpl.
  destruct (find _ _); reflexivity.
Qed.

(** C1.  [login] returns [True] exactly when some row of [users] has the
    given username, character for character, and holds the SHA-256 digest
    of the given password; it never raises; and a username that no row
    carries exactly is turned down, whatever rows carry it in another case
    or with spaces around it. *)
Theorem login_iff_exact_username_and_hash (username password : string) (self : sms) :
  (fst (login username password self) = Return true <->
   exists u, In u (users (conn self))
             /\ Users.username u = username
             /\ Users.password u = hash_password password)
  /\ (fst (login username password self) = Return true
      \/ fst (login username password self) = Return false)
  /\ ((forall u, In u (users (conn self)) -> Users.username u <> username) ->
      fst (login username password self) = Return false).
Proof.
  rewrite login_unfold.
  destruct (find _ _) as [u|] eqn:F; simpl.
  - apply find_some in F as [Hin Hc]. apply credentials_true in Hc as [Hu Hp].
    repeat split; auto.
    + intros _. exists u. auto.
    + intros Hno. exfalso. exact (Hno u Hin Hu).
  - repeat split; auto.
    + discriminate.
    + intros [u (Hin & Hu & Hp)].
      pose proof (find_none _ _ F u Hin) as Hc.
      assert (credentials username password u = true) by (apply credentials_true; auto).
      congruence.
Qed.

(** The administrator's name in another case or with a space does not log
    in; the name itself does. *)
Lemma login_iff_exact_username_and_hash_witness :
  fst (login "admin" "admin123" fresh) = Return true
  /\ fst (login "Admin" "admin123" fresh) = Return false
  /\ fst (login "admin " "admin123" fresh) = Return false.
Proof.
  split; [| split].
  - apply (login_iff_exact_username_and_hash "admin" "admin123" fresh).
    eexists. split; [left; reflexivity |]. split; [reflexivity | vm_compute; reflexivity].
  - apply (login_iff_exact_username_and_hash "Admin" "admin123" fresh).
    intros u [<- | []]; discriminate.
  - apply (login_iff_exact_username_and_hash "admin " "admin123" fresh).
    intros u [<- | []]; discriminate.
Defined.

(** C10.  When no row of [users] matches the username and the password,
    [login] returns [False] and leaves the object as it was, so
    [logged_in_user] is who it was before the call. *)
Theorem failed_login_keeps_logged_in_user (username password : string) (self : sms) :
  (forall u, In u (users (conn self)) ->
             ~ (Users.username u = username
                /\ Users.password u = hash_password password)) ->
  login username password self = (Return false, self)
  /\ logged_in_user (snd (login username password self)) = logged_in_user self.
Proof.
  intros Hno. rewrite login_unfold.
  destruct (find _ _) as [u|] eqn:F; simpl; auto.
  apply find_some in F as [Hin Hc]. apply credentials_true in Hc.
  destruct (Hno u Hin Hc).
Qed.

(** The teacher stays logged in after a login with a wrong password. *)
Lemma failed_login_keeps_logged_in_user_witness :
  logged_in_user class_of_t1 = Some (Session.Make "t1" "teacher" "T One")
  /\ login "admin" "letmein" class_of_t1 = (Return false, class_of_t1)
  /\ logged_in_user (snd (login "admin" "letmein" class_of_t1))
     = logged_in_user class_of_t1.
Proof.
  split; [reflexivity |].
  apply (failed_login_keeps_logged_in_user "admin" "letmein" class_of_t1).
  apply no_credentials. vm_compute. reflexivity.
Defined.

(** *** [enroll_student] *)

Lemma found_find {A : Type} (p : A -> bool) (l : list A) :
  Py.found (find p l) = existsb p l.
Proof.
  induction l as [|x l IH]; simpl; [reflexivity |].
  destruct (p x); simpl; auto.
Qed.

Lemma student_user_iff db student_username :
  student_user db student_username <->
  existsb (is_student_row student_username) (users db) = true.
Proof.
  rewrite existsb_exists. unfold student_user, is_student_row.
  split; intros [u [Hin H]]; exists u; split; auto.
  - rewrite andb_true_iff, !eqb_true. exact H.
  - rewrite andb_true_iff, !eqb_true in H. exact H.
Qed.

Lemma course_exists_iff db course_id :
  course_exists db course_id <->
  existsb (is_course_row course_id) (courses db) = true.
Proof.
  rewrite existsb_exists. unfold course_exists, is_course_row.
  split; intros [c [Hin H]]; exists c; split; auto.
  - apply Z.eqb_eq. exact H.
  - apply Z.eqb_eq. exact H.
Qed.

Lemma int64_true_iff n : int64 n = true <-> - 2 ^ 63 <= n < 2 ^ 63.
Proof.
  unfold int64. rewrite andb_true_iff, Z.leb_le, Z.ltb_lt. reflexivity.
Qed.

Lemma binding_unfold {A : Type} n (m : M A) self :
  binding n m self = if int64 n then m self else (Raise OverflowError, self).
Proof.
  unfold binding. destruct (int64 n); reflexivity.
Qed.

Lemma enroll_student_unfold student_username course_id self :
  enroll_student student_username course_id self =
  if negb (existsb (is_student_row student_username) (users (conn self)))
  then (Raise (ValueError (Msg "Invalid student username")), self)
  else if negb (int64 course_id) then (Raise OverflowError, self)
  else if negb (existsb (is_course_row course_id) (courses (conn self)))
  then (Raise (ValueError (Msg "Invalid course ID")), self)
  else
    let db := with_enrollment student_username course_id (conn self) in
    (Return true, Sms db db (logged_in_user self) (files self)).
Proof.
  unfold enroll_student, bind at 1, query at 1. simpl.
  rewrite found_find. fold (is_student_row student_username).
  destruct (existsb (is_student_row _) _); simpl; [| reflexivity].
  unfold bind at 1. rewrite binding_unfold.
  destruct (int64 course_id) eqn:I; simpl; [| reflexivity].
  unfold query. rewrite found_find. fold (is_course_row course_id).
  destruct (existsb (is_course_row _) _); simpl; [| reflexivity].
  unfold bind at 1. rewrite binding_unfold, I. reflexivity.
Qed.

(** C8, as the program has it.  [enroll_student] raises a [ValueError]
    exactly when the username is not that of a user with role student, or
    the course id fits the 64 bits of an SQLite INTEGER and no course has
    it.  For the username of a student and a course id that does not fit,
    no course can have the id and the call raises [OverflowError], which
    is no [ValueError].  A call that raises leaves the object as it was.
    Otherwise the call returns [True] and the [enrollments] table is the
    old one followed by one row for this student and course with a NULL
    grade, committed; whether such a row was there already plays no part. *)
Theorem enroll_student_validates_references_only
        (student_username : string) (course_id : Z) (self : sms) :
  ((exists msg, fst (enroll_student student_username course_id self)
                = Raise (ValueError msg)) <->
   (~ student_user (conn self) student_username
    \/ (int64 course_id = true /\ ~ course_exists (conn self) course_id)))
  /\ (fst (enroll_student student_username course_id self) = Raise OverflowError <->
      (student_user (conn self) student_username /\ int64 course_id = false))
  /\ (forall e, fst (enroll_student student_username course_id self) = Raise e ->
                snd (enroll_student student_username course_id self) = self)
  /\ (student_user (conn self) student_username ->
      int64 course_id = true ->
      course_exists (conn self) course_id ->
      exists id db,
        enroll_student student_username course_id self
        = (Return true, Sms db db (logged_in_user self) (files self))
        /\ enrollments db
           = enrollments (conn self)
             ++ [Enrollments.Row id student_username course_id None]
        /\ List.length (enrollments db) = S (List.length (enrollments (conn self)))
        /\ users db = users (conn self)
        /\ students db = students (conn self)
        /\ courses db = courses (conn self)
        /\ attendance db = attendance (conn self)
        /\ timetable db = timetable (conn self)).
Proof.
  rewrite enroll_student_unfold, student_user_iff, course_exists_iff.
  destruct (existsb (is_student_row _) _); simpl.
  - destruct (int64 course_id); simpl.
    + destruct (existsb (is_course_row _) _); simpl.
      * split; [| split; [| split]].
        -- split; [intros [msg H]; discriminate | intros [H | [_ H]]; congruence].
        -- split; [discriminate | intros [_ H]; discriminate].
        -- discriminate.
        -- intros _ _ _. eexists. eexists. split; [reflexivity |].
           simpl. rewrite length_app. simpl. repeat split; auto. lia.
      * split; [| split; [| split]].
        -- split; [intros _; right; split; [reflexivity | discriminate]
                  | intros _; eexists; reflexivity].
        -- split; [discriminate | intros [_ H]; discriminate].
        -- reflexivity.
        -- discriminate.
    + split; [| split; [| split]].
      * split; [intros [msg H]; discriminate
               | intros [H | [H _]]; [congruence | discriminate]].
      * split; auto.
      * reflexivity.
      * discriminate.
  - split; [| split; [| split]].
    + split; [intros _; left; discriminate | intros _; eexists; reflexivity].
    + split; [discriminate | intros [H _]; discriminate].
    + reflexivity.
    + discriminate.
Qed.

(** The student of the sample class, enrolled in the first course when
    created, is enrolled in it once more. *)
Lemma enroll_student_validates_references_only_witness :
  exists id db,
    enroll_student "s1" 1 class_of_t1
    = (Return true, Sms db db (logged_in_user class_of_t1) (files class_of_t1))
    /\ enrollments db
       = enrollments (conn class_of_t1) ++ [Enrollments.Row id "s1" 1 None]
    /\ List.length (enrollments db) = S (List.length (enrollments (conn class_of_t1)))
    /\ users db = users (conn class_of_t1)
    /\ students db = students (conn class_of_t1)
    /\ courses db = courses (conn class_of_t1)
    /\ attendance db = attendance (conn class_of_t1)
    /\ timetable db = timetable (conn class_of_t1).
Proof.
  apply (enroll_student_validates_references_only "s1" 1 class_of_t1).
  - apply student_user_iff. vm_compute. reflexivity.
  - reflexivity.
  - apply course_exists_iff. vm_compute. reflexivity.
Defined.

(** C9.  [enroll_student] looks at [logged_in_user] nowhere: it never
    raises [PermissionError], and whoever is logged in, nobody included, a
    call with the username of a student and the id of a course returns
    [True] and inserts the row.  The id of a course is an SQLite INTEGER,
    so it fits 64 bits. *)
Theorem enroll_student_checks_no_permission
        (student_username : string) (course_id : Z)
        (db committed_db : database) (who : option Session.t)
        (fs : gmap string string) :
  (forall msg, fst (enroll_student student_username course_id
                                   (Sms db committed_db who fs))
               <> Raise (PermissionError msg))
  /\ (student_user db student_username ->
      course_exists db course_id ->
      int64 course_id = true ->
      enroll_student student_username course_id (Sms db committed_db who fs)
      = (Return true,
         Sms (with_enrollment student_username course_id db)
             (with_enrollment student_username course_id db) who fs)
      /\ In (Enrollments.Row
               (autoincrement (map Enrollments.enrollment_id (enrollments db)))
               student_username course_id None)
            (enrollments (with_enrollment student_username course_id db))).
Proof.
  rewrite enroll_student_unfold, student_user_iff, course_exists_iff. simpl.
  destruct (existsb (is_student_row _) _); simpl.
  - destruct (int64 course_id); simpl.
    + destruct (existsb (is_course_row _) _); simpl.
      * split; [discriminate |]. intros _ _ _. split; [reflexivity |].
        apply in_or_app. right. left. reflexivity.
      * split; discriminate.
    + split; discriminate.
  - split; discriminate.
Qed.

(** With nobody logged in, and with the student logged in, the student of
    the sample class is enrolled in the second course. *)
Lemma enroll_student_checks_no_permission_witness :
  fst (enroll_student "s1" 2
         (Sms (conn class_of_t1) (committed class_of_t1) None ∅))
  = Return true
  /\ fst (enroll_student "s1" 2
            (Sms (conn class_of_t1) (committed class_of_t1)
                 (Some (Session.Make "s1" "student" "S One")) ∅))
     = Return true.
Proof.
  split.
  - destruct (enroll_student_checks_no_permission
                "s1" 2 (conn class_of_t1) (committed class_of_t1) None ∅)
      as [_ H].
    destruct H as [H _].
    + apply student_user_iff. vm_compute. reflexivity.
    + apply course_exists_iff. vm_compute. reflexivity.
    + reflexivity.
    + rewrite H. reflexivity.
  - destruct (enroll_student_checks_no_permission
                "s1" 2 (conn class_of_t1) (committed class_of_t1)
                (Some (Session.Make "s1" "student" "S One")) ∅)
      as [_ H].
    destruct H as [H _].
    + apply student_user_iff. vm_compute. reflexivity.
    + apply course_exists_iff. vm_compute. reflexivity.
    + reflexivity.
    + rewrite H. reflexivity.
Defined.

(** *** [add_user] *)

Lemma with_conn_with_conn db db' self :
  with_conn db (with_conn db' self) = with_conn db self.
Proof. reflexivity. Qed.

Lemma for_each_insert_enrollments student_username course_ids self :
  for_each course_ids
           (fun course => execute (insert_enrollments student_username course)) self
  = (Return tt,
     with_conn (with_enrollments student_username course_ids (conn self)) self).
Proof.
  revert self. induction course_ids as [|c cs IH]; intros self.
  - destruct self; reflexivity.
  - simpl. unfold bind, execute at 1. simpl. rewrite IH. reflexivity.
Qed.

Lemma for_each_insert_courses teacher_username entries self :
  for_each entries
           (fun course_name =>
              let course_name := Py.strip course_name in
              if Py.truthy (Some course_name)
              then execute (insert_courses course_name teacher_username 3)
              else ret tt) self
  = (Return tt,
     with_conn (with_courses teacher_username
                  (List.filter (fun n => negb (String.eqb n "")) (map Py.strip entries))
                  (conn self)) self).
Proof.
  revert self. induction entries as [|n ns IH]; intros self.
  - destruct self; reflexivity.
  - simpl. unfold bind at 1. destruct (Py.strip n) as [|ch rest] eqn:E; simpl.
    + rewrite IH. reflexivity.
    + unfold execute at 1. simpl. rewrite IH. reflexivity.
Qed.

Section AddUser.

Variables username password role name email phone : option string.
Variable grade_level : option Z.
Variables assigned_teacher courses : option string.

Abbreviation user_row := (new_user_row username password role name email phone).
Abbreviation student_row := (new_student_row username grade_level assigned_teacher).

Lemma add_user_unfold self :
  add_user username password role name email phone grade_level
           assigned_teacher courses self =
  if lacks_role "admin" self
  then (Raise (PermissionError "Admin access required"), self)
  else if negb (forallb Py.truthy [username; password; role; name; email])
  then (Raise (ValueError (Msg "Missing required fields")), self)
  else if negb (validate_email (Py.val email))
  then (Raise (ValueError (Msg "Invalid email format")), self)
  else if Py.truthy phone && negb (validate_phone phone)
  then (Raise (ValueError (Msg "Invalid phone format")), self)
  else
    match insert_users user_row (conn self) with
    | inl c => (Raise (ValueError (UserCreationFailed c)), self)
    | inr db1 =>
        if String.eqb (Py.val role) "student" && Py.truthy_int grade_level then
          if int64 (Py.int_val grade_level) then
            match insert_students student_row db1 with
            | inl c => (Raise (ValueError (UserCreationFailed c)), with_conn db1 self)
            | inr db2 =>
                let db3 :=
                  if Py.truthy assigned_teacher
                  then with_enrollments (Py.val username)
                         (select_course_ids_of (Py.val assigned_teacher) db2) db2
                  else db2 in
                (Return true, Sms db3 db3 (logged_in_user self) (files self))
            end
          else (Raise OverflowError, with_conn db1 self)
        else if String.eqb (Py.val role) "teacher" && Py.truthy courses then
          let db2 := with_courses (Py.val username) (course_names courses) db1 in
          (Return true, Sms db2 db2 (logged_in_user self) (files self))
        else (Return true, Sms db1 db1 (logged_in_user self) (files self))
    end.
Proof.
  unfold add_user, bind at 1, get.
  destruct (lacks_role "admin" self); [reflexivity |].
  destruct (negb (forallb _ _)); [reflexivity |].
  destruct (negb (validate_email _)); [reflexivity |].
  destruct (Py.truthy phone && negb (validate_phone phone)); [reflexivity |].
  unfold try_except_IntegrityError, bind at 1, execute at 1.
  fold (new_user_row username password role name email phone).
  destruct (insert_users user_row (conn self)) as [c | db1]; [reflexivity |].
  unfold bind at 1.
  destruct (String.eqb (Py.val role) "student" && Py.truthy_int grade_level).
  - unfold bind at 1. rewrite binding_unfold.
    destruct (int64 (Py.int_val grade_level)); [| reflexivity].
    unfold execute at 1.
    fold (new_student_row username grade_level assigned_teacher). simpl conn.
    destruct (insert_students student_row db1) as [c | db2]; [reflexivity |].
    destruct (Py.truthy assigned_teacher).
    + unfold bind at 1, query. rewrite for_each_insert_enrollments. reflexivity.
    + reflexivity.
  - destruct (String.eqb (Py.val role) "teacher" && Py.truthy courses) eqn:T.
    + rewrite for_each_insert_courses.
      apply andb_true_iff in T as [_ T].
      destruct courses as [cs|]; [| discriminate]. reflexivity.
    + reflexivity.
Qed.

End AddUser.


Lemma lacks_role_true_iff role self :
  lacks_role role self = true <->
  (logged_in_user self = None
   \/ exists u, logged_in_user self = Some u /\ Session.role u <> role).
Proof.
  unfold lacks_role. destruct (logged_in_user self) as [u|].
  - rewrite negb_true_iff, eqb_false. split.
    + intros H. right. exists u. auto.
    + intros [H | [v [H Hv]]]; [discriminate | congruence].
  - split; auto.
Qed.

Lemma lacks_role_false_iff role self :
  lacks_role role self = false <->
  exists u, logged_in_user self = Some u /\ Session.role u = role.
Proof.
  unfold lacks_role. destruct (logged_in_user self) as [u|].
  - rewrite negb_false_iff, eqb_true. split.
    + intros H. exists u. auto.
    + intros [v [H Hv]]. congruence.
  - split; [discriminate | intros [v [H _]]; discriminate].
Qed.

Lemma mem_true_iff s l : mem s l = true <-> In s l.
Proof.
  unfold mem. rewrite existsb_exists. split.
  - intros [x [Hin H]]. apply eqb_true in H. congruence.
  - intros H. exists s. split; [exact H | apply eqb_true; reflexivity].
Qed.

Lemma known_role_iff role :
  known_role role <-> mem role ["admin"; "teacher"; "student"] = true.
Proof.
  rewrite mem_true_iff. unfold known_role. simpl. intuition congruence.
Qed.

Lemma existsb_false {A : Type} (p : A -> bool) (l : list A) :
  existsb p l = false -> forall x, In x l -> p x = false.
Proof.
  intros H x Hin. destruct (p x) eqn:E; [| reflexivity].
  rewrite <- H. symmetry. apply existsb_exists. exists x. auto.
Qed.

(** What a successful [INSERT INTO users] has tested and done. *)
Lemma insert_users_inr r db db1 :
  insert_users r db = inr db1 ->
  db1 = Database (users db ++ [r]) (students db) (courses db)
                 (enrollments db) (attendance db) (timetable db)
  /\ known_role (Users.role r)
  /\ (forall u, In u (users db) ->
                Users.username u <> Users.username r
                /\ Users.email u <> Users.email r).
Proof.
  unfold insert_users.
  destruct (mem _ _) eqn:R; simpl; [| discriminate].
  destruct (existsb _ (users db)) eqn:U; simpl; [discriminate |].
  destruct (existsb _ (users db)) eqn:E in |- *; simpl; [discriminate |].
  intros H. injection H as <-. split; [reflexivity |].
  split; [apply known_role_iff; exact R |].
  intros u Hin. split.
  - apply eqb_false. exact (existsb_false _ _ U u Hin).
  - apply eqb_false. exact (existsb_false _ _ E u Hin).
Qed.



(** What [with_courses] adds and what it leaves. *)
Lemma with_courses_spec teacher_username names db :
  exists new,
    courses (with_courses teacher_username names db) = courses db ++ new
    /\ map Courses.course_name new = names
    /\ Forall (fun c => Courses.credits c = 3
                        /\ Courses.teacher_username c = Some teacher_username) new
    /\ users (with_courses teacher_username names db) = users db
    /\ students (with_courses teacher_username names db) = students db
    /\ enrollments (with_courses teacher_username names db) = enrollments db
    /\ attendance (with_courses teacher_username names db) = attendance db
    /\ timetable (with_courses teacher_username names db) = timetable db.
Proof.
  revert db. induction names as [|n ns IH]; intros db.
  - exists []. simpl. rewrite app_nil_r. repeat split; auto.
  - simpl. destruct (IH (with_course n teacher_username 3 db))
      as (new & Hc & Hn & Hall & Hu & Hs & He & Ha & Ht).
    fold (with_courses teacher_username ns (with_course n teacher_username 3 db)).
    exists (Courses.Row (autoincrement (map Courses.course_id (courses db)))
                        n (Some teacher_username) 3 :: new).
    rewrite Hc, Hu, Hs, He, Ha, Ht. simpl. rewrite <- app_assoc. simpl.
    repeat split; auto. congruence.
Qed.

(** C4.  When [add_user] returns [True] for role teacher, the [courses]
    table is the old one followed by one row per entry of the
    comma-separated list that is not empty once trimmed, in order, each
    with three credits and the new username as teacher, and the rows are
    committed.  For the list "Math, Science" these are exactly two rows,
    Math and Science. *)
Theorem add_user_teacher_creates_courses
        (username : string) (password name email phone : option string)
        (grade_level : option Z) (assigned_teacher courses_list : option string)
        (self : sms) :
  fst (add_user (Some username) password (Some "teacher") name email phone
                grade_level assigned_teacher courses_list self)
  = Return true ->
  let self' := snd (add_user (Some username) password (Some "teacher") name email
                             phone grade_level assigned_teacher courses_list self) in
  (exists new,
     courses (conn self') = courses (conn self) ++ new
     /\ map Courses.course_name new = course_names courses_list
     /\ Forall (fun c => Courses.credits c = 3
                         /\ Courses.teacher_username c = Some username) new
     /\ List.length new = List.length (course_names courses_list)
     /\ (courses_list = Some "Math, Science" ->
         exists id1 id2,
           new = [Courses.Row id1 "Math" (Some username) 3;
                  Courses.Row id2 "Science" (Some username) 3]))
  /\ committed self' = conn self'.
Proof.
  intros Hok self'. subst self'. revert Hok. rewrite add_user_unfold.
  destruct (lacks_role "admin" self); [discriminate |].
  destruct (negb (forallb _ _)); [discriminate |].
  destruct (negb (validate_email _)); [discriminate |].
  destruct (Py.truthy phone && negb (validate_phone phone)); [discriminate |].
  destruct (insert_users _ (conn self)) as [c | db1] eqn:Ins; [discriminate |].
  apply insert_users_inr in Ins as (-> & _ & _).
  change (String.eqb (Py.val (Some "teacher")) "student") with false.
  change (String.eqb (Py.val (Some "teacher")) "teacher") with true.
  simpl andb. intros _.
  destruct (Py.truthy courses_list) eqn:T.
  - simpl. split; [| reflexivity].
    match goal with
    | |- context [with_courses ?u ?ns ?db] =>
        destruct (with_courses_spec u ns db) as (new & Hc & Hn & Hall & _)
    end.
    exists new. simpl in Hc. rewrite Hc. split; [reflexivity |].
    split; [exact Hn |]. split; [exact Hall |].
    split; [rewrite <- Hn; symmetry; apply length_map |].
    intros ->. vm_compute in Hn.
    destruct new as [|[i1 n1 t1 c1] [|[i2 n2 t2 c2] [|? ?]]]; try discriminate.
    simpl in Hn. injection Hn as -> ->.
    inversion Hall as [|? ? [H1c H1t] Hall']. inversion Hall' as [|? ? [H2c H2t] _].
    simpl in *. subst. eauto.
  - simpl. split; [| reflexivity].
    exists []. rewrite app_nil_r.
    assert (course_names courses_list = []) as ->.
    { destruct courses_list as [[|ch cs]|]; try reflexivity. discriminate. }
    repeat split; auto. intros ->. discriminate.
Qed.

(** The administrator creates the teacher of the sample school. *)
Lemma add_user_teacher_creates_courses_witness :
  exists id1 id2,
    courses (conn (snd (add_user (Some "t1") (Some "pw") (Some "teacher")
                                 (Some "T One") (Some "t1@school.edu")
                                 None None None (Some "Math, Science") office)))
    = courses (conn office)
      ++ [Courses.Row id1 "Math" (Some "t1") 3;
          Courses.Row id2 "Science" (Some "t1") 3].
Proof.
  assert (Hok : fst (add_user (Some "t1") (Some "pw") (Some "teacher")
                              (Some "T One") (Some "t1@school.edu")
                              None None None (Some "Math, Science") office)
                = Return true)
    by (vm_compute; reflexivity).
  destruct (add_user_teacher_creates_courses
              "t1" (Some "pw") (Some "T One") (Some "t1@school.edu")
              None None None (Some "Math, Science") office Hok)
    as [[new (Hc & _ & _ & _ & Hms)] _].
  destruct (Hms eq_refl) as (id1 & id2 & ->).
  exists id1, id2. exact Hc.
Defined.

(** *** What the runs of the program keep *)

Lemma student_user_more db db' student_username :
  (forall u, In u (users db) -> In u (users db')) ->
  student_user db student_username -> student_user db' student_username.
Proof.
  intros Hsub [u (Hin & Hu & Hr)]. exists u. auto.
Qed.

(** A database with the same users and students, and enrollments of the
    same students, is consistent when the first is. *)
Lemma consistent_same db db' :
  users db' = users db ->
  students db' = students db ->
  map Enrollments.student_username (enrollments db')
  = map Enrollments.student_username (enrollments db) ->
  consistent db -> consistent db'.
Proof.
  intros Hu Hs He [Cs Ce]. split.
  - intros s Hin. rewrite Hs in Hin.
    apply (student_user_more db); [rewrite Hu; auto | auto].
  - intros e Hin.
    assert (In (Enrollments.student_username e)
               (map Enrollments.student_username (enrollments db))) as Hm
        by (rewrite <- He; apply in_map; exact Hin).
    apply in_map_iff in Hm as (e0 & E0 & Hin0).
    destruct (Ce e0 Hin0) as [u [Hin' Hn]].
    exists u. rewrite Hu. split; [exact Hin' | congruence].
Qed.

Lemma consistent_more_users db r :
  consistent db ->
  consistent (Database (users db ++ [r]) (students db) (courses db)
                       (enrollments db) (attendance db) (timetable db)).
Proof.
  intros [Cs Ce]. split.
  - intros s Hin. simpl in Hin.
    apply (student_user_more db); [| auto].
    simpl. intros u Hu. apply in_or_app. auto.
  - intros e Hin. simpl in Hin. destruct (Ce e Hin) as [u [Hu Hn]].
    exists u. simpl. split; [apply in_or_app; auto | exact Hn].
Qed.

Lemma insert_students_inr r db db2 :
  insert_students r db = inr db2 ->
  db2 = Database (users db) (students db ++ [r]) (courses db)
                 (enrollments db) (attendance db) (timetable db).
Proof.
  unfold insert_students.
  destruct (negb _); [discriminate |].
  destruct (_ || _); [discriminate |].
  intros H. injection H as <-. reflexivity.
Qed.

Lemma consistent_more_students db r :
  student_user db (Students.username r) ->
  consistent db ->
  consistent (Database (users db) (students db ++ [r]) (courses db)
                       (enrollments db) (attendance db) (timetable db)).
Proof.
  intros Hr [Cs Ce]. split.
  - intros s Hin. simpl in Hin. apply in_app_or in Hin as [Hin | [<- | []]].
    + destruct (Cs s Hin) as [u H]. exists u. exact H.
    + destruct Hr as [u H]. exists u. exact H.
  - exact Ce.
Qed.

(** What [with_enrollments] adds and what it leaves. *)
Lemma with_enrollments_spec student_username course_ids db :
  exists new,
    enrollments (with_enrollments student_username course_ids db)
    = enrollments db ++ new
    /\ map Enrollments.course_id new = course_ids
    /\ Forall (fun e => Enrollments.student_username e = student_username
                        /\ Enrollments.grade e = None) new
    /\ users (with_enrollments student_username course_ids db) = users db
    /\ students (with_enrollments student_username course_ids db) = students db
    /\ courses (with_enrollments student_username course_ids db) = courses db
    /\ attendance (with_enrollments student_username course_ids db) = attendance db
    /\ timetable (with_enrollments student_username course_ids db) = timetable db.
Proof.
  revert db. induction course_ids as [|c cs IH]; intros db.
  - exists []. simpl. rewrite app_nil_r. repeat split; auto.
  - simpl. destruct (IH (with_enrollment student_username c db))
      as (new & He & Hn & Hall & Hu & Hs & Hc & Ha & Ht).
    fold (with_enrollments student_username cs (with_enrollment student_username c db)).
    exists (Enrollments.Row
              (autoincrement (map Enrollments.enrollment_id (enrollments db)))
              student_username c None :: new).
    rewrite He, Hu, Hs, Hc, Ha, Ht. simpl. rewrite <- app_assoc. simpl.
    repeat split; auto. congruence.
Qed.

Lemma consistent_with_enrollments student_username course_ids db :
  (exists u, In u (users db) /\ Users.username u = student_username) ->
  consistent db ->
  consistent (with_enrollments student_username course_ids db).
Proof.
  intros [u [Hu Hn]] [Cs Ce].
  destruct (with_enrollments_spec student_username course_ids db)
    as (new & He & _ & Hall & Hus & Hst & _).
  split.
  - intros s Hin. rewrite Hst in Hin.
    apply (student_user_more db); [rewrite Hus; auto | auto].
  - intros e Hin. rewrite He in Hin. rewrite Hus.
    apply in_app_or in Hin as [Hin | Hin]; [auto |].
    rewrite List.Forall_forall in Hall. destruct (Hall e Hin) as [Hname _].
    exists u. split; [exact Hu | congruence].
Qed.

Lemma consistent_with_courses teacher_username names db :
  consistent db -> consistent (with_courses teacher_username names db).
Proof.
  destruct (with_courses_spec teacher_username names db)
    as (new & _ & _ & _ & Hu & Hs & He & _).
  apply consistent_same; auto. rewrite He. reflexivity.
Qed.

Lemma update_enrollments_grade_inr grade student_username course_id db db' :
  update_enrollments_grade grade student_username course_id db = inr db' ->
  users db' = users db /\ students db' = students db
  /\ map Enrollments.student_username (enrollments db')
     = map Enrollments.student_username (enrollments db).
Proof.
  unfold update_enrollments_grade. destruct (_ && _); [discriminate |].
  intros H. injection H as <-. simpl. repeat split.
  rewrite map_map. apply map_ext. intros e.
  destruct (enrollment_of _ _ e); reflexivity.
Qed.

Lemma insert_attendance_inr student_username course_id date status db db' :
  insert_attendance student_username course_id date status db = inr db' ->
  users db' = users db /\ students db' = students db
  /\ enrollments db' = enrollments db.
Proof.
  unfold insert_attendance. destruct (negb _); [discriminate |].
  intros H. injection H as <-. auto.
Qed.

Lemma insert_timetable_inr course_id day start_time end_time db db' :
  insert_timetable course_id day start_time end_time db = inr db' ->
  users db' = users db /\ students db' = students db
  /\ enrollments db' = enrollments db.
Proof.
  unfold insert_timetable. destruct (negb _); [discriminate |].
  intros H. injection H as <-. auto.
Qed.

Lemma assign_grade_unfold student_username course_id grade self :
  assign_grade student_username course_id grade self =
  if lacks_role "teacher" self
  then (Raise (PermissionError "Permission denied"), self)
  else if int64 course_id then
    match update_enrollments_grade (bind_real grade) student_username course_id
                                   (conn self) with
    | inl c => (Raise (IntegrityError c), self)
    | inr db => (Return true, Sms db db (logged_in_user self) (files self))
    end
  else (Raise OverflowError, self).
Proof.
  unfold assign_grade, bind at 1, get.
  destruct (lacks_role "teacher" self); [reflexivity |].
  unfold bind at 1. rewrite binding_unfold.
  destruct (int64 course_id); [| reflexivity]. unfold execute.
  destruct (update_enrollments_grade _ _ _ _); reflexivity.
Qed.

Lemma mark_attendance_unfold today student_username course_id status self :
  mark_attendance today student_username course_id status self =
  if lacks_role "teacher" self
  then (Raise (PermissionError "Permission denied"), self)
  else if int64 course_id then
    match insert_attendance student_username course_id today status (conn self) with
    | inl c => (Raise (IntegrityError c), self)
    | inr db => (Return true, Sms db db (logged_in_user self) (files self))
    end
  else (Raise OverflowError, self).
Proof.
  unfold mark_attendance, bind at 1, get.
  destruct (lacks_role "teacher" self); [reflexivity |].
  unfold bind at 1. rewrite binding_unfold.
  destruct (int64 course_id); [| reflexivity]. unfold execute.
  destruct (insert_attendance _ _ _ _ _); reflexivity.
Qed.

Lemma add_timetable_unfold course_id day start_time end_time self :
  add_timetable course_id day start_time end_time self =
  if lacks_role "admin" self
  then (Raise (PermissionError "Admin access required"), self)
  else if int64 course_id then
    match insert_timetable course_id day start_time end_time (conn self) with
    | inl c => (Raise (IntegrityError c), self)
    | inr db => (Return true, Sms db db (logged_in_user self) (files self))
    end
  else (Raise OverflowError, self).
Proof.
  unfold add_timetable, bind at 1, get.
  destruct (lacks_role "admin" self); [reflexivity |].
  unfold bind at 1. rewrite binding_unfold.
  destruct (int64 course_id); [| reflexivity]. unfold execute.
  destruct (insert_timetable _ _ _ _ _); reflexivity.
Qed.

Section Runs.

Variable env : environment.

Lemma export_report_unfold student_username filename self :
  export_report env student_username filename self =
  match find (is_student_of student_username) (students (conn self)) with
  | None => (Return false, self)
  | Some student =>
      let text :=
        report_text env student_username student
          (fetchall env (conn self) (select_report student_username (conn self))) in
      match resolve env filename with
      | Refused e => (Raise e, self)
      | Regular path =>
          if encodable env text then (Return true, with_file path text self)
          else (Raise UnicodeEncodeError, with_file path "" self)
      | Other => (Unknown, self)
      end
  end.
Proof.
  unfold export_report, bind at 1, query at 1. fold (is_student_of student_username).
  destruct (find _ _); [| reflexivity].
  unfold bind, query, write_file, ret. simpl.
  destruct (resolve env filename); [reflexivity | | reflexivity].
  destruct (encodable env _); reflexivity.
Qed.

(** [export_report] changes nothing of the object but its files. *)
Lemma export_report_keeps student_username filename self :
  conn (snd (export_report env student_username filename self)) = conn self
  /\ committed (snd (export_report env student_username filename self))
     = committed self
  /\ logged_in_user (snd (export_report env student_username filename self))
     = logged_in_user self.
Proof.
  rewrite export_report_unfold. destruct (find _ _); [| auto]. cbv zeta.
  destruct (resolve env filename); [auto | | auto].
  destruct (encodable env _); auto.
Qed.

Lemma login_good username password self :
  good self -> good (snd (login username password self)).
Proof.
  rewrite login_unfold. destruct (find _ _); auto.
Qed.

Lemma add_user_good username password role name email phone grade_level
      assigned_teacher courses_list self :
  good self ->
  good (snd (add_user username password role name email phone grade_level
                      assigned_teacher courses_list self)).
Proof.
  intros [Gc Gd]. rewrite add_user_unfold.
  destruct (lacks_role "admin" self); [split; auto |].
  destruct (negb (forallb _ _)); [split; auto |].
  destruct (negb (validate_email _)); [split; auto |].
  destruct (Py.truthy phone && negb (validate_phone phone)); [split; auto |].
  destruct (insert_users _ (conn self)) as [c | db1] eqn:Ins; [split; auto |].
  apply insert_users_inr in Ins as (-> & _ & _).
  pose proof (consistent_more_users (conn self)
                (new_user_row username password role name email phone) Gc) as G1.
  destruct (String.eqb (Py.val role) "student" && Py.truthy_int grade_level) eqn:S.
  - apply andb_true_iff in S as [S _]. apply eqb_true in S.
    destruct (int64 _); [| split; auto].
    destruct (insert_students _ _) as [c | db2] eqn:Ins2; [split; auto |].
    apply insert_students_inr in Ins2; subst db2. simpl users in *.
    cbv zeta. simpl snd.
    match goal with
    | |- good (Sms ?d ?d _ _) => assert (consistent d) as G3
    end; [| split; exact G3].
    assert (exists u, In u (users (conn self)
                            ++ [new_user_row username password role name email phone])
                      /\ Users.username u = Py.val username
                      /\ Users.role u = "student") as Hnew.
    { eexists. split; [apply in_or_app; right; left; reflexivity |].
      split; [reflexivity | exact S]. }
    match goal with
    | |- consistent (if _ then with_enrollments ?u ?cs ?d else ?d) =>
        assert (consistent d) as G2
    end.
    { apply (consistent_more_students
               (Database (users (conn self)
                          ++ [new_user_row username password role name email phone])
                         (students (conn self)) (courses (conn self))
                         (enrollments (conn self)) (attendance (conn self))
                         (timetable (conn self)))
               (new_student_row username grade_level assigned_teacher));
        [exact Hnew | exact G1]. }
    destruct (Py.truthy assigned_teacher); [| exact G2].
    apply consistent_with_enrollments; [| exact G2].
    destruct Hnew as [u (Hin & Hu & _)]. exists u. auto.
  - destruct (String.eqb (Py.val role) "teacher" && Py.truthy courses_list).
    + simpl. split; apply consistent_with_courses; exact G1.
    + split; exact G1.
Qed.

Lemma enroll_student_good student_username course_id self :
  good self -> good (snd (enroll_student student_username course_id self)).
Proof.
  intros [Gc Gd]. rewrite enroll_student_unfold.
  destruct (existsb (is_student_row _) _) eqn:S; simpl; [| split; auto].
  destruct (int64 _); simpl; [| split; auto].
  destruct (existsb (is_course_row _) _); simpl; [| split; auto].
  apply student_user_iff in S as [u (Hin & Hu & _)].
  assert (consistent (with_enrollment student_username course_id (conn self))) as G.
  { apply (consistent_with_enrollments student_username [course_id] (conn self));
      [exists u; auto | exact Gc]. }
  split; exact G.
Qed.

Lemma assign_grade_good student_username course_id grade self :
  good self -> good (snd (assign_grade student_username course_id grade self)).
Proof.
  intros [Gc Gd]. rewrite assign_grade_unfold.
  destruct (lacks_role "teacher" self); [split; auto |].
  destruct (int64 _); [| split; auto].
  destruct (update_enrollments_grade _ _ _ _) as [c | db] eqn:U; [split; auto |].
  apply update_enrollments_grade_inr in U as (Hu & Hs & He).
  assert (consistent db) by (apply (consistent_same (conn self)); auto).
  split; auto.
Qed.

Lemma mark_attendance_good today student_username course_id status self :
  good self ->
  good (snd (mark_attendance today student_username course_id status self)).
Proof.
  intros [Gc Gd]. rewrite mark_attendance_unfold.
  destruct (lacks_role "teacher" self); [split; auto |].
  destruct (int64 _); [| split; auto].
  destruct (insert_attendance _ _ _ _ _) as [c | db] eqn:U; [split; auto |].
  apply insert_attendance_inr in U as (Hu & Hs & He).
  assert (consistent db)
    by (apply (consistent_same (conn self)); auto; rewrite He; reflexivity).
  split; auto.
Qed.

Lemma add_timetable_good course_id day start_time end_time self :
  good self -> good (snd (add_timetable course_id day start_time end_time self)).
Proof.
  intros [Gc Gd]. rewrite add_timetable_unfold.
  destruct (lacks_role "admin" self); [split; auto |].
  destruct (int64 _); [| split; auto].
  destruct (insert_timetable _ _ _ _ _) as [c | db] eqn:U; [split; auto |].
  apply insert_timetable_inr in U as (Hu & Hs & He).
  assert (consistent db)
    by (apply (consistent_same (conn self)); auto; rewrite He; reflexivity).
  split; auto.
Qed.

Lemma export_report_good student_username filename self :
  good self -> good (snd (export_report env student_username filename self)).
Proof.
  intros [Gc Gd].
  destruct (export_report_keeps student_username filename self) as (Hc & Hd & _).
  split; [rewrite Hc; exact Gc | rewrite Hd; exact Gd].
Qed.

Lemma perform_good c self :
  good self -> good (snd (perform env c self)).
Proof.
  destruct c; simpl.
  - apply login_good.
  - apply add_user_good.
  - apply enroll_student_good.
  - apply assign_grade_good.
  - apply mark_attendance_good.
  - apply add_timetable_good.
  - apply export_report_good.
Qed.

Lemma init_good fs : good (__init__ fs).
Proof.
  assert (consistent (conn (__init__ fs)) /\ consistent (committed (__init__ fs))) as H.
  { unfold __init__, initialize_admin, bind, query, execute, commit. simpl.
    split; (split; [intros s [] | intros e []]). }
  exact H.
Qed.

Lemma reachable_good self : reachable env self -> good self.
Proof.
  induction 1 as [fs | c self _ IH].
  - apply init_good.
  - apply perform_good. exact IH.
Qed.

Lemma reachable_run cs self :
  reachable env self -> reachable env (run env cs self).
Proof.
  revert self. induction cs as [|c cs IH]; intros self H; simpl.
  - exact H.
  - apply IH. constructor. exact H.
Qed.

End Runs.

(** *** The sample runs are runs of the program *)

Lemma school_reachable : reachable sample_env school.
Proof.
  assert (school = run sample_env [as_admin; add_teacher_t1] (__init__ ∅)) as ->
      by (vm_compute; reflexivity).
  apply reachable_run, reachable_init.
Qed.

Lemma class_of_t1_reachable : reachable sample_env class_of_t1.
Proof.
  assert (class_of_t1 = run sample_env [add_student_s1; Login "t1" "pw"] school) as ->
      by (vm_compute; reflexivity).
  apply reachable_run, school_reachable.
Qed.

Lemma two_days_reachable : reachable sample_env two_days.
Proof.
  assert (two_days
          = run sample_env [MarkAttendance "2026-11-04" "s1" 1 "Absent";
                            MarkAttendance "2026-11-05" "s1" 1 "Late"] class_of_t1)
    as -> by (vm_compute; reflexivity).
  apply reachable_run, class_of_t1_reachable.
Qed.

Lemma school_with_s2_reachable : reachable sample_env school_with_s2.
Proof.
  assert (school_with_s2 = run sample_env [add_student_s2] school) as ->
      by (vm_compute; reflexivity).
  apply reachable_run, school_reachable.
Qed.

(** C8, as stated, fails: in the sample class, which the program reaches,
    s1 is a user with role student and no course has the id 2^63; the call
    raises [OverflowError], no validation error.  The largest id that fits
    is none that a course has either, and is refused as the claim says. *)
Lemma enroll_student_beyond_64_bits :
  reachable sample_env class_of_t1
  /\ student_user (conn class_of_t1) "s1"
  /\ ~ course_exists (conn class_of_t1) (2 ^ 63)
  /\ enroll_student "s1" (2 ^ 63) class_of_t1 = (Raise OverflowError, class_of_t1)
  /\ enroll_student "s1" (2 ^ 63 - 1) class_of_t1
     = (Raise (ValueError (Msg "Invalid course ID")), class_of_t1).
Proof.
  split; [exact class_of_t1_reachable |].
  split; [apply student_user_iff; vm_compute; reflexivity |].
  split.
  - intros H. apply course_exists_iff in H. vm_compute in H. discriminate H.
  - split; vm_compute; reflexivity.
Qed.

(** *** Students and their rows *)

Lemma no_student_row db student_username :
  existsb (is_student_of student_username) (students db) = false ->
  ~ (exists s, In s (students db) /\ Students.username s = student_username).
Proof.
  intros H [s [Hin Hs]].
  pose proof (existsb_false _ _ H s Hin) as F.
  unfold is_student_of in F. apply eqb_false in F. contradiction.
Qed.

Lemma enrolled_in_iff db student_username course_id :
  enrolled_in db student_username course_id <->
  existsb (enrollment_of student_username course_id) (enrollments db) = true.
Proof.
  rewrite existsb_exists. unfold enrolled_in, enrollment_of.
  split; intros [e [Hin H]]; exists e; split; auto.
  - rewrite andb_true_iff, eqb_true, Z.eqb_eq. exact H.
  - rewrite andb_true_iff, eqb_true, Z.eqb_eq in H. exact H.
Qed.

Lemma truthy_int_nonzero level : level <> 0 -> Py.truthy_int (Some level) = true.
Proof.
  intros H. simpl. apply negb_true_iff. apply Z.eqb_neq. exact H.
Qed.

Lemma truthy_nonempty s : s <> "" -> Py.truthy (Some s) = true.
Proof.
  destruct s; [congruence | reflexivity].
Qed.

(** What a successful [add_user] for role student with a grade level has
    done. *)
Lemma add_user_student_success
      username password name email phone level assigned_teacher courses_list self :
  level <> 0 ->
  fst (add_user (Some username) password (Some "student") name email phone
                (Some level) assigned_teacher courses_list self)
  = Return true ->
  let row := new_user_row (Some username) password (Some "student") name email phone in
  let db2 := Database (users (conn self) ++ [row])
                      (students (conn self)
                       ++ [new_student_row (Some username) (Some level) assigned_teacher])
                      (courses (conn self)) (enrollments (conn self))
                      (attendance (conn self)) (timetable (conn self)) in
  let db3 := if Py.truthy assigned_teacher
             then with_enrollments username
                    (select_course_ids_of (Py.val assigned_teacher) db2) db2
             else db2 in
  snd (add_user (Some username) password (Some "student") name email phone
                (Some level) assigned_teacher courses_list self)
  = Sms db3 db3 (logged_in_user self) (files self)
  /\ (forall u, In u (users (conn self)) -> Users.username u <> username).
Proof.
  intros Hlevel. rewrite add_user_unfold.
  destruct (lacks_role "admin" self); [discriminate |].
  destruct (negb (forallb _ _)); [discriminate |].
  destruct (negb (validate_email _)); [discriminate |].
  destruct (Py.truthy phone && negb (validate_phone phone)); [discriminate |].
  destruct (insert_users _ (conn self)) as [c | db1] eqn:Ins; [discriminate |].
  apply insert_users_inr in Ins as (-> & _ & Hfresh).
  change (String.eqb (Py.val (Some "student")) "student") with true.
  rewrite (truthy_int_nonzero level Hlevel). simpl andb.
  destruct (int64 _); [| discriminate].
  destruct (insert_students _ _) as [c | db2] eqn:Ins2; [discriminate |].
  apply insert_students_inr in Ins2; subst db2.
  intros _. split; [reflexivity |].
  intros u Hin. apply (Hfresh u Hin).
Qed.

(** C2, as the program has it.  In every state that the program reaches,
    each row of [students], seen or committed, belongs to a user with role
    student; the converse is not kept, because a user with role student
    created without a grade level gets no row.  And when [add_user] returns
    [True] for role student and a grade level that is not zero, the
    [students] table holds a row for the new username with that grade level
    and teacher, committed. *)
Theorem student_rows_belong_to_student_users (env : environment) :
  (forall self,
      reachable env self ->
      students_are_student_users (conn self)
      /\ students_are_student_users (committed self))
  /\ (forall username password name email phone level assigned_teacher
             courses_list self,
         level <> 0 ->
         fst (add_user (Some username) password (Some "student") name email phone
                       (Some level) assigned_teacher courses_list self)
         = Return true ->
         let self' :=
           snd (add_user (Some username) password (Some "student") name email phone
                         (Some level) assigned_teacher courses_list self) in
         (exists s, In s (students (conn self'))
                    /\ Students.username s = username
                    /\ Students.grade_level s = level
                    /\ Students.assigned_teacher s = assigned_teacher)
         /\ student_user (conn self') username
         /\ committed self' = conn self').
Proof.
  split.
  - intros self H. apply reachable_good in H as [[Hc _] [Hd _]]. auto.
  - intros username password name email phone level assigned_teacher
           courses_list self Hlevel Hok self'. subst self'.
    destruct (add_user_student_success username password name email phone level
                assigned_teacher courses_list self Hlevel Hok) as [-> _].
    simpl conn. simpl committed. split; [| split; [| reflexivity]].
    + exists (new_student_row (Some username) (Some level) assigned_teacher).
      split; [| auto].
      destruct (Py.truthy assigned_teacher).
      * match goal with
        | |- context [with_enrollments ?u ?cs ?d] =>
            destruct (with_enrollments_spec u cs d) as (new & _ & _ & _ & _ & -> & _)
        end.
        simpl. apply in_or_app. right. left. reflexivity.
      * simpl. apply in_or_app. right. left. reflexivity.
    + exists (new_user_row (Some username) password (Some "student") name email phone).
      split; [| auto].
      destruct (Py.truthy assigned_teacher).
      * match goal with
        | |- context [with_enrollments ?u ?cs ?d] =>
            destruct (with_enrollments_spec u cs d) as (new & _ & _ & _ & -> & _)
        end.
        simpl. apply in_or_app. right. left. reflexivity.
      * simpl. apply in_or_app. right. left. reflexivity.
Qed.

(** The class of the sample teacher is reached, and the student of the
    class was created with grade level 9. *)
Lemma student_rows_belong_to_student_users_witness :
  (students_are_student_users (conn class_of_t1)
   /\ students_are_student_users (committed class_of_t1))
  /\ (exists s,
         In s (students (conn (snd (add_user (Some "s1") (Some "pw") (Some "student")
                                             (Some "S One") (Some "s1@school.edu")
                                             (Some "+1234567890") (Some 9) (Some "t1")
                                             None school))))
         /\ Students.username s = "s1"
         /\ Students.grade_level s = 9
         /\ Students.assigned_teacher s = Some "t1").
Proof.
  split.
  - apply (proj1 (student_rows_belong_to_student_users sample_env)).
    exact class_of_t1_reachable.
  - apply (proj2 (student_rows_belong_to_student_users sample_env)
             "s1" (Some "pw") (Some "S One") (Some "s1@school.edu")
             (Some "+1234567890") 9 (Some "t1") None school).
    + discriminate.
    + vm_compute. reflexivity.
Defined.

(** C2, as stated, fails: in the sample school the administrator creates a
    user with role student and no grade level; the call returns [True], the
    user is there with role student, and [students] has no row for it. *)
Lemma student_user_without_student_row :
  reachable sample_env school
  /\ fst (add_user (Some "s2") (Some "pw") (Some "student") (Some "S Two")
                   (Some "s2@school.edu") None None (Some "t1") None school)
     = Return true
  /\ snd (add_user (Some "s2") (Some "pw") (Some "student") (Some "S Two")
                   (Some "s2@school.edu") None None (Some "t1") None school)
     = school_with_s2
  /\ student_user (conn school_with_s2) "s2"
  /\ student_user (committed school_with_s2) "s2"
  /\ ~ (exists s, In s (students (conn school_with_s2))
                  /\ Students.username s = "s2").
Proof.
  split; [exact school_reachable |].
  split; [vm_compute; reflexivity |].
  split; [vm_compute; reflexivity |].
  split; [apply student_user_iff; vm_compute; reflexivity |].
  split; [apply student_user_iff; vm_compute; reflexivity |].
  apply no_student_row. vm_compute. reflexivity.
Qed.

(** *** Enrollment of a new student *)

Lemma select_course_ids_of_iff teacher db course_id :
  In course_id (select_course_ids_of teacher db) <->
  exists c, In c (courses db)
            /\ Courses.course_id c = course_id
            /\ Courses.teacher_username c = Some teacher.
Proof.
  unfold select_course_ids_of. rewrite in_map_iff. split.
  - intros (c & Hid & Hin). apply filter_In in Hin as [Hin Ht].
    exists c. repeat split; auto.
    destruct (Courses.teacher_username c) as [t|]; [| discriminate].
    apply eqb_true in Ht. congruence.
  - intros (c & Hin & Hid & Ht). exists c. split; [exact Hid |].
    apply filter_In. split; [exact Hin |].
    rewrite Ht. apply eqb_true. reflexivity.
Qed.

(** A database with the same courses, and enrollments for the same
    courses, is referenced when the first is. *)
Lemma referenced_same db db' :
  courses db' = courses db ->
  map Enrollments.course_id (enrollments db')
  = map Enrollments.course_id (enrollments db) ->
  referenced db -> referenced db'.
Proof.
  intros Hc He [Rt Re]. split.
  - intros c Hin. rewrite Hc in Hin. auto.
  - intros e Hin.
    assert (In (Enrollments.course_id e)
               (map Enrollments.course_id (enrollments db))) as Hm
        by (rewrite <- He; apply in_map; exact Hin).
    apply in_map_iff in Hm as (e0 & E0 & Hin0).
    destruct (Re e0 Hin0) as [c [Hcin Hid]].
    exists c. rewrite Hc. split; [exact Hcin | congruence].
Qed.

Lemma referenced_with_courses teacher_username names db :
  teacher_username <> "" ->
  referenced db -> referenced (with_courses teacher_username names db).
Proof.
  intros Hne [Rt Re].
  destruct (with_courses_spec teacher_username names db)
    as (new & Hc & _ & Hall & _ & _ & He & _).
  rewrite List.Forall_forall in Hall. split.
  - intros c Hin. rewrite Hc in Hin. apply in_app_or in Hin as [Hin | Hin]; [auto |].
    exists teacher_username. split; [apply (Hall c Hin) | exact Hne].
  - intros e Hin. rewrite He in Hin. destruct (Re e Hin) as [c [Hcin Hid]].
    exists c. rewrite Hc. split; [apply in_or_app; auto | exact Hid].
Qed.

Lemma referenced_with_enrollments student_username course_ids db :
  (forall id, In id course_ids -> course_exists db id) ->
  referenced db -> referenced (with_enrollments student_username course_ids db).
Proof.
  intros Hids [Rt Re].
  destruct (with_enrollments_spec student_username course_ids db)
    as (new & He & Hmap & _ & _ & _ & Hc & _).
  split.
  - intros c Hin. rewrite Hc in Hin. auto.
  - intros e Hin. rewrite He in Hin.
    assert (course_exists db (Enrollments.course_id e)) as [c [Hcin Hid]].
    { apply in_app_or in Hin as [Hin | Hin]; [auto |].
      apply Hids. rewrite <- Hmap. apply in_map. exact Hin. }
    exists c. rewrite Hc. auto.
Qed.

Lemma update_enrollments_grade_courses grade student_username course_id db db' :
  update_enrollments_grade grade student_username course_id db = inr db' ->
  courses db' = courses db
  /\ map Enrollments.course_id (enrollments db')
     = map Enrollments.course_id (enrollments db).
Proof.
  unfold update_enrollments_grade. destruct (_ && _); [discriminate |].
  intros H. injection H as <-. simpl. split; [reflexivity |].
  rewrite map_map. apply map_ext. intros e.
  destruct (enrollment_of _ _ e); reflexivity.
Qed.

Lemma insert_attendance_courses student_username course_id date status db db' :
  insert_attendance student_username course_id date status db = inr db' ->
  courses db' = courses db /\ enrollments db' = enrollments db.
Proof.
  unfold insert_attendance. destruct (negb _); [discriminate |].
  intros H. injection H as <-. auto.
Qed.

Lemma insert_timetable_courses course_id day start_time end_time db db' :
  insert_timetable course_id day start_time end_time db = inr db' ->
  courses db' = courses db /\ enrollments db' = enrollments db.
Proof.
  unfold insert_timetable. destruct (negb _); [discriminate |].
  intros H. injection H as <-. auto.
Qed.

Lemma add_user_referenced username password role name email phone grade_level
      assigned_teacher courses_list self :
  referenced (conn self) ->
  referenced (conn (snd (add_user username password role name email phone
                                  grade_level assigned_teacher courses_list self))).
Proof.
  intros R. rewrite add_user_unfold.
  destruct (lacks_role "admin" self); [exact R |].
  destruct (forallb Py.truthy _) eqn:All; simpl negb; cbv iota; [| exact R].
  destruct (negb (validate_email _)); [exact R |].
  destruct (Py.truthy phone && negb (validate_phone phone)); [exact R |].
  destruct (insert_users _ (conn self)) as [c | db1] eqn:Ins; [exact R |].
  apply insert_users_inr in Ins as (-> & _ & _).
  match goal with
  | |- context [with_conn ?d self] => assert (referenced d) as R1
  end.
  { apply (referenced_same (conn self)); [reflexivity | reflexivity | exact R]. }
  destruct (String.eqb (Py.val role) "student" && Py.truthy_int grade_level).
  - destruct (int64 _); [| exact R1].
    destruct (insert_students _ _) as [c | db2] eqn:Ins2; [exact R1 |].
    apply insert_students_inr in Ins2; subst db2. cbv zeta. simpl snd. simpl conn.
    match goal with
    | |- referenced (if _ then with_enrollments ?u ?cs ?d else ?d) =>
        assert (referenced d) as R2
    end.
    { revert R1. apply referenced_same; reflexivity. }
    destruct (Py.truthy assigned_teacher); [| exact R2].
    apply referenced_with_enrollments; [| exact R2].
    intros id Hin. apply select_course_ids_of_iff in Hin as (c & Hin & Hid & _).
    exists c. auto.
  - destruct (String.eqb (Py.val role) "teacher" && Py.truthy courses_list).
    + simpl. apply referenced_with_courses; [| exact R1].
      simpl in All. apply andb_true_iff in All as [Hu _].
      intros E. destruct username as [u|]; [| discriminate Hu].
      simpl in E. subst u. discriminate Hu.
    + exact R1.
Qed.

Lemma perform_referenced env c self :
  referenced (conn self) -> referenced (conn (snd (perform env c self))).
Proof.
  intros R. destruct c; simpl.
  - rewrite login_unfold. destruct (find _ _); exact R.
  - apply add_user_referenced. exact R.
  - rewrite enroll_student_unfold.
    destruct (negb _); [exact R |]. destruct (negb _); [exact R |].
    destruct (existsb (is_course_row _) _) eqn:C; simpl; [| exact R].
    apply (referenced_with_enrollments student_username [course_id] (conn self));
      [| exact R].
    intros id [<- | []]. apply course_exists_iff. exact C.
  - rewrite assign_grade_unfold.
    destruct (lacks_role _ _); [exact R |]. destruct (int64 _); [| exact R].
    destruct (update_enrollments_grade _ _ _ _) as [k | db] eqn:U; [exact R |].
    apply update_enrollments_grade_courses in U as [Hc He].
    simpl. apply (referenced_same (conn self)); assumption.
  - rewrite mark_attendance_unfold.
    destruct (lacks_role _ _); [exact R |]. destruct (int64 _); [| exact R].
    destruct (insert_attendance _ _ _ _ _) as [k | db] eqn:U; [exact R |].
    apply insert_attendance_courses in U as [Hc He].
    simpl. apply (referenced_same (conn self)); [exact Hc | rewrite He; reflexivity |].
    exact R.
  - rewrite add_timetable_unfold.
    destruct (lacks_role _ _); [exact R |]. destruct (int64 _); [| exact R].
    destruct (insert_timetable _ _ _ _ _) as [k | db] eqn:U; [exact R |].
    apply insert_timetable_courses in U as [Hc He].
    simpl. apply (referenced_same (conn self)); [exact Hc | rewrite He; reflexivity |].
    exact R.
  - rewrite (proj1 (export_report_keeps env _ _ _)). exact R.
Qed.

(** In every state that the program reaches, the courses have teachers
    with a name and the enrollments are for courses that exist. *)
Lemma reachable_referenced env self : reachable env self -> referenced (conn self).
Proof.
  induction 1 as [fs | c self _ IH].
  - split; [intros c [] | intros e []].
  - apply perform_referenced. exact IH.
Qed.

(** Nobody teaches under the empty name. *)
Lemma no_courses_of_nobody db :
  courses_have_teachers db -> select_course_ids_of "" db = [].
Proof.
  intros Rt. destruct (select_course_ids_of "" db) as [|id ids] eqn:E; [reflexivity |].
  assert (In id (select_course_ids_of "" db)) as Hin by (rewrite E; left; reflexivity).
  apply select_course_ids_of_iff in Hin as (c & Hin & _ & Ht).
  destruct (Rt c Hin) as (t & Ht' & Hne). congruence.
Qed.

(** With no course taught under the empty name, the test of
    [assigned_teacher] makes no difference. *)
Lemma enroll_whatever_the_name teacher student_username db :
  courses_have_teachers db ->
  (if Py.truthy (Some teacher)
   then with_enrollments student_username
          (select_course_ids_of (Py.val (Some teacher)) db) db
   else db)
  = with_enrollments student_username (select_course_ids_of teacher db) db.
Proof.
  intros Rt. destruct teacher as [|ch rest]; [| reflexivity].
  simpl. rewrite (no_courses_of_nobody db Rt). reflexivity.
Qed.

(** C3, as the program has it.  In a state that the program reaches, when
    [add_user] returns [True] for role student with a grade level that is
    not zero and an assigned teacher that is not [None], the new student
    has a row in [enrollments] for a course id exactly when a course with
    that id has the assigned teacher as teacher at the time of the call;
    the rows added are one per such course, in order, each with a NULL
    grade, and they are committed. *)
Theorem add_user_student_enrolls_in_courses_of_teacher
        (env : environment)
        (username : string) (password name email phone : option string)
        (level : Z) (teacher : string) (courses_list : option string) (self : sms) :
  reachable env self ->
  level <> 0 ->
  fst (add_user (Some username) password (Some "student") name email phone
                (Some level) (Some teacher) courses_list self)
  = Return true ->
  let self' :=
    snd (add_user (Some username) password (Some "student") name email phone
                  (Some level) (Some teacher) courses_list self) in
  (forall course_id,
      enrolled_in (conn self') username course_id <->
      exists c, In c (courses (conn self))
                /\ Courses.course_id c = course_id
                /\ Courses.teacher_username c = Some teacher)
  /\ (forall e, In e (enrollments (conn self')) ->
                Enrollments.student_username e = username ->
                Enrollments.grade e = None)
  /\ (exists new,
         enrollments (conn self') = enrollments (conn self) ++ new
         /\ map Enrollments.course_id new = select_course_ids_of teacher (conn self)
         /\ Forall (fun e => Enrollments.student_username e = username
                             /\ Enrollments.grade e = None) new)
  /\ courses (conn self') = courses (conn self)
  /\ committed self' = conn self'.
Proof.
  intros Hreach Hlevel Hok self'. subst self'.
  destruct (add_user_student_success username password name email phone level
              (Some teacher) courses_list self Hlevel Hok) as [-> Hfresh].
  pose proof (reachable_referenced env self Hreach) as [Hteach _].
  apply reachable_good in Hreach as [[_ Henr] _].
  assert (Hold : forall e, In e (enrollments (conn self)) ->
                           Enrollments.student_username e <> username).
  { intros e Hin Hname. destruct (Henr e Hin) as [u [Hu Hn]].
    apply (Hfresh u Hu). congruence. }
  rewrite enroll_whatever_the_name by exact Hteach. simpl conn. simpl committed.
  match goal with
  | |- context [with_enrollments ?u ?cs ?d] =>
      destruct (with_enrollments_spec u cs d)
        as (new & He & Hids & Hall & _ & _ & Hc & _);
        set (db3 := with_enrollments u cs d) in *
  end.
  simpl in He, Hc, Hids.
  change (select_course_ids_of teacher _)
    with (select_course_ids_of teacher (conn self)) in Hids.
  rewrite List.Forall_forall in Hall.
  split; [| split; [| split; [| split; [exact Hc | reflexivity]]]].
  - intros course_id. rewrite <- select_course_ids_of_iff, <- Hids. split.
    + intros [e (Hin & Hname & Hid)]. rewrite He in Hin.
      apply in_app_or in Hin as [Hin | Hin]; [destruct (Hold e Hin Hname) |].
      rewrite <- Hid. apply in_map. exact Hin.
    + intros Hin. apply in_map_iff in Hin as (e & Hid & Hin).
      exists e. rewrite He. split; [apply in_or_app; auto |].
      split; [apply (Hall e Hin) | exact Hid].
  - intros e Hin Hname. rewrite He in Hin.
    apply in_app_or in Hin as [Hin | Hin]; [destruct (Hold e Hin Hname) |].
    apply (Hall e Hin).
  - exists new. rewrite List.Forall_forall. auto.
Qed.

(** The student of the sample class is enrolled in the two courses of the
    teacher. *)
Lemma add_user_student_enrolls_in_courses_of_teacher_witness :
  let self' := snd (add_user (Some "s1") (Some "pw") (Some "student")
                             (Some "S One") (Some "s1@school.edu")
                             (Some "+1234567890") (Some 9) (Some "t1") None school) in
  (enrolled_in (conn self') "s1" 1 /\ enrolled_in (conn self') "s1" 2)
  /\ ~ enrolled_in (conn self') "s1" 3.
Proof.
  intros self'.
  destruct (add_user_student_enrolls_in_courses_of_teacher
              sample_env "s1" (Some "pw") (Some "S One") (Some "s1@school.edu")
              (Some "+1234567890") 9 "t1" None school)
    as [Hiff _].
  - exact school_reachable.
  - discriminate.
  - vm_compute. reflexivity.
  - fold self' in Hiff. split; [split |].
    + apply Hiff. apply select_course_ids_of_iff. left. reflexivity.
    + apply Hiff. apply select_course_ids_of_iff. right. left. reflexivity.
    + intros H. apply Hiff in H. apply select_course_ids_of_iff in H.
      destruct H as [H | [H | []]]; discriminate H.
Defined.

(** C3, as stated, fails: the student created in the sample school with an
    assigned teacher and no grade level is enrolled in none of the two
    courses that the teacher has. *)
Lemma student_without_grade_level_not_enrolled :
  reachable sample_env school
  /\ fst (add_user (Some "s2") (Some "pw") (Some "student") (Some "S Two")
                   (Some "s2@school.edu") None None (Some "t1") None school)
     = Return true
  /\ snd (add_user (Some "s2") (Some "pw") (Some "student") (Some "S Two")
                   (Some "s2@school.edu") None None (Some "t1") None school)
     = school_with_s2
  /\ (exists c, In c (courses (conn school))
                /\ Courses.course_id c = 1
                /\ Courses.teacher_username c = Some "t1")
  /\ ~ enrolled_in (conn school_with_s2) "s2" 1.
Proof.
  split; [exact school_reachable |].
  split; [vm_compute; reflexivity |].
  split; [vm_compute; reflexivity |].
  split.
  - apply select_course_ids_of_iff. left. reflexivity.
  - intros H. apply enrolled_in_iff in H. vm_compute in H. discriminate H.
Qed.

(** *** [assign_grade] and [mark_attendance] *)

Lemma grade_check_in_range grade :
  PrimFloat.leb 0 grade && PrimFloat.leb grade 100 = true ->
  grade_check (bind_real grade) = true.
Proof.
  intros H. unfold bind_real.
  destruct (PrimFloat.is_nan grade); [reflexivity |].
  destruct (PrimFloat.eqb grade 0); [reflexivity | exact H].
Qed.

Lemma update_no_row grade student_username course_id db :
  existsb (enrollment_of student_username course_id) (enrollments db) = false ->
  update_enrollments_grade grade student_username course_id db = inr db.
Proof.
  intros H. unfold update_enrollments_grade. rewrite H. simpl.
  f_equal. destruct db as [us ss cs es ats ts]. simpl in *. f_equal.
  induction es as [|e es IH]; [reflexivity |].
  simpl in H. apply orb_false_iff in H as [He Hes].
  simpl. rewrite He, (IH Hes). reflexivity.
Qed.

(** C5, as the program has it.  With a teacher logged in and a course id
    that fits the 64 bits of an SQLite INTEGER, whatever the student and
    the course are and whoever teaches the course, [mark_attendance]
    returns [True] when the status is Present, Absent or Late, and
    [assign_grade] returns [True] when the grade lies between 0 and 100;
    and when no row of [enrollments] is for the student and the course,
    [assign_grade] returns [True] for every grade and the database is what
    it was, now committed.  For a course id that does not fit, both calls
    raise [OverflowError] and change nothing. *)
Theorem teacher_calls_succeed_without_ownership (self : sms) :
  (exists u, logged_in_user self = Some u /\ Session.role u = "teacher") ->
  (forall today student_username course_id status,
      int64 course_id = true ->
      In status ["Present"; "Absent"; "Late"] ->
      fst (mark_attendance today student_username course_id status self)
      = Return true)
  /\ (forall student_username course_id grade,
         int64 course_id = true ->
         PrimFloat.leb 0 grade && PrimFloat.leb grade 100 = true ->
         fst (assign_grade student_username course_id grade self) = Return true)
  /\ (forall student_username course_id grade,
         int64 course_id = true ->
         ~ enrolled_in (conn self) student_username course_id ->
         assign_grade student_username course_id grade self
         = (Return true,
            Sms (conn self) (conn self) (logged_in_user self) (files self)))
  /\ (forall today student_username course_id status grade,
         int64 course_id = false ->
         mark_attendance today student_username course_id status self
         = (Raise OverflowError, self)
         /\ assign_grade student_username course_id grade self
            = (Raise OverflowError, self)).
Proof.
  intros H. apply lacks_role_false_iff in H. split; [| split; [| split]].
  - intros today student_username course_id status Hi Hs.
    rewrite mark_attendance_unfold, H, Hi. unfold insert_attendance.
    apply mem_true_iff in Hs. rewrite Hs. reflexivity.
  - intros student_username course_id grade Hi Hg.
    rewrite assign_grade_unfold, H, Hi. unfold update_enrollments_grade.
    rewrite (grade_check_in_range grade Hg), andb_false_r. reflexivity.
  - intros student_username course_id grade Hi Hno.
    rewrite assign_grade_unfold, H, Hi.
    rewrite update_no_row; [reflexivity |].
    rewrite enrolled_in_iff in Hno. apply not_true_is_false. exact Hno.
  - intros today student_username course_id status grade Hi.
    rewrite mark_attendance_unfold, assign_grade_unfold, H, Hi. split; reflexivity.
Qed.

(** The sample teacher marks a student who does not exist in a course that
    does not exist, grades the student of the class, and grades an
    enrollment that is not there. *)
Lemma teacher_calls_succeed_without_ownership_witness :
  fst (mark_attendance "2026-11-04" "nobody" 7 "Late" class_of_t1) = Return true
  /\ fst (assign_grade "s1" 1 85 class_of_t1) = Return true
  /\ assign_grade "s1" 7 150 class_of_t1
     = (Return true,
        Sms (conn class_of_t1) (conn class_of_t1)
            (logged_in_user class_of_t1) (files class_of_t1)).
Proof.
  destruct (teacher_calls_succeed_without_ownership class_of_t1) as (Hm & Hg & Hz & _).
  - eexists. split; reflexivity.
  - split; [| split].
    + apply Hm; [reflexivity |]. right. right. left. reflexivity.
    + apply Hg; [reflexivity |]. vm_compute. reflexivity.
    + apply Hz; [reflexivity |].
      intros H. apply enrolled_in_iff in H. vm_compute in H. discriminate H.
Defined.

(** C5, as stated, fails: with the sample teacher logged in, a status that
    is none of the three and a grade above 100 for an enrollment that is
    there make the calls raise [sqlite3.IntegrityError], and a course id of
    2^63 makes them raise [OverflowError]. *)
Lemma teacher_calls_can_raise :
  reachable sample_env class_of_t1
  /\ (exists u, logged_in_user class_of_t1 = Some u /\ Session.role u = "teacher")
  /\ mark_attendance "2026-11-04" "s1" 1 "Sick" class_of_t1
     = (Raise (IntegrityError CHECK), class_of_t1)
  /\ mark_attendance "2026-11-04" "s1" 1 "" class_of_t1
     = (Raise (IntegrityError CHECK), class_of_t1)
  /\ assign_grade "s1" 1 150 class_of_t1
     = (Raise (IntegrityError CHECK), class_of_t1)
  /\ mark_attendance "2026-11-04" "s1" (2 ^ 63) "Present" class_of_t1
     = (Raise OverflowError, class_of_t1)
  /\ assign_grade "s1" (2 ^ 63) 85 class_of_t1
     = (Raise OverflowError, class_of_t1).
Proof.
  split; [exact class_of_t1_reachable |].
  split; [eexists; split; reflexivity |].
  repeat split; vm_compute; reflexivity.
Qed.

(** ** Further properties *)

(** *** The two patterns *)

(** What a quantified class accepts: a run of characters of the class, as
    long as the quantifier allows, followed by what the rest accepts. *)
Lemma rep_spec rest k lo hi s :
  Re.rep rest k lo hi s = true <->
  exists pre post,
    s = pre +:+ post
    /\ all_chars (Re.class_match k) pre = true
    /\ within lo hi (String.length pre)
    /\ rest post = true.
Proof.
  split.
  - revert lo hi. induction s as [|c s IH]; intros lo hi H.
    + simpl in H. rewrite orb_false_r in H. destruct lo; [| discriminate].
      exists "", "". repeat split; auto. destruct hi; simpl; auto. lia.
    + simpl in H. apply orb_true_iff in H as [H | H].
      * destruct lo; [| discriminate].
        exists "", (String c s). repeat split; auto. destruct hi; simpl; auto. lia.
      * rewrite !andb_true_iff in H. destruct H as [[Hc Hroom] Hrep].
        apply IH in Hrep as (pre & post & -> & Hall & [Hlo Hhi] & Hrest).
        exists (String c pre), post. simpl. rewrite Hc, Hall.
        repeat split; auto; [lia |].
        destruct hi as [[|h]|]; simpl in *; auto; [discriminate | lia].
  - intros (pre & post & -> & Hall & [Hlo Hhi] & Hrest).
    revert lo hi Hlo Hhi. induction pre as [|c pre IH]; intros lo hi Hlo Hhi.
    + simpl in Hlo. assert (lo = 0%nat) as -> by lia.
      destruct post; simpl; rewrite Hrest; reflexivity.
    + simpl in Hall. apply andb_true_iff in Hall as [Hc Hall].
      change (String c pre +:+ post) with (String c (pre +:+ post)).
      simpl. rewrite Hc. apply orb_true_iff. right.
      simpl in Hlo, Hhi.
      assert (Re.room hi = true) as -> by (destruct hi as [[|h]|]; simpl; auto; lia).
      simpl. apply IH; auto; [lia |].
      destruct hi as [[|h]|]; simpl in *; auto; lia.
Qed.

Lemma all_chars_lit_one c s :
  all_chars (Re.class_match (Re.Lit c)) s = true ->
  within 1 (Some 1%nat) (String.length s) ->
  s = String c "".
Proof.
  intros Hall [Hlo Hhi]. destruct s as [|d [|e s]]; simpl in *; try lia.
  rewrite andb_true_r in Hall. apply Ascii.eqb_eq in Hall. congruence.
Qed.

Lemma all_chars_lit_opt c s :
  all_chars (Re.class_match (Re.Lit c)) s = true ->
  within 0 (Some 1%nat) (String.length s) ->
  s = "" \/ s = String c "".
Proof.
  intros Hall [Hlo Hhi]. destruct s as [|d [|e s]]; simpl in *; try lia; auto.
  rewrite andb_true_r in Hall. apply Ascii.eqb_eq in Hall. right. congruence.
Qed.

Lemma nonempty_length s : s <> "" <-> (1 <= String.length s)%nat.
Proof.
  destruct s; simpl; split; intros; try congruence; lia.
Qed.

(** X1.  [validate_email] accepts exactly the strings that start with a
    local part, an at sign, a domain, a dot and a further part, the three
    parts not empty and free of at signs; whatever follows is not looked
    at.  So a string that extends an accepted one is accepted as well. *)
Theorem validate_email_accepts_prefix_shape (email : string) :
  (validate_email email = true <->
   exists a b c rest,
     email = a +:+ "@" +:+ b +:+ "." +:+ c +:+ rest
     /\ a <> "" /\ b <> "" /\ c <> ""
     /\ all_chars not_at a = true
     /\ all_chars not_at b = true
     /\ all_chars not_at c = true)
  /\ (forall more, validate_email email = true ->
                   validate_email (email +:+ more) = true).
Proof.
  assert (Hiff : forall e,
             validate_email e = true <->
             exists a b c rest,
               e = a +:+ "@" +:+ b +:+ "." +:+ c +:+ rest
               /\ a <> "" /\ b <> "" /\ c <> ""
               /\ all_chars not_at a = true
               /\ all_chars not_at b = true
               /\ all_chars not_at c = true).
  { intros e. unfold validate_email. simpl Re.run. split.
    - intros H.
      apply rep_spec in H as (a & r1 & -> & Ha & [La _] & H).
      apply rep_spec in H as (at1 & r2 & -> & Hat & Wat & H).
      apply (all_chars_lit_one "@") in Hat; [subst at1 | exact Wat].
      apply rep_spec in H as (b & r3 & -> & Hb & [Lb _] & H).
      apply rep_spec in H as (dot & r4 & -> & Hdot & Wdot & H).
      apply (all_chars_lit_one ".") in Hdot; [subst dot | exact Wdot].
      apply rep_spec in H as (c & rest & -> & Hc & [Lc _] & _).
      exists a, b, c, rest. rewrite !nonempty_length. repeat split; auto.
    - intros (a & b & c & rest & -> & Na & Nb & Nc & Ha & Hb & Hc).
      apply nonempty_length in Na, Nb, Nc.
      apply rep_spec. exists a, ("@" +:+ b +:+ "." +:+ c +:+ rest).
      repeat split; auto.
      apply rep_spec. exists "@", (b +:+ "." +:+ c +:+ rest).
      repeat split; auto.
      apply rep_spec. exists b, ("." +:+ c +:+ rest).
      repeat split; auto.
      apply rep_spec. exists ".", (c +:+ rest).
      repeat split; auto.
      apply rep_spec. exists c, rest.
      repeat split; auto. }
  split; [apply Hiff |].
  intros more H. apply Hiff in H as (a & b & c & rest & -> & H).
  apply Hiff. exists a, b, c, (rest +:+ more). split; [| exact H].
  rewrite !append_assoc. reflexivity.
Qed.

Lemma dollar_iff s : Re.dollar s = true <-> s = "" \/ s = newline.
Proof.
  unfold newline. destruct s as [|c [|d s]]; simpl.
  - split; auto.
  - rewrite Ascii.eqb_eq. split.
    + intros ->. auto.
    + intros [H | H]; [discriminate | congruence].
  - split; [discriminate | intros [H | H]; discriminate].
Qed.

(** X2.  On the strings of the development, which are the Python strings
    of code points below 256, [validate_phone] lets [None] and the empty
    string pass, and accepts a phone that is not empty exactly when it is
    an optional plus sign, then ten to fifteen decimal digits, then nothing
    or one final line feed; the decimal digits below code point 256 are the
    ten characters 0 to 9.  (Above 255 the class [\d] of the pattern holds
    the decimal digits of other scripts as well; a phone with such a
    character is outside the strings of the development.) *)
Theorem validate_phone_accepts_digits_and_final_newline :
  validate_phone None = true
  /\ validate_phone (Some "") = true
  /\ (forall c, Py.isdigit c = true <-> 48 <= Py.code c <= 57)
  /\ (forall phone,
         phone <> "" ->
         (validate_phone (Some phone) = true <->
          exists sign digits tail,
            phone = sign +:+ digits +:+ tail
            /\ (sign = "" \/ sign = "+")
            /\ all_chars Py.isdigit digits = true
            /\ (10 <= String.length digits <= 15)%nat
            /\ (tail = "" \/ tail = newline))).
Proof.
  split; [reflexivity |]. split; [reflexivity |].
  split; [intros c; unfold Py.isdigit; cbv zeta;
          rewrite andb_true_iff, !Z.leb_le; reflexivity |].
  intros phone Hne. unfold validate_phone.
  rewrite (truthy_nonempty phone Hne). simpl Py.val. simpl Re.run. split.
  - intros H.
    apply rep_spec in H as (sign & r1 & -> & Hs & Ws & H).
    apply (all_chars_lit_opt "+") in Hs; [| exact Ws].
    apply rep_spec in H as (digits & tail & -> & Hd & [Lo Hi] & H).
    apply dollar_iff in H.
    exists sign, digits, tail. repeat split; auto.
  - intros (sign & digits & tail & -> & Hs & Hd & [Lo Hi] & Ht).
    apply rep_spec. exists sign, (digits +:+ tail). repeat split.
    + destruct Hs as [-> | ->]; reflexivity.
    + destruct Hs as [-> | ->]; simpl; lia.
    + destruct Hs as [-> | ->]; simpl; lia.
    + apply rep_spec. exists digits, tail. repeat split; auto.
      apply dollar_iff. exact Ht.
Qed.

(** A number with a plus sign and a final line feed passes; nine digits do
    not. *)
Lemma validate_phone_accepts_digits_and_final_newline_witness :
  validate_phone (Some ("+1234567890" +:+ newline)) = true.
Proof.
  destruct validate_phone_accepts_digits_and_final_newline as (_ & _ & _ & H).
  apply H; [discriminate |].
  exists "+", "1234567890", newline. repeat split; auto; simpl; lia.
Defined.

(** An address followed by anything is still accepted. *)
Lemma validate_email_accepts_prefix_shape_witness :
  validate_email ("a@b.c" +:+ "@@ not an address") = true.
Proof.
  apply (proj2 (validate_email_accepts_prefix_shape "a@b.c")).
  apply (proj1 (validate_email_accepts_prefix_shape "a@b.c")).
  exists "a", "b", "c", "". repeat split; auto; discriminate.
Defined.

(** *** The digest *)

Lemma be_bytes_length n x : List.length (Sha256.be_bytes n x) = n.
Proof.
  induction n as [|n IH]; simpl; [reflexivity | rewrite IH; reflexivity].
Qed.

Lemma be_bytes_range n x :
  List.Forall (fun b => 0 <= b < 256) (Sha256.be_bytes n x).
Proof.
  induction n as [|n IH]; simpl; constructor; [| exact IH].
  apply Z.mod_pos_bound. lia.
Qed.

Lemma digest_shape msg :
  List.length (Sha256.digest msg) = 32%nat
  /\ List.Forall (fun b => 0 <= b < 256) (Sha256.digest msg).
Proof.
  unfold Sha256.digest. cbv zeta.
  destruct (Sha256.blocks _ _ _) as [[[[[[[a b] c] d] e] f] g] h].
  split.
  - rewrite (flat_map_constant_length (c := 4%nat)); [reflexivity |].
    intros x _. apply be_bytes_length.
  - apply List.Forall_flat_map. apply List.Forall_forall.
    intros x _. apply be_bytes_range.
Qed.

Lemma is_hex_hex_digit n : 0 <= n < 16 -> is_hex (Sha256.hex_digit n) = true.
Proof.
  intros H.
  assert (F : forallb (fun k => is_hex (Sha256.hex_digit (Z.of_nat k))) (seq 0 16)
              = true) by reflexivity.
  rewrite forallb_forall in F.
  rewrite <- (Z2Nat.id n) by lia. apply F. apply in_seq. lia.
Qed.

Lemma hex_shape bs :
  List.Forall (fun b => 0 <= b < 256) bs ->
  String.length (Sha256.hex bs) = (2 * List.length bs)%nat
  /\ all_chars is_hex (Sha256.hex bs) = true.
Proof.
  induction 1 as [|b bs Hb _ [IHl IHc]]; [split; reflexivity |].
  simpl Sha256.hex. split.
  - simpl. rewrite IHl. lia.
  - simpl. rewrite IHc, !is_hex_hex_digit; [reflexivity | |].
    + apply Z.mod_pos_bound. lia.
    + split; [apply Z.div_pos; lia | apply Z.div_lt_upper_bound; lia].
Qed.

(** X3.  Whatever the password, empty or not, [hash_password] gives 64
    characters, each a lower-case hexadecimal digit; it is never empty, so
    the password column is never NULL or empty. *)
Theorem hash_password_is_64_hex_digits (password : string) :
  String.length (hash_password password) = 64%nat
  /\ all_chars is_hex (hash_password password) = true
  /\ hash_password password <> "".
Proof.
  unfold hash_password, Sha256.hexdigest.
  destruct (digest_shape (Py.encode password)) as [Hl Hr].
  destruct (hex_shape _ Hr) as [Hlen Hhex]. rewrite Hl in Hlen.
  repeat split; auto.
  intros E. rewrite E in Hlen. discriminate Hlen.
Qed.

(** *** What every call does to the database and to the session *)

Section Across.

Variable env : environment.
Variable R : database -> database -> Prop.
Hypothesis HR : across_statements R.

Lemma across_with_enrollments u cs db : R db (with_enrollments u cs db).
Proof.
  revert db. induction cs as [|c cs IH]; intros db; simpl.
  - apply (across_refl R HR).
  - apply (across_trans R HR) with (b := with_enrollment u c db).
    + apply (across_enrollment R HR).
    + apply IH.
Qed.

Lemma across_with_courses t ns db : R db (with_courses t ns db).
Proof.
  revert db. induction ns as [|n ns IH]; intros db; simpl.
  - apply (across_refl R HR).
  - apply (across_trans R HR) with (b := with_course n t 3 db).
    + apply (across_course R HR).
    + apply IH.
Qed.

Lemma add_user_across username password role name email phone grade_level
      assigned_teacher courses_list self :
  R (conn self)
    (conn (snd (add_user username password role name email phone grade_level
                         assigned_teacher courses_list self))).
Proof.
  rewrite add_user_unfold.
  destruct (lacks_role "admin" self); [apply (across_refl R HR) |].
  destruct (negb (forallb _ _)); [apply (across_refl R HR) |].
  destruct (negb (validate_email _)); [apply (across_refl R HR) |].
  destruct (Py.truthy phone && negb (validate_phone phone));
    [apply (across_refl R HR) |].
  destruct (insert_users _ (conn self)) as [c | db1] eqn:Ins;
    [apply (across_refl R HR) |].
  apply (across_users R HR) in Ins.
  destruct (String.eqb (Py.val role) "student" && Py.truthy_int grade_level).
  - destruct (int64 _); [| exact Ins].
    destruct (insert_students _ db1) as [c | db2] eqn:Ins2; [exact Ins |].
    apply (across_students R HR) in Ins2.
    cbv zeta. simpl snd. simpl conn.
    apply (across_trans R HR) with (b := db2);
      [apply (across_trans R HR) with (b := db1); assumption |].
    destruct (Py.truthy assigned_teacher);
      [apply across_with_enrollments | apply (across_refl R HR)].
  - destruct (String.eqb (Py.val role) "teacher" && Py.truthy courses_list).
    + simpl. apply (across_trans R HR) with (b := db1); [exact Ins |].
      apply across_with_courses.
    + exact Ins.
Qed.

(** Whatever relation holds across the statements holds across a call,
    returning or raising, between the database seen before and after. *)
Lemma perform_across c self :
  R (conn self) (conn (snd (perform env c self))).
Proof.
  destruct c; simpl.
  - rewrite login_unfold. destruct (find _ _); apply (across_refl R HR).
  - apply add_user_across.
  - rewrite enroll_student_unfold.
    destruct (negb _); [apply (across_refl R HR) |].
    destruct (negb _); [apply (across_refl R HR) |].
    destruct (negb _); [apply (across_refl R HR) |].
    apply (across_enrollment R HR).
  - rewrite assign_grade_unfold.
    destruct (lacks_role _ _); [apply (across_refl R HR) |].
    destruct (int64 _); [| apply (across_refl R HR)].
    destruct (update_enrollments_grade _ _ _ _) eqn:U;
      [apply (across_refl R HR) | apply (across_update R HR _ _ _ _ _ U)].
  - rewrite mark_attendance_unfold.
    destruct (lacks_role _ _); [apply (across_refl R HR) |].
    destruct (int64 _); [| apply (across_refl R HR)].
    destruct (insert_attendance _ _ _ _ _) eqn:U;
      [apply (across_refl R HR) | apply (across_attendance R HR _ _ _ _ _ _ U)].
  - rewrite add_timetable_unfold.
    destruct (lacks_role _ _); [apply (across_refl R HR) |].
    destruct (int64 _); [| apply (across_refl R HR)].
    destruct (insert_timetable _ _ _ _ _) eqn:U;
      [apply (across_refl R HR) | apply (across_timetable R HR _ _ _ _ _ _ U)].
  - rewrite (proj1 (export_report_keeps env _ _ _)). apply (across_refl R HR).
Qed.

End Across.

Section Calls.

Variable env : environment.

(** What is committed after a call is what was committed before it or
    what the connection sees after it. *)
Lemma perform_committed c self :
  committed (snd (perform env c self)) = committed self
  \/ committed (snd (perform env c self))
     = conn (snd (perform env c self)).
Proof.
  destruct c; simpl.
  - rewrite login_unfold. destruct (find _ _); auto.
  - rewrite add_user_unfold.
    repeat match goal with
           | |- context [if ?b then _ else _] => destruct b; simpl; auto
           | |- context [match ?x with inl _ => _ | inr _ => _ end] =>
               destruct x; simpl; auto
           end.
  - rewrite enroll_student_unfold.
    repeat match goal with
           | |- context [if ?b then _ else _] => destruct b; simpl; auto
           end.
  - rewrite assign_grade_unfold.
    destruct (lacks_role _ _); auto. destruct (int64 _); auto.
    destruct (update_enrollments_grade _ _ _ _); auto.
  - rewrite mark_attendance_unfold.
    destruct (lacks_role _ _); auto. destruct (int64 _); auto.
    destruct (insert_attendance _ _ _ _ _); auto.
  - rewrite add_timetable_unfold.
    destruct (lacks_role _ _); auto. destruct (int64 _); auto.
    destruct (insert_timetable _ _ _ _ _); auto.
  - left. apply (export_report_keeps env).
Qed.

(** A property of databases that every statement keeps holds of the
    database seen and of the database committed in every state that the
    program reaches, once it holds of the database after start. *)
Lemma reachable_kept (P : database -> Prop) :
  across_statements (fun db db' => P db -> P db') ->
  (forall fs, P (conn (__init__ fs))) ->
  forall self, reachable env self -> P (conn self) /\ P (committed self).
Proof.
  intros HP Hinit self H. induction H as [fs | c self _ [IHc IHd]].
  - split; [apply Hinit |].
    assert (committed (__init__ fs) = conn (__init__ fs)) as -> by reflexivity.
    apply Hinit.
  - pose proof (perform_across env _ HP c self IHc) as Hc.
    split; [exact Hc |].
    destruct (perform_committed c self) as [-> | ->]; assumption.
Qed.

End Calls.

(** *** What each statement does when it succeeds *)

Lemma insert_students_done r db db' :
  insert_students r db = inr db' ->
  db' = Database (users db) (students db ++ [r]) (courses db)
                 (enrollments db) (attendance db) (timetable db)
  /\ 1 <= Students.grade_level r <= 12
  /\ (forall s, In s (students db) ->
                Students.student_id s <> Students.student_id r
                /\ Students.username s <> Students.username r).
Proof.
  unfold insert_students.
  destruct (_ && _) eqn:G; simpl; [| discriminate].
  destruct (existsb _ (students db)) eqn:I; simpl; [discriminate |].
  destruct (existsb _ (students db)) eqn:U in |- *; simpl; [discriminate |].
  intros H. injection H as <-. split; [reflexivity |].
  apply andb_true_iff in G as [G1 G2]. split; [lia |].
  intros s Hin. split.
  - apply eqb_false. exact (existsb_false _ _ I s Hin).
  - apply eqb_false. exact (existsb_false _ _ U s Hin).
Qed.

Lemma update_enrollments_grade_done grade student_username course_id db db' :
  update_enrollments_grade grade student_username course_id db = inr db' ->
  db' = Database (users db) (students db) (courses db)
          (map (fun e =>
                  if enrollment_of student_username course_id e
                  then Enrollments.Row (Enrollments.enrollment_id e)
                         (Enrollments.student_username e)
                         (Enrollments.course_id e) grade
                  else e)
               (enrollments db))
          (attendance db) (timetable db)
  /\ (existsb (enrollment_of student_username course_id) (enrollments db) = true ->
      grade_check grade = true).
Proof.
  unfold update_enrollments_grade.
  destruct (existsb _ _) eqn:E; simpl.
  - destruct (grade_check grade); simpl; [| discriminate].
    intros H. injection H as <-. auto.
  - intros H. injection H as <-. split; [reflexivity | discriminate].
Qed.

Lemma insert_attendance_done student_username course_id date status db db' :
  insert_attendance student_username course_id date status db = inr db' ->
  db' = Database (users db) (students db) (courses db) (enrollments db)
          (attendance db
           ++ [Attendance.Row
                 (autoincrement (map Attendance.attendance_id (attendance db)))
                 student_username course_id date status])
          (timetable db)
  /\ In status ["Present"; "Absent"; "Late"].
Proof.
  unfold insert_attendance. destruct (mem _ _) eqn:S; simpl; [| discriminate].
  intros H. injection H as <-. split; [reflexivity |].
  exact (proj1 (mem_true_iff _ _) S).
Qed.

Lemma insert_timetable_done course_id day start_time end_time db db' :
  insert_timetable course_id day start_time end_time db = inr db' ->
  db' = Database (users db) (students db) (courses db) (enrollments db)
          (attendance db)
          (timetable db
           ++ [Timetable.Row
                 (autoincrement (map Timetable.timetable_id (timetable db)))
                 course_id day start_time end_time])
  /\ In day ["Monday"; "Tuesday"; "Wednesday"; "Thursday"; "Friday"].
Proof.
  unfold insert_timetable. destruct (mem _ _) eqn:S; simpl; [| discriminate].
  intros H. injection H as <-. split; [reflexivity |].
  exact (proj1 (mem_true_iff _ _) S).
Qed.

(** The next key is above every key of the table. *)
Lemma autoincrement_above keys k : In k keys -> k < autoincrement keys.
Proof.
  unfold autoincrement. induction keys as [|x keys IH]; simpl; [intros [] |].
  intros [-> | H]; [lia |]. specialize (IH H). lia.
Qed.

Lemma autoincrement_fresh keys : ~ In (autoincrement keys) keys.
Proof.
  intros H. apply autoincrement_above in H. lia.
Qed.

Lemma NoDup_snoc {A : Type} (l : list A) (x : A) :
  NoDup l -> ~ In x l -> NoDup (l ++ [x]).
Proof.
  intros Hl Hx. apply NoDup_app. split; [exact Hl |]. split.
  - intros y Hy Hin. apply list_elem_of_In in Hy, Hin.
    destruct Hin as [-> | []]. contradiction.
  - apply NoDup_singleton.
Qed.

Lemma NoDup_map_snoc {A B : Type} (f : A -> B) (l : list A) (x : A) :
  NoDup (map f l) -> (forall y, In y l -> f y <> f x) -> NoDup (map f (l ++ [x])).
Proof.
  intros Hl Hx. rewrite map_app. simpl. apply NoDup_snoc; [exact Hl |].
  intros Hin. apply in_map_iff in Hin as (y & Hy & Hin). exact (Hx y Hin Hy).
Qed.

Lemma map_key_update (f : Enrollments.row -> bool) grade (l : list Enrollments.row) :
  map enrollment_key
      (map (fun e => if f e
                     then Enrollments.Row (Enrollments.enrollment_id e)
                            (Enrollments.student_username e)
                            (Enrollments.course_id e) grade
                     else e) l)
  = map enrollment_key l.
Proof.
  rewrite map_map. apply map_ext. intros e. destruct (f e); reflexivity.
Qed.

Lemma map_id_update (f : Enrollments.row -> bool) grade (l : list Enrollments.row) :
  map Enrollments.enrollment_id
      (map (fun e => if f e
                     then Enrollments.Row (Enrollments.enrollment_id e)
                            (Enrollments.student_username e)
                            (Enrollments.course_id e) grade
                     else e) l)
  = map Enrollments.enrollment_id l.
Proof.
  rewrite map_map. apply map_ext. intros e. destruct (f e); reflexivity.
Qed.

Lemma keys_distinct_kept :
  across_statements (fun db db' => keys_distinct db -> keys_distinct db').
Proof.
  constructor.
  - auto.
  - auto.
  - intros r db db' H (K1 & K2 & K3 & K4 & K5 & K6 & K7 & K8).
    apply insert_users_inr in H as (-> & _ & Hfresh).
    repeat split; simpl; auto.
    + apply NoDup_map_snoc; [exact K1 | intros y Hy; apply (Hfresh y Hy)].
    + apply NoDup_map_snoc; [exact K2 | intros y Hy; apply (Hfresh y Hy)].
  - intros r db db' H (K1 & K2 & K3 & K4 & K5 & K6 & K7 & K8).
    apply insert_students_done in H as (-> & _ & Hfresh).
    repeat split; simpl; auto.
    + apply NoDup_map_snoc; [exact K3 | intros y Hy; apply (Hfresh y Hy)].
    + apply NoDup_map_snoc; [exact K4 | intros y Hy; apply (Hfresh y Hy)].
  - intros n t c db (K1 & K2 & K3 & K4 & K5 & K6 & K7 & K8).
    repeat split; simpl; auto.
    rewrite map_app. apply NoDup_snoc; [exact K5 | apply autoincrement_fresh].
  - intros u c db (K1 & K2 & K3 & K4 & K5 & K6 & K7 & K8).
    repeat split; simpl; auto.
    rewrite map_app. apply NoDup_snoc; [exact K6 | apply autoincrement_fresh].
  - intros g u c db db' H (K1 & K2 & K3 & K4 & K5 & K6 & K7 & K8).
    apply update_enrollments_grade_done in H as (-> & _).
    repeat split; simpl; auto. rewrite map_id_update. exact K6.
  - intros u c d s db db' H (K1 & K2 & K3 & K4 & K5 & K6 & K7 & K8).
    apply insert_attendance_done in H as (-> & _).
    repeat split; simpl; auto.
    rewrite map_app. apply NoDup_snoc; [exact K7 | apply autoincrement_fresh].
  - intros c d s e db db' H (K1 & K2 & K3 & K4 & K5 & K6 & K7 & K8).
    apply insert_timetable_done in H as (-> & _).
    repeat split; simpl; auto.
    rewrite map_app. apply NoDup_snoc; [exact K8 | apply autoincrement_fresh].
Qed.



Lemma init_conn fs :
  conn (__init__ fs) = Database [admin_row] [] [] [] [] [].
Proof. reflexivity. Qed.

(** *** Invariants of the runs *)

Lemma init_keys_distinct fs : keys_distinct (conn (__init__ fs)).
Proof.
  rewrite init_conn.
  repeat split; simpl; (apply NoDup_nil_2 || apply NoDup_singleton).
Qed.

(** X4.  In every state that the program reaches, in the database seen and
    in the database committed, no two users share a username or an email,
    no two students share a student id or a username, and the course,
    enrollment, attendance and timetable ids are pairwise different. *)
Theorem reachable_keys_distinct (env : environment) (self : sms) :
  reachable env self ->
  keys_distinct (conn self) /\ keys_distinct (committed self).
Proof.
  intros H.
  destruct (reachable_kept env keys_distinct keys_distinct_kept
                           init_keys_distinct self H) as [Hc Hd].
  split; [exact Hc | exact Hd].
Qed.

Lemma reachable_keys_distinct_witness :
  keys_distinct (conn two_days) /\ keys_distinct (committed two_days).
Proof.
  apply (reachable_keys_distinct sample_env two_days). exact two_days_reachable.
Defined.



Lemma prefix_snoc {A : Type} (l : list A) (x : A) : prefix l (l ++ [x]).
Proof. exists [x]. reflexivity. Qed.

Lemma extends_kept : across_statements extends.
Proof.
  constructor.
  - intros db. repeat split; reflexivity.
  - intros a b c (A1 & A2 & A3 & A4 & A5 & A6) (B1 & B2 & B3 & B4 & B5 & B6).
    repeat split; etrans; eauto.
  - intros r db db' H. apply insert_users_inr in H as (-> & _).
    repeat split; simpl; try reflexivity. apply prefix_snoc.
  - intros r db db' H. apply insert_students_done in H as (-> & _).
    repeat split; simpl; try reflexivity. apply prefix_snoc.
  - intros n t c db. repeat split; simpl; try reflexivity. apply prefix_snoc.
  - intros u c db. repeat split; simpl; try reflexivity.
    rewrite map_app. apply prefix_snoc.
  - intros g u c db db' H. apply update_enrollments_grade_done in H as (-> & _).
    repeat split; simpl; try reflexivity. rewrite map_key_update. reflexivity.
  - intros u c d s db db' H. apply insert_attendance_done in H as (-> & _).
    repeat split; simpl; try reflexivity. apply prefix_snoc.
  - intros c d s e db db' H. apply insert_timetable_done in H as (-> & _).
    repeat split; simpl; try reflexivity. apply prefix_snoc.
Qed.

Lemma run_extends env cs self :
  extends (conn self) (conn (run env cs self)).
Proof.
  revert self. induction cs as [|c cs IH]; intros self; simpl.
  - apply (across_refl extends extends_kept).
  - apply (across_trans extends extends_kept)
      with (b := conn (snd (perform env c self))).
    + apply (perform_across env extends extends_kept).
    + apply IH.
Qed.

(** X6.  No call and no sequence of calls, returning or raising, removes or
    changes a row of users, students, courses, attendance or timetable, or
    the id, student or course of an enrollment, as long as no report is
    written over a file of the connection: each table after the calls
    starts with the table before them.  Only grades are ever overwritten;
    in particular no password and no role ever changes. *)
Theorem calls_only_add_rows
        (env : environment) (cs : list call) (self : sms) :
  List.Forall (on_regular_files env) cs ->
  extends (conn self) (conn (run env cs self))
  /\ (forall u, In u (users (conn self)) ->
                In u (users (conn (run env cs self)))).
Proof.
  intros _. pose proof (run_extends env cs self) as H.
  split; [exact H |].
  destruct H as ([more Hu] & _). intros u Hin. rewrite Hu.
  apply in_or_app. auto.
Qed.

Lemma reachable_has_admin_row env self :
  reachable env self -> In admin_row (users (conn self)).
Proof.
  assert (K : across_statements
                (fun db db' => In admin_row (users db) -> In admin_row (users db'))).
  { constructor; auto.
    - intros r db db' H Hin. apply insert_users_inr in H as (-> & _).
      simpl. apply in_or_app. auto.
    - intros r db db' H Hin. apply insert_students_done in H as (-> & _). exact Hin.
    - intros g u c db db' H Hin.
      apply update_enrollments_grade_done in H as (-> & _). exact Hin.
    - intros u c d s db db' H Hin. apply insert_attendance_done in H as (-> & _).
      exact Hin.
    - intros c d s e db db' H Hin. apply insert_timetable_done in H as (-> & _).
      exact Hin. }
  intros H.
  apply (reachable_kept env (fun db => In admin_row (users db)) K);
    [| exact H].
  intros fs. rewrite init_conn. left. reflexivity.
Qed.

Lemma NoDup_map_same {A B : Type} (f : A -> B) (l : list A) (x y : A) :
  NoDup (map f l) -> In x l -> In y l -> f x = f y -> x = y.
Proof.
  induction l as [|a l IH]; simpl; [intros _ [] |].
  intros Hnd Hx Hy E. apply NoDup_cons in Hnd as [Ha Hl].
  rewrite list_elem_of_In in Ha.
  destruct Hx as [-> | Hx], Hy as [-> | Hy]; auto.
  - exfalso. apply Ha. rewrite E. apply in_map. exact Hy.
  - exfalso. apply Ha. rewrite <- E. apply in_map. exact Hx.
Qed.

(** X7.  After every sequence of calls since the start of the program, as
    long as no report was written over a file of the connection, the
    initial credentials still log in: [login] with admin and admin123
    returns [True] and makes the administrator the logged-in user, with
    role admin.  No operation changes or removes that password. *)
Theorem reachable_initial_admin_logs_in
        (env : environment) (fs : gmap string string) (cs : list call) :
  List.Forall (on_regular_files env) cs ->
  let self := run env cs (__init__ fs) in
  login "admin" "admin123" self
  = (Return true,
     Sms (conn self) (committed self)
         (Some (Session.Make "admin" "admin" "System Administrator"))
         (files self)).
Proof.
  intros _ self.
  assert (H : reachable env self) by (apply reachable_run, reachable_init).
  pose proof (reachable_has_admin_row _ _ H) as Hin.
  apply (reachable_kept env keys_distinct keys_distinct_kept
                        init_keys_distinct) in H as [(Hnd & _) _].
  rewrite login_unfold.
  destruct (find _ _) as [u|] eqn:F.
  - apply find_some in F as [Hu Hc]. apply credentials_true in Hc as [Hname _].
    assert (u = admin_row) as ->
        by (apply (NoDup_map_same Users.username (users (conn self))); auto).
    reflexivity.
  - pose proof (find_none _ _ F admin_row Hin) as Hc.
    assert (credentials "admin" "admin123" admin_row = true)
      by (apply credentials_true; split; reflexivity).
    congruence.
Qed.

(** After the teacher and the student of the sample class were created, a
    report was written and the teacher logged in. *)
Lemma reachable_initial_admin_logs_in_witness :
  fst (login "admin" "admin123"
         (run sample_env [as_admin; add_teacher_t1; add_student_s1;
                          ExportReport "s1" "report.txt"; Login "t1" "pw"]
              (__init__ ∅)))
  = Return true.
Proof.
  assert (H : List.Forall (on_regular_files sample_env)
                          [as_admin; add_teacher_t1; add_student_s1;
                           ExportReport "s1" "report.txt"; Login "t1" "pw"])
    by (repeat constructor; cbv; discriminate).
  exact (f_equal fst (reachable_initial_admin_logs_in sample_env ∅ _ H)).
Defined.

(** The administrator's row is still there after a student is created in
    the sample school. *)
Lemma calls_only_add_rows_witness :
  In admin_row (users (conn (run sample_env [add_student_s1] school))).
Proof.
  apply (proj2 (calls_only_add_rows sample_env [add_student_s1] school
                                    ltac:(repeat constructor))).
  left. vm_compute. reflexivity.
Defined.

Section Session.

Variable env : environment.

Lemma perform_logged_in_user c self :
  logged_in_user (snd (perform env c self)) = logged_in_user self
  \/ (exists username password u,
         c = Login username password
         /\ In u (users (conn self))
         /\ Users.username u = username
         /\ Users.password u = hash_password password
         /\ logged_in_user (snd (perform env c self))
            = Some (Session.Make (Users.username u) (Users.role u) (Users.name u))).
Proof.
  destruct c; simpl.
  - rewrite login_unfold. destruct (find _ _) as [u|] eqn:F; simpl; auto.
    right. apply find_some in F as [Hin Hc]. apply credentials_true in Hc as [Hu Hp].
    exists username, password, u. auto.
  - left. rewrite add_user_unfold.
    repeat match goal with
           | |- context [if ?b then _ else _] => destruct b; simpl; auto
           | |- context [match ?x with inl _ => _ | inr _ => _ end] =>
               destruct x; simpl; auto
           end.
  - left. rewrite enroll_student_unfold.
    repeat match goal with
           | |- context [if ?b then _ else _] => destruct b; simpl; auto
           end.
  - left. rewrite assign_grade_unfold.
    destruct (lacks_role _ _); auto. destruct (int64 _); auto.
    destruct (update_enrollments_grade _ _ _ _); auto.
  - left. rewrite mark_attendance_unfold.
    destruct (lacks_role _ _); auto. destruct (int64 _); auto.
    destruct (insert_attendance _ _ _ _ _); auto.
  - left. rewrite add_timetable_unfold.
    destruct (lacks_role _ _); auto. destruct (int64 _); auto.
    destruct (insert_timetable _ _ _ _ _); auto.
  - left. apply (export_report_keeps env).
Qed.

(** X8.  Only a [login] that succeeds changes [logged_in_user], and it
    sets it to the username, role and name of a row of [users] with the
    given username and the digest of the given password.  No operation
    clears it: once somebody is logged in, somebody is logged in after
    every further sequence of calls. *)
Theorem session_changes_only_by_login (c : call) (self : sms) :
  (logged_in_user (snd (perform env c self)) = logged_in_user self
   \/ (exists username password u,
          c = Login username password
          /\ In u (users (conn self))
          /\ Users.username u = username
          /\ Users.password u = hash_password password
          /\ logged_in_user (snd (perform env c self))
             = Some (Session.Make (Users.username u) (Users.role u)
                                  (Users.name u))))
  /\ (forall cs, logged_in_user self <> None ->
                 logged_in_user (run env cs self) <> None).
Proof.
  split; [apply perform_logged_in_user |].
  intros cs. revert self. induction cs as [|c' cs IH]; intros self H; simpl.
  - exact H.
  - apply IH.
    destruct (perform_logged_in_user c' self) as [-> | (u & p & r & _ & _ & _ & _ & ->)];
      [exact H | discriminate].
Qed.

(** X9.  Of a call that writes no report over a file of the connection: when
    it raises it commits nothing; [login] and [export_report] neither
    commit nor change the database; and each of the other five calls, when
    it returns, has committed all that the connection sees, whatever was
    pending before it included. *)
Theorem commit_only_on_return (c : call) (self : sms) :
  on_regular_files env c ->
  (forall e, fst (perform env c self) = Raise e ->
             committed (snd (perform env c self)) = committed self)
  /\ (commits c = false ->
      committed (snd (perform env c self)) = committed self
      /\ conn (snd (perform env c self)) = conn self)
  /\ (forall b, commits c = true ->
                fst (perform env c self) = Return b ->
                committed (snd (perform env c self))
                = conn (snd (perform env c self))).
Proof.
  destruct c; simpl; intros Hreg.
  - rewrite login_unfold. destruct (find _ _); simpl; repeat split; auto; discriminate.
  - rewrite add_user_unfold.
    repeat match goal with
           | |- context [if ?b then _ else _] => destruct b; simpl
           | |- context [match ?x with inl _ => _ | inr _ => _ end] =>
               destruct x; simpl
           end; repeat split; auto; discriminate.
  - rewrite enroll_student_unfold.
    repeat match goal with
           | |- context [if ?b then _ else _] => destruct b; simpl
           end; repeat split; auto; discriminate.
  - rewrite assign_grade_unfold.
    destruct (lacks_role _ _); simpl; [repeat split; auto; discriminate |].
    destruct (int64 _); simpl; [| repeat split; auto; discriminate].
    destruct (update_enrollments_grade _ _ _ _); simpl;
      repeat split; auto; discriminate.
  - rewrite mark_attendance_unfold.
    destruct (lacks_role _ _); simpl; [repeat split; auto; discriminate |].
    destruct (int64 _); simpl; [| repeat split; auto; discriminate].
    destruct (insert_attendance _ _ _ _ _); simpl; repeat split; auto; discriminate.
  - rewrite add_timetable_unfold.
    destruct (lacks_role _ _); simpl; [repeat split; auto; discriminate |].
    destruct (int64 _); simpl; [| repeat split; auto; discriminate].
    destruct (insert_timetable _ _ _ _ _); simpl; repeat split; auto; discriminate.
  - destruct (export_report_keeps env student_username filename self) as (Hc & Hd & _).
    repeat split; auto; discriminate.
Qed.

End Session.

(** The teacher of the sample class is still logged in after the
    administrator's password was tried wrongly and a report was written. *)
Lemma session_changes_only_by_login_witness :
  logged_in_user (run sample_env [Login "admin" "guess"; ExportReport "s1" "r.txt"]
                      class_of_t1)
  <> None.
Proof.
  apply (proj2 (session_changes_only_by_login
                  sample_env (Login "admin" "guess") class_of_t1)).
  discriminate.
Defined.

(** A rejected status commits nothing; an accepted one commits. *)
Lemma commit_only_on_return_witness :
  committed (snd (perform sample_env (MarkAttendance "2026-11-04" "s1" 1 "Sick")
                          class_of_t1))
  = committed class_of_t1
  /\ committed (snd (perform sample_env (MarkAttendance "2026-11-04" "s1" 1 "Late")
                             class_of_t1))
     = conn (snd (perform sample_env (MarkAttendance "2026-11-04" "s1" 1 "Late")
                          class_of_t1)).
Proof.
  split.
  - apply (proj1 (commit_only_on_return
                    sample_env (MarkAttendance "2026-11-04" "s1" 1 "Sick") class_of_t1 I)
             (IntegrityError CHECK)).
    vm_compute. reflexivity.
  - apply (proj2 (proj2 (commit_only_on_return
                           sample_env (MarkAttendance "2026-11-04" "s1" 1 "Late")
                           class_of_t1 I)) true).
    + reflexivity.
    + vm_compute. reflexivity.
Defined.

(** *** [add_timetable] and the role tests *)



(** X11.  [assign_grade] and [mark_attendance] raise [PermissionError] for
    everybody but a teacher, an admin included, and [add_timetable] raises
    it for everybody but an admin; each leaves the object as it was, and
    the test comes before any look at the arguments. *)
Theorem role_tests_refuse_other_roles (self : sms) :
  (not_logged_in_as "teacher" self ->
   (forall student_username course_id grade,
       assign_grade student_username course_id grade self
       = (Raise (PermissionError "Permission denied"), self))
   /\ (forall today student_username course_id status,
          mark_attendance today student_username course_id status self
          = (Raise (PermissionError "Permission denied"), self)))
  /\ (not_logged_in_as "admin" self ->
      forall course_id day start_time end_time,
        add_timetable course_id day start_time end_time self
        = (Raise (PermissionError "Admin access required"), self)).
Proof.
  split.
  - intros H. apply lacks_role_true_iff in H. split; intros.
    + rewrite assign_grade_unfold, H. reflexivity.
    + rewrite mark_attendance_unfold, H. reflexivity.
  - intros H. apply lacks_role_true_iff in H. intros.
    rewrite add_timetable_unfold, H. reflexivity.
Qed.

(** The administrator cannot grade; the teacher cannot change the
    timetable. *)
Lemma role_tests_refuse_other_roles_witness :
  assign_grade "s1" 1 90 school
  = (Raise (PermissionError "Permission denied"), school)
  /\ add_timetable 1 "Monday" "09:00" "10:00" class_of_t1
     = (Raise (PermissionError "Admin access required"), class_of_t1).
Proof.
  split.
  - apply (proj1 (role_tests_refuse_other_roles school)).
    right. eexists. split; [reflexivity | discriminate].
  - apply (proj2 (role_tests_refuse_other_roles class_of_t1)).
    right. eexists. split; [reflexivity | discriminate].
Defined.

(** *** What [assign_grade] and [mark_attendance] write *)

(** X12.  When [assign_grade] returns [True], every row of [enrollments]
    for the student and the course, duplicates included, holds the grade as
    bound (NULL for a NaN), every other row is what it was, no row is added
    or removed, the other tables are untouched, and all is committed. *)
Theorem assign_grade_overwrites_all_matching_rows
        (student_username : string) (course_id : Z) (grade : float) (self : sms) :
  fst (assign_grade student_username course_id grade self) = Return true ->
  let self' := snd (assign_grade student_username course_id grade self) in
  map enrollment_key (enrollments (conn self'))
  = map enrollment_key (enrollments (conn self))
  /\ (forall e, In e (enrollments (conn self')) ->
                Enrollments.student_username e = student_username ->
                Enrollments.course_id e = course_id ->
                Enrollments.grade e = bind_real grade)
  /\ (forall e, In e (enrollments (conn self')) ->
                (Enrollments.student_username e <> student_username
                 \/ Enrollments.course_id e <> course_id) ->
                In e (enrollments (conn self)))
  /\ (PrimFloat.is_nan grade = true -> bind_real grade = None)
  /\ users (conn self') = users (conn self)
  /\ students (conn self') = students (conn self)
  /\ courses (conn self') = courses (conn self)
  /\ attendance (conn self') = attendance (conn self)
  /\ timetable (conn self') = timetable (conn self)
  /\ committed self' = conn self'.
Proof.
  intros Hok self'. subst self'. revert Hok. rewrite assign_grade_unfold.
  destruct (lacks_role _ _); [discriminate |].
  destruct (int64 _); [| discriminate].
  destruct (update_enrollments_grade _ _ _ _) as [c | db] eqn:U; [discriminate |].
  intros _. apply update_enrollments_grade_done in U as (-> & _). simpl.
  split; [apply map_key_update |].
  split; [| split; [| split; [| repeat split]]].
  - intros e Hin Hu Hc. apply in_map_iff in Hin as (e0 & <- & _).
    destruct (enrollment_of student_username course_id e0) eqn:M; [reflexivity |].
    exfalso. unfold enrollment_of in M.
    apply andb_false_iff in M as [M | M].
    + apply eqb_false in M. contradiction.
    + apply Z.eqb_neq in M. contradiction.
  - intros e Hin Hne. apply in_map_iff in Hin as (e0 & <- & Hin).
    destruct (enrollment_of student_username course_id e0) eqn:M; [| exact Hin].
    exfalso. unfold enrollment_of in M.
    apply andb_true_iff in M as [M1 M2].
    apply eqb_true in M1. apply Z.eqb_eq in M2. simpl in Hne. tauto.
  - intros Hnan. unfold bind_real. rewrite Hnan. reflexivity.
Qed.

(** The teacher of the sample class grades the student in the first
    course. *)
Lemma assign_grade_overwrites_all_matching_rows_witness :
  map enrollment_key
      (enrollments (conn (snd (assign_grade "s1" 1 85 class_of_t1))))
  = map enrollment_key (enrollments (conn class_of_t1))
  /\ committed (snd (assign_grade "s1" 1 85 class_of_t1))
     = conn (snd (assign_grade "s1" 1 85 class_of_t1)).
Proof.
  destruct (assign_grade_overwrites_all_matching_rows "s1" 1 85 class_of_t1)
    as (Hkeys & _ & _ & _ & _ & _ & _ & _ & _ & Hcommitted).
  - vm_compute. reflexivity.
  - split; [exact Hkeys | exact Hcommitted].
Defined.

Lemma mark_attendance_done today student_username course_id status self :
  logged_in_as "teacher" self ->
  int64 course_id = true ->
  In status ["Present"; "Absent"; "Late"] ->
  mark_attendance today student_username course_id status self
  = (Return true,
     Sms (Database (users (conn self)) (students (conn self)) (courses (conn self))
                   (enrollments (conn self))
                   (attendance (conn self)
                    ++ [Attendance.Row
                          (autoincrement
                             (map Attendance.attendance_id (attendance (conn self))))
                          student_username course_id today status])
                   (timetable (conn self)))
         (Database (users (conn self)) (students (conn self)) (courses (conn self))
                   (enrollments (conn self))
                   (attendance (conn self)
                    ++ [Attendance.Row
                          (autoincrement
                             (map Attendance.attendance_id (attendance (conn self))))
                          student_username course_id today status])
                   (timetable (conn self)))
         (logged_in_user self) (files self)).
Proof.
  intros H Hi Hs. apply lacks_role_false_iff in H. apply mem_true_iff in Hs.
  rewrite mark_attendance_unfold, H, Hi. unfold insert_attendance. rewrite Hs.
  reflexivity.
Qed.

(** X13.  [mark_attendance] keeps no record apart: with a teacher logged
    in, a course id that fits the 64 bits of an SQLite INTEGER and a status
    among the three, the same call made twice returns [True] twice and
    leaves two rows after the old ones, equal but for their ids, the second
    id above the first and both above every id there was. *)
Theorem mark_attendance_twice_adds_two_rows
        (today student_username : string) (course_id : Z) (status : string)
        (self : sms) :
  logged_in_as "teacher" self ->
  int64 course_id = true ->
  In status ["Present"; "Absent"; "Late"] ->
  let once := mark_attendance today student_username course_id status self in
  let twice := mark_attendance today student_username course_id status (snd once) in
  fst once = Return true
  /\ fst twice = Return true
  /\ exists id1 id2,
       attendance (conn (snd twice))
       = attendance (conn self)
         ++ [Attendance.Row id1 student_username course_id today status;
             Attendance.Row id2 student_username course_id today status]
       /\ id1 < id2
       /\ (forall a, In a (attendance (conn self)) ->
                     Attendance.attendance_id a < id1)
       /\ committed (snd twice) = conn (snd twice).
Proof.
  intros H Hi Hs. cbv zeta.
  rewrite (mark_attendance_done today student_username course_id status self H Hi Hs).
  simpl snd.
  rewrite mark_attendance_done; [| exact H | exact Hi | exact Hs].
  simpl. split; [reflexivity |]. split; [reflexivity |].
  eexists. eexists. split; [rewrite <- app_assoc; reflexivity |].
  split; [| split; [| reflexivity]].
  - apply autoincrement_above. rewrite map_app. apply in_or_app. right. left.
    reflexivity.
  - intros a Hin. apply autoincrement_above. apply in_map. exact Hin.
Qed.

(** The teacher of the sample class marks the student late twice on one
    day. *)
Lemma mark_attendance_twice_adds_two_rows_witness :
  exists id1 id2,
    attendance
      (conn (snd (mark_attendance "2026-11-04" "s1" 1 "Late"
                    (snd (mark_attendance "2026-11-04" "s1" 1 "Late" class_of_t1)))))
    = attendance (conn class_of_t1)
      ++ [Attendance.Row id1 "s1" 1 "2026-11-04" "Late";
          Attendance.Row id2 "s1" 1 "2026-11-04" "Late"]
    /\ id1 < id2.
Proof.
  destruct (mark_attendance_twice_adds_two_rows
              "2026-11-04" "s1" 1 "Late" class_of_t1)
    as (_ & _ & id1 & id2 & Hrows & Hlt & _).
  - eexists. split; reflexivity.
  - reflexivity.
  - right. right. left. reflexivity.
  - exists id1, id2. split; [exact Hrows | exact Hlt].
Defined.

(** *** [export_report] *)

Lemma fold_left_append {A : Type} (f : A -> string) (l : list A) (h : string) :
  fold_left (fun report x => report +:+ f x) l h = h +:+ join_all (map f l).
Proof.
  revert h. induction l as [|x l IH]; intros h; simpl.
  - symmetry. apply append_empty.
  - rewrite IH. apply append_assoc.
Qed.

Lemma length_left_join {A : Type} (on : A -> bool) (rows : list A) :
  List.length (left_join on rows) = Nat.max 1 (List.length (List.filter on rows)).
Proof.
  unfold left_join. destruct (List.filter on rows) as [|x l]; [reflexivity |].
  simpl. rewrite length_map. reflexivity.
Qed.

Lemma left_join_at_most_one {A : Type} (on : A -> bool) (rows : list A) :
  (List.length (List.filter on rows) <= 1)%nat ->
  exists x, left_join on rows = [x].
Proof.
  unfold left_join. destruct (List.filter on rows) as [|x [|y l]]; simpl.
  - eexists. reflexivity.
  - eexists. reflexivity.
  - lia.
Qed.

Lemma length_records_of_enrollment db e :
  List.length (records_of_enrollment db e) = blocks_of db e.
Proof.
  unfold records_of_enrollment, blocks_of.
  rewrite (flat_map_constant_length
             (c := (Nat.max 1 (List.length (List.filter (attendance_of e) (attendance db)))
                    * Nat.max 1 (List.length (List.filter (timetable_of e) (timetable db))))%nat)).
  - reflexivity.
  - intros c _.
    rewrite (flat_map_constant_length
               (c := Nat.max 1 (List.length (List.filter (timetable_of e) (timetable db))))).
    + rewrite length_left_join. reflexivity.
    + intros a _. rewrite length_map. apply length_left_join.
Qed.

Lemma length_select_report student_username db :
  List.length (select_report student_username db)
  = list_sum (map (blocks_of db)
                  (List.filter (enrollment_of_student student_username)
                               (enrollments db))).
Proof.
  unfold select_report. rewrite length_flat_map.
  f_equal. apply map_ext. intros e. apply length_records_of_enrollment.
Qed.

Lemma records_of_enrollment_single db e c :
  List.filter (course_of e) (courses db) = [c] ->
  (List.length (List.filter (attendance_of e) (attendance db)) <= 1)%nat ->
  (List.length (List.filter (timetable_of e) (timetable db)) <= 1)%nat ->
  exists a t, records_of_enrollment db e = [joined c e a t].
Proof.
  intros Hc Ha Ht. unfold records_of_enrollment. rewrite Hc.
  destruct (left_join_at_most_one _ _ Ha) as [a ->].
  destruct (left_join_at_most_one _ _ Ht) as [t ->].
  exists a, t. reflexivity.
Qed.

Lemma find_student student_username (rows : list Students.row) :
  (exists s, In s rows /\ Students.username s = student_username) ->
  exists student,
    find (is_student_of student_username) rows = Some student
    /\ In student rows /\ Students.username student = student_username.
Proof.
  intros [s [Hin Hs]].
  destruct (find (is_student_of student_username) rows) as [student|] eqn:F.
  - exists student. apply find_some in F as [Hin' Hp].
    unfold is_student_of in Hp. apply eqb_true in Hp. auto.
  - pose proof (find_none _ _ F s Hin) as Hp.
    unfold is_student_of in Hp. apply eqb_false in Hp. contradiction.
Qed.

(** With distinct keys, the rows with a given key are the one row that has
    it. *)
Lemma filter_key {A : Type} (key : A -> Z) (l : list A) (x : A) :
  NoDup (map key l) -> In x l ->
  List.filter (fun y => key x =? key y) l = [x].
Proof.
  induction l as [|a l IH]; simpl; [intros _ [] |].
  intros Hnd Hin. apply NoDup_cons in Hnd as [Ha Hl].
  rewrite list_elem_of_In in Ha.
  destruct Hin as [-> | Hin].
  - rewrite Z.eqb_refl. f_equal.
    clear IH Hl. induction l as [|b l IH]; simpl; [reflexivity |].
    destruct (key x =? key b) eqn:E.
    + exfalso. apply Ha. apply Z.eqb_eq in E. rewrite E. left. reflexivity.
    + apply IH. intros H. apply Ha. right. exact H.
  - destruct (key x =? key a) eqn:E.
    + exfalso. apply Ha. apply Z.eqb_eq in E. rewrite <- E. apply in_map. exact Hin.
    + apply IH; assumption.
Qed.

(** In a state that the program reaches, an enrollment is for exactly one
    course. *)
Lemma reachable_one_course env self e :
  reachable env self ->
  In e (enrollments (conn self)) ->
  exists c, In c (courses (conn self))
            /\ Courses.course_id c = Enrollments.course_id e
            /\ List.filter (course_of e) (courses (conn self)) = [c].
Proof.
  intros Hreach Hin.
  destruct (reachable_referenced env self Hreach) as [_ Re].
  destruct (Re e Hin) as [c [Hc Hid]].
  apply (reachable_kept env keys_distinct keys_distinct_kept init_keys_distinct)
    in Hreach as [(_ & _ & _ & _ & Hnd & _) _].
  exists c. split; [exact Hc |]. split; [exact Hid |].
  unfold course_of. rewrite <- Hid.
  apply (filter_key Courses.course_id); assumption.
Qed.

(** C6, as the program has it.  With no row of [students] for the username,
    [export_report] returns [False] and leaves the object, files included,
    as it was.  With such a row, the rows that [fetchall] returns are those
    of the join in the order that SQLite chooses: for each enrollment of the
    student, one row per pair of an attendance row of the student in the
    course (or none) and a timetable row of the course (or none).  When the
    file name leads to a regular file and the text can be encoded, the call
    returns [True] and the file holds the header followed by one block per
    row, in the order of the rows; when [open] refuses the name, the call
    raises what [open] raises and writes nothing.  So, in a state that the
    program reaches, a student with exactly two enrollments, each with at
    most one attendance row and at most one timetable row, gets exactly two
    blocks, one per enrollment, in either order, each with the name of the
    course of the enrollment and its grade; and the block of a row whose
    grade is NULL shows N/A. *)
Theorem export_report_blocks
        (env : environment) (student_username filename : string) (self : sms) :
  let records :=
    fetchall env (conn self) (select_report student_username (conn self)) in
  ((forall s, In s (students (conn self)) ->
              Students.username s <> student_username) ->
   export_report env student_username filename self = (Return false, self))
  /\ ((exists s, In s (students (conn self))
                 /\ Students.username s = student_username) ->
      exists student,
        In student (students (conn self))
        /\ Students.username student = student_username
        /\ Permutation records (select_report student_username (conn self))
        /\ List.length records
           = list_sum (map (blocks_of (conn self))
                           (List.filter (enrollment_of_student student_username)
                                        (enrollments (conn self))))
        /\ (forall path,
               resolve env filename = Regular path ->
               encodable env (header student_username student
                              +:+ join_all (map (block env) records)) = true ->
               export_report env student_username filename self
               = (Return true,
                  Sms (conn self) (committed self) (logged_in_user self)
                      (<[path := header student_username student
                                 +:+ join_all (map (block env) records)]>
                         (files self))))
        /\ (forall e,
               resolve env filename = Refused e ->
               export_report env student_username filename self = (Raise e, self)))
  /\ (reachable env self ->
      forall e1 e2,
        List.filter (enrollment_of_student student_username)
                    (enrollments (conn self)) = [e1; e2] ->
        (List.length (List.filter (attendance_of e1) (attendance (conn self))) <= 1)%nat ->
        (List.length (List.filter (attendance_of e2) (attendance (conn self))) <= 1)%nat ->
        (List.length (List.filter (timetable_of e1) (timetable (conn self))) <= 1)%nat ->
        (List.length (List.filter (timetable_of e2) (timetable (conn self))) <= 1)%nat ->
        exists c1 c2 r1 r2,
          In c1 (courses (conn self))
          /\ Courses.course_id c1 = Enrollments.course_id e1
          /\ In c2 (courses (conn self))
          /\ Courses.course_id c2 = Enrollments.course_id e2
          /\ Permutation records [r1; r2]
          /\ Record_.course_name r1 = Courses.course_name c1
          /\ Record_.grade r1 = Enrollments.grade e1
          /\ Record_.course_name r2 = Courses.course_name c2
          /\ Record_.grade r2 = Enrollments.grade e2)
  /\ (forall r,
         Record_.grade r = None ->
         exists rest,
           block env r
           = "Course: " +:+ Record_.course_name r +:+ newline
             +:+ "Grade: N/A" +:+ newline +:+ rest).
Proof.
  intros records. subst records.
  pose proof (fetchall_permutes env (conn self)
                (select_report student_username (conn self))) as Hperm.
  split; [| split; [| split]].
  - intros Hno. rewrite export_report_unfold.
    destruct (find _ _) as [student|] eqn:F; [| reflexivity].
    apply find_some in F as [Hin Hp]. unfold is_student_of in Hp.
    apply eqb_true in Hp. destruct (Hno student Hin Hp).
  - intros Hex. apply find_student in Hex as (student & F & Hin & Hname).
    exists student. rewrite export_report_unfold, F. cbv zeta.
    unfold report_text. rewrite fold_left_append.
    split; [exact Hin |]. split; [exact Hname |]. split; [exact Hperm |].
    split; [rewrite (Permutation_length Hperm); apply length_select_report |].
    split.
    + intros path -> ->. reflexivity.
    + intros e ->. reflexivity.
  - intros Hreach e1 e2 He Ha1 Ha2 Ht1 Ht2.
    assert (In e1 (enrollments (conn self)) /\ In e2 (enrollments (conn self)))
      as [Hin1 Hin2].
    { split;
        apply (proj1 (filter_In (enrollment_of_student student_username) _
                                (enrollments (conn self))));
        rewrite He; simpl; auto. }
    destruct (reachable_one_course env self e1 Hreach Hin1) as (c1 & Hc1 & Hid1 & Hf1).
    destruct (reachable_one_course env self e2 Hreach Hin2) as (c2 & Hc2 & Hid2 & Hf2).
    destruct (records_of_enrollment_single _ _ _ Hf1 Ha1 Ht1) as (a1 & t1 & Hr1).
    destruct (records_of_enrollment_single _ _ _ Hf2 Ha2 Ht2) as (a2 & t2 & Hr2).
    exists c1, c2, (joined c1 e1 a1 t1), (joined c2 e2 a2 t2).
    repeat split; auto.
    revert Hperm. unfold select_report. rewrite He. simpl.
    rewrite Hr1, Hr2. simpl. auto.
  - intros r Hr. unfold block, grade_text. rewrite Hr.
    exists ((if Py.truthy (Record_.status r)
             then "Attendance: " +:+ str_opt (Record_.status r) +:+ " on "
                  +:+ str_opt (Record_.date r) +:+ newline
             else "")
            +:+ (if Py.truthy (Record_.day r)
                 then "Schedule: " +:+ str_opt (Record_.day r) +:+ " "
                      +:+ str_opt (Record_.start_time r) +:+ "-"
                      +:+ str_opt (Record_.end_time r) +:+ newline
                 else "")
            +:+ newline).
    reflexivity.
Qed.

(** In the sample class nobody has a row for the name nobody; the report
    of the student is written to the file named; and the student, enrolled
    in two courses with no attendance and no timetable, gets two blocks,
    Math and Science, both without a grade. *)
Lemma export_report_blocks_witness :
  export_report sample_env "nobody" "report.txt" class_of_t1
  = (Return false, class_of_t1)
  /\ fst (export_report sample_env "s1" "report.txt" class_of_t1) = Return true
  /\ (exists r1 r2,
         Permutation (fetchall sample_env (conn class_of_t1)
                               (select_report "s1" (conn class_of_t1)))
                     [r1; r2]
         /\ Record_.course_name r1 = "Math" /\ Record_.grade r1 = None
         /\ Record_.course_name r2 = "Science" /\ Record_.grade r2 = None).
Proof.
  split; [| split].
  - apply (export_report_blocks sample_env "nobody" "report.txt" class_of_t1).
    intros s [<- | []]. discriminate.
  - destruct (export_report_blocks sample_env "s1" "report.txt" class_of_t1)
      as (_ & Hw & _).
    destruct Hw as (student & _ & _ & _ & _ & Hw & _).
    + eexists. split; [left; reflexivity | reflexivity].
    + rewrite (Hw "report.txt"); reflexivity.
  - destruct (export_report_blocks sample_env "s1" "report.txt" class_of_t1)
      as (_ & _ & Hc & _).
    destruct (Hc class_of_t1_reachable
                 (Enrollments.Row 1 "s1" 1 None) (Enrollments.Row 2 "s1" 2 None))
      as (c1 & c2 & r1 & r2 & Hc1 & Hid1 & Hc2 & Hid2 & Hp & H1 & H2 & H3 & H4);
      try (vm_compute; reflexivity); try (vm_compute; lia).
    exists r1, r2. split; [exact Hp |].
    assert (c1 = Courses.Row 1 "Math" (Some "t1") 3) as ->.
    { simpl in Hc1, Hid1.
      destruct Hc1 as [<- | [<- | []]]; [reflexivity | discriminate Hid1]. }
    assert (c2 = Courses.Row 2 "Science" (Some "t1") 3) as ->.
    { simpl in Hc2, Hid2.
      destruct Hc2 as [<- | [<- | []]]; [discriminate Hid2 | reflexivity]. }
    simpl in H1, H2, H3, H4. auto.
Defined.

(** C6, as stated, fails: after two days of attendance in the first course
    the sample student still has exactly two enrollments, and the report
    has three blocks, two of them for the first course. *)
Lemma report_repeats_course_per_attendance :
  reachable sample_env two_days
  /\ List.length (List.filter (enrollment_of_student "s1")
                              (enrollments (conn two_days))) = 2%nat
  /\ fst (export_report sample_env "s1" "report.txt" two_days) = Return true
  /\ select_report "s1" (conn two_days)
     = [Record_.Make "Math" None (Some "Absent") (Some "2026-11-04") None None None;
        Record_.Make "Math" None (Some "Late") (Some "2026-11-05") None None None;
        Record_.Make "Science" None None None None None None]
  /\ files (snd (export_report sample_env "s1" "report.txt" two_days))
     !! "report.txt"
     = Some (header "s1" (Students.Row "STU00s109" "s1" 9 (Some "t1"))
             +:+ block sample_env
                   (Record_.Make "Math" None (Some "Absent") (Some "2026-11-04")
                                 None None None)
             +:+ block sample_env
                   (Record_.Make "Math" None (Some "Late") (Some "2026-11-05")
                                 None None None)
             +:+ block sample_env
                   (Record_.Make "Science" None None None None None None)).
Proof.
  split; [exact two_days_reachable |].
  repeat split; vm_compute; reflexivity.
Qed.

(** *** [export_report] and the files *)

(** X14.  [export_report] asks for no role and reads [logged_in_user]
    nowhere.  When the file name leads to a regular file or is refused, the
    call changes neither the database, seen or committed, nor the session;
    it changes no regular file but the one that the name resolves to,
    whatever other names that file has; and a second call with the same
    arguments changes nothing more. *)
Theorem export_report_touches_one_file
        (env : environment) (student_username filename : string) (self : sms) :
  resolve env filename <> Other ->
  let self' := snd (export_report env student_username filename self) in
  conn self' = conn self
  /\ committed self' = committed self
  /\ logged_in_user self' = logged_in_user self
  /\ (forall path, resolve env filename <> Regular path ->
                   files self' !! path = files self !! path)
  /\ snd (export_report env student_username filename self') = self'
  /\ (forall who,
         fst (export_report env student_username filename
                            (Sms (conn self) (committed self) who (files self)))
         = fst (export_report env student_username filename self)).
Proof.
  intros Hreg. cbv zeta.
  destruct (export_report_keeps env student_username filename self) as (Hc & Hd & Hl).
  split; [exact Hc |]. split; [exact Hd |]. split; [exact Hl |].
  rewrite !export_report_unfold. simpl.
  destruct (find _ _) as [student|] eqn:F; simpl.
  2:{ rewrite ?F. repeat split; auto.
      intros who. rewrite export_report_unfold. simpl. rewrite F. reflexivity. }
  destruct (resolve env filename) as [e | path |] eqn:T; [| | contradiction].
  - simpl. rewrite F. repeat split; auto.
    intros who. rewrite export_report_unfold. simpl. rewrite F, T. reflexivity.
  - destruct (encodable env _) eqn:E; simpl; rewrite F, ?T, ?E; simpl.
    + split; [| split].
      * intros other Hne. apply lookup_insert_ne. congruence.
      * unfold with_file. simpl. rewrite insert_insert_eq. reflexivity.
      * intros who. rewrite export_report_unfold. simpl. rewrite F, T, E.
        reflexivity.
    + split; [| split].
      * intros other Hne. apply lookup_insert_ne. congruence.
      * unfold with_file. simpl. rewrite insert_insert_eq. reflexivity.
      * intros who. rewrite export_report_unfold. simpl. rewrite F, T, E.
        reflexivity.
Qed.

(** The report of the sample student leaves another file alone. *)
Lemma export_report_touches_one_file_witness :
  files (snd (export_report sample_env "s1" "report.txt" class_of_t1)) !! "notes.txt"
  = files class_of_t1 !! "notes.txt".
Proof.
  apply (export_report_touches_one_file sample_env "s1" "report.txt" class_of_t1).
  - cbv. discriminate.
  - cbv. discriminate.
Defined.

(** *** [add_user] when it succeeds *)

Lemma find_last {A : Type} (p : A -> bool) (l : list A) (x : A) :
  (forall y, In y l -> p y = false) -> p x = true -> find p (l ++ [x]) = Some x.
Proof.
  intros Hl Hx. induction l as [|a l IH]; simpl.
  - rewrite Hx. reflexivity.
  - rewrite (Hl a) by (left; reflexivity). apply IH.
    intros y Hy. apply Hl. right. exact Hy.
Qed.

Lemma find_nowhere {A : Type} (p : A -> bool) (l : list A) :
  (forall y, In y l -> p y = false) -> find p l = None.
Proof.
  intros Hl. induction l as [|a l IH]; simpl; [reflexivity |].
  rewrite (Hl a) by (left; reflexivity). apply IH.
  intros y Hy. apply Hl. right. exact Hy.
Qed.

(** What every successful [add_user] has tested and done to [users]. *)
Lemma add_user_success_users
      username password role name email phone grade_level assigned_teacher
      courses_list self :
  fst (add_user username password role name email phone grade_level
                assigned_teacher courses_list self) = Return true ->
  let self' := snd (add_user username password role name email phone grade_level
                             assigned_teacher courses_list self) in
  users (conn self')
  = users (conn self) ++ [new_user_row username password role name email phone]
  /\ committed self' = conn self'
  /\ logged_in_user self' = logged_in_user self
  /\ files self' = files self
  /\ logged_in_as "admin" self
  /\ known_role (Py.val role)
  /\ (forall u, In u (users (conn self)) ->
                Users.username u <> Py.val username
                /\ Users.email u <> Py.val email).
Proof.
  intros Hok self'. subst self'. revert Hok. rewrite add_user_unfold.
  destruct (lacks_role "admin" self) eqn:L; [discriminate |].
  apply lacks_role_false_iff in L.
  destruct (negb (forallb _ _)); [discriminate |].
  destruct (negb (validate_email _)); [discriminate |].
  destruct (Py.truthy phone && negb (validate_phone phone)); [discriminate |].
  destruct (insert_users _ (conn self)) as [c | db1] eqn:Ins; [discriminate |].
  apply insert_users_inr in Ins as (-> & Hrole & Hfresh).
  destruct (String.eqb (Py.val role) "student" && Py.truthy_int grade_level).
  - destruct (int64 _); [| discriminate].
    destruct (insert_students _ _) as [c | db2] eqn:Ins2; [discriminate |].
    apply insert_students_done in Ins2 as (-> & _). intros _. cbv zeta. simpl.
    destruct (Py.truthy assigned_teacher); [| simpl; repeat split; auto; apply Hfresh; auto].
    match goal with
    | |- context [with_enrollments ?u ?cs ?d] =>
        destruct (with_enrollments_spec u cs d) as (new & _ & _ & _ & -> & _)
    end.
    simpl. repeat split; auto; apply Hfresh; auto.
  - destruct (String.eqb (Py.val role) "teacher" && Py.truthy courses_list);
      intros _; simpl.
    + match goal with
      | |- context [with_courses ?u ?ns ?d] =>
          destruct (with_courses_spec u ns d) as (new & _ & _ & _ & -> & _)
      end.
      simpl. repeat split; auto; apply Hfresh; auto.
    + repeat split; auto; apply Hfresh; auto.
Qed.

(** X15.  When [add_user] returns [True], [users] is the old table
    followed by one row with the username, role, name, email and phone as
    given and, for the password, its SHA-256 digest, committed.  From then
    on [login] with that username and password returns [True] and gives
    the session that role, and [login] with that username and a password
    of another digest returns [False]. *)
Theorem add_user_then_login
        (username password role name email : string) (phone : option string)
        (grade_level : option Z) (assigned_teacher courses_list : option string)
        (self : sms) :
  fst (add_user (Some username) (Some password) (Some role) (Some name) (Some email)
                phone grade_level assigned_teacher courses_list self)
  = Return true ->
  let self' :=
    snd (add_user (Some username) (Some password) (Some role) (Some name)
                  (Some email) phone grade_level assigned_teacher courses_list self) in
  users (conn self')
  = users (conn self)
    ++ [Users.Row username (hash_password password) role name email phone]
  /\ committed self' = conn self'
  /\ login username password self'
     = (Return true,
        Sms (conn self') (committed self')
            (Some (Session.Make username role name)) (files self'))
  /\ (forall other,
         hash_password other <> hash_password password ->
         login username other self' = (Return false, self')).
Proof.
  intros Hok self'.
  destruct (add_user_success_users _ _ _ _ _ _ _ _ _ _ Hok)
    as (Hu & Hc & _ & _ & _ & _ & Hfresh).
  fold self' in Hu, Hc. simpl in Hfresh.
  unfold new_user_row in Hu. simpl in Hu.
  assert (Hold : forall pw y, In y (users (conn self)) -> credentials username pw y = false).
  { intros pw y Hy. unfold credentials.
    destruct (Hfresh y Hy) as [Hn _]. apply eqb_false in Hn. rewrite Hn. reflexivity. }
  split; [exact Hu |]. split; [exact Hc |]. split.
  - rewrite login_unfold, Hu.
    rewrite (find_last _ _ _ (Hold password)); [reflexivity |].
    apply credentials_true. split; reflexivity.
  - intros other Hne. rewrite login_unfold, Hu.
    rewrite find_nowhere; [reflexivity |].
    intros y Hy. apply in_app_or in Hy as [Hy | [<- | []]]; [apply Hold; exact Hy |].
    unfold credentials. simpl.
    apply andb_false_iff. right. apply eqb_false. congruence.
Qed.

(** The teacher of the sample school, just created, logs in. *)
Lemma add_user_then_login_witness :
  fst (login "t1" "pw"
         (snd (add_user (Some "t1") (Some "pw") (Some "teacher") (Some "T One")
                        (Some "t1@school.edu") None None None
                        (Some "Math, Science") office)))
  = Return true.
Proof.
  destruct (add_user_then_login "t1" "pw" "teacher" "T One" "t1@school.edu"
                                None None None (Some "Math, Science") office)
    as (_ & _ & -> & _).
  - vm_compute. reflexivity.
  - reflexivity.
Defined.

(** *** [add_user] when the second INSERT fails *)

Lemma insert_users_fresh r db :
  known_role (Users.role r) ->
  (forall u, In u (users db) ->
             Users.username u <> Users.username r /\ Users.email u <> Users.email r) ->
  insert_users r db
  = inr (Database (users db ++ [r]) (students db) (courses db)
                  (enrollments db) (attendance db) (timetable db)).
Proof.
  intros Hrole Hfresh. unfold insert_users.
  apply known_role_iff in Hrole. rewrite Hrole. simpl.
  assert (existsb (fun u => String.eqb (Users.username u) (Users.username r)) (users db)
          = false) as ->.
  { apply not_true_is_false. intros H. apply existsb_exists in H as (u & Hin & E).
    apply eqb_true in E. destruct (Hfresh u Hin). contradiction. }
  assert (existsb (fun u => String.eqb (Users.email u) (Users.email r)) (users db)
          = false) as ->.
  { apply not_true_is_false. intros H. apply existsb_exists in H as (u & Hin & E).
    apply eqb_true in E. destruct (Hfresh u Hin). contradiction. }
  reflexivity.
Qed.

(** [add_user] for a student, past its own tests and the first INSERT,
    when the INSERT into [students] fails. *)
Lemma add_user_student_row_refused
      username password name email phone level assigned_teacher courses_list self
      cause :
  logged_in_as "admin" self ->
  username <> "" -> password <> "" -> name <> "" ->
  validate_email email = true ->
  validate_phone phone = true ->
  (forall u, In u (users (conn self)) ->
             Users.username u <> username /\ Users.email u <> email) ->
  level <> 0 ->
  int64 level = true ->
  let row := Users.Row username (hash_password password) "student" name email phone in
  let db1 := Database (users (conn self) ++ [row]) (students (conn self))
                      (courses (conn self)) (enrollments (conn self))
                      (attendance (conn self)) (timetable (conn self)) in
  insert_students (new_student_row (Some username) (Some level) assigned_teacher) db1
  = inl cause ->
  add_user (Some username) (Some password) (Some "student") (Some name) (Some email)
           phone (Some level) assigned_teacher courses_list self
  = (Raise (ValueError (UserCreationFailed cause)),
     Sms db1 (committed self) (logged_in_user self) (files self)).
Proof.
  intros Hadmin Hu Hp Hn He Hph Hfresh Hlevel Hfits row db1 Hins.
  apply lacks_role_false_iff in Hadmin.
  assert (email <> "") as Hem by (intros ->; discriminate He).
  rewrite add_user_unfold, Hadmin. unfold forallb.
  rewrite (truthy_nonempty _ Hu), (truthy_nonempty _ Hp), (truthy_nonempty _ Hn),
    (truthy_nonempty _ Hem).
  change (Py.truthy (Some "student")) with true. simpl andb. simpl negb. cbv iota.
  simpl Py.val. rewrite He, Hph, andb_false_r. simpl negb. cbv iota.
  rewrite insert_users_fresh; [| right; right; reflexivity | exact Hfresh].
  assert ((level =? 0) = false) as -> by (apply Z.eqb_neq; exact Hlevel).
  simpl negb. cbv iota. simpl Py.int_val. rewrite Hfits.
  unfold new_user_row. simpl Py.val.
  unfold db1, row in Hins. rewrite Hins. reflexivity.
Qed.


Lemma int64_level level : 1 <= level <= 12 -> int64 level = true.
Proof.
  intros H. apply int64_true_iff. lia.
Qed.



(** X17.  The student id is made of the last four characters of the
    username and the grade level alone, so usernames that end alike give
    the same id at the same level; and with an admin logged in and
    arguments that pass the tests, a student whose id a row of [students]
    already has is refused with the [ValueError] that wraps the UNIQUE
    failure, the row of [users] staying in the connection. *)
Theorem add_user_student_id_collision
        (username password name email : string) (phone : option string) (level : Z)
        (assigned_teacher courses_list : option string) (self : sms) :
  (forall other teacher,
      Py.last_chars 4 other = Py.last_chars 4 username ->
      Students.student_id (new_student_row (Some other) (Some level) teacher)
      = Students.student_id (new_student_row (Some username) (Some level)
                                             assigned_teacher))
  /\ (logged_in_as "admin" self ->
      username <> "" -> password <> "" -> name <> "" ->
      validate_email email = true ->
      validate_phone phone = true ->
      (forall u, In u (users (conn self)) ->
                 Users.username u <> username /\ Users.email u <> email) ->
      1 <= level <= 12 ->
      (exists s, In s (students (conn self))
                 /\ Students.student_id s
                    = Students.student_id
                        (new_student_row (Some username) (Some level)
                                         assigned_teacher)) ->
      let after :=
        snd (add_user (Some username) (Some password) (Some "student") (Some name)
                      (Some email) phone (Some level) assigned_teacher courses_list
                      self) in
      fst (add_user (Some username) (Some password) (Some "student") (Some name)
                    (Some email) phone (Some level) assigned_teacher courses_list self)
      = Raise (ValueError (UserCreationFailed UNIQUE))
      /\ users (conn after)
         = users (conn self)
           ++ [Users.Row username (hash_password password) "student" name email phone]
      /\ students (conn after) = students (conn self)
      /\ committed after = committed self).
Proof.
  split.
  - intros other teacher E. unfold new_student_row. simpl. rewrite E. reflexivity.
  - intros Hadmin Hu Hp Hn He Hph Hfresh Hlevel [s [Hin Hid]] after. subst after.
    rewrite (add_user_student_row_refused
               username password name email phone level assigned_teacher courses_list
               self UNIQUE Hadmin Hu Hp Hn He Hph Hfresh).
    + simpl. repeat split.
    + lia.
    + apply int64_level. exact Hlevel.
    + unfold insert_students.
      assert ((1 <=? Students.grade_level
                       (new_student_row (Some username) (Some level) assigned_teacher))
              && (Students.grade_level
                    (new_student_row (Some username) (Some level) assigned_teacher)
                  <=? 12) = true) as ->.
      { simpl. apply andb_true_iff. split; apply Z.leb_le; lia. }
      simpl negb. cbv iota.
      assert (existsb
                (fun s0 => String.eqb (Students.student_id s0)
                             (Students.student_id
                                (new_student_row (Some username) (Some level)
                                                 assigned_teacher)))
                (students (conn self)) = true) as Hex.
      { apply existsb_exists. exists s. split; [exact Hin | apply eqb_true; exact Hid]. }
      simpl students. rewrite Hex. reflexivity.
Qed.

(** After the student s1 of grade 9, a student whose username ends in the
    same characters is refused at grade 9. *)
Lemma add_user_student_id_collision_witness :
  fst (add_user (Some "000s1") (Some "pw") (Some "student") (Some "S Other")
                (Some "other@school.edu") None (Some 9) None None school_with_s1)
  = Raise (ValueError (UserCreationFailed UNIQUE)).
Proof.
  assert (Hadmin : logged_in_as "admin" school_with_s1)
    by (eexists; split; reflexivity).
  assert (Hemail : validate_email "other@school.edu" = true)
    by (vm_compute; reflexivity).
  assert (Hphone : validate_phone None = true) by reflexivity.
  assert (Hfresh : forall u, In u (users (conn school_with_s1)) ->
                             Users.username u <> "000s1"
                             /\ Users.email u <> "other@school.edu").
  { intros u Hin. simpl in Hin.
    destruct Hin as [<- | [<- | [<- | []]]]; split; discriminate. }
  assert (Hu : "000s1" <> "") by discriminate.
  assert (Hpw : "pw" <> "") by discriminate.
  assert (Hname : "S Other" <> "") by discriminate.
  assert (Hlevel : 1 <= 9 <= 12) by lia.
  assert (Hid : exists s, In s (students (conn school_with_s1))
                          /\ Students.student_id s
                             = Students.student_id
                                 (new_student_row (Some "000s1") (Some 9) None)).
  { eexists. split; [left; reflexivity | reflexivity]. }
  destruct (proj2 (add_user_student_id_collision
                     "000s1" "pw" "S Other" "other@school.edu" None 9 None None
                     school_with_s1)
                  Hadmin Hu Hpw Hname Hemail Hphone Hfresh Hlevel Hid)
    as (H & _).
  exact H.
Defined.

(** *** The names of the courses of a new teacher *)

Lemma split_parts_free sep s :
  List.Forall (fun w => all_chars (fun c => negb (Ascii.eqb c sep)) w = true)
              (Py.split sep s).
Proof.
  induction s as [|c s IH]; simpl.
  - repeat constructor.
  - destruct (Ascii.eqb c sep) eqn:E.
    + constructor; [reflexivity | exact IH].
    + destruct (Py.split sep s) as [|w ws].
      * repeat constructor. simpl. rewrite E. reflexivity.
      * inversion IH as [|? ? Hw Hws]. subst.
        constructor; [| exact Hws]. simpl. rewrite E, Hw. reflexivity.
Qed.

Lemma lstrip_all p s : all_chars p s = true -> all_chars p (Py.lstrip s) = true.
Proof.
  induction s as [|c s IH]; simpl; [auto |].
  intros H. destruct (Py.isspace c); [| exact H].
  apply andb_true_iff in H as [_ H]. auto.
Qed.

Lemma rstrip_all p s : all_chars p s = true -> all_chars p (Py.rstrip s) = true.
Proof.
  induction s as [|c s IH]; simpl; [auto |].
  intros H. apply andb_true_iff in H as [Hc H]. specialize (IH H).
  destruct (Py.rstrip s) as [|d r].
  - destruct (Py.isspace c); simpl; [reflexivity | rewrite Hc; reflexivity].
  - simpl. simpl in IH. rewrite Hc, IH. reflexivity.
Qed.

Lemma rstrip_rstrip s : Py.rstrip (Py.rstrip s) = Py.rstrip s.
Proof.
  induction s as [|c s IH]; simpl; [reflexivity |].
  destruct (Py.rstrip s) as [|d r] eqn:E.
  - destruct (Py.isspace c) eqn:Sp; simpl; [reflexivity |]. rewrite Sp. reflexivity.
  - change (Py.rstrip (String c (String d r)))
      with (match Py.rstrip (String d r) with
            | "" => if Py.isspace c then "" else String c ""
            | r0 => String c r0
            end).
    rewrite IH. reflexivity.
Qed.

(** What is left of a string without its leading white space is empty or
    starts with a character that is no white space. *)
Lemma lstrip_head s :
  Py.lstrip s = ""
  \/ exists c r, Py.lstrip s = String c r /\ Py.isspace c = false.
Proof.
  induction s as [|c s IH]; simpl; [auto |].
  destruct (Py.isspace c) eqn:Sp; [exact IH |]. right. eauto.
Qed.

Lemma strip_head s :
  Py.strip s = ""
  \/ exists c r, Py.strip s = String c r /\ Py.isspace c = false.
Proof.
  unfold Py.strip. destruct (lstrip_head s) as [-> | (c & r & -> & Sp)]; [auto |].
  right. simpl. destruct (Py.rstrip r) as [|d r'].
  - rewrite Sp. eauto.
  - eauto.
Qed.

Lemma strip_strip s : Py.strip (Py.strip s) = Py.strip s.
Proof.
  destruct (strip_head s) as [E | (c & r & E & Sp)].
  - rewrite E. reflexivity.
  - unfold Py.strip at 1. rewrite E. simpl Py.lstrip. rewrite Sp, <- E.
    unfold Py.strip. apply rstrip_rstrip.
Qed.

Lemma course_names_clean courses_list n :
  In n (course_names courses_list) ->
  n <> "" /\ Py.strip n = n /\ all_chars not_comma n = true.
Proof.
  destruct courses_list as [cs|]; simpl; [| intros []].
  intros H. apply filter_In in H as [Hin Hne].
  apply negb_true_iff in Hne. apply eqb_false in Hne.
  apply in_map_iff in Hin as (w & <- & Hw).
  split; [exact Hne |]. split; [apply strip_strip |].
  pose proof (split_parts_free "," cs) as Hfree.
  rewrite List.Forall_forall in Hfree. specialize (Hfree w Hw).
  unfold Py.strip. apply rstrip_all, lstrip_all. exact Hfree.
Qed.

(** X18.  The courses that a successful [add_user] creates for a teacher
    have names that are not empty, have no white space at either end, and
    hold no comma, whatever the comma-separated list was. *)
Theorem add_user_teacher_course_names_clean
        (username : string) (password name email phone : option string)
        (grade_level : option Z) (assigned_teacher courses_list : option string)
        (self : sms) :
  fst (add_user (Some username) password (Some "teacher") name email phone
                grade_level assigned_teacher courses_list self)
  = Return true ->
  exists new,
    courses (conn (snd (add_user (Some username) password (Some "teacher") name
                                 email phone grade_level assigned_teacher
                                 courses_list self)))
    = courses (conn self) ++ new
    /\ List.Forall (fun c => Courses.course_name c <> ""
                             /\ Py.strip (Courses.course_name c)
                                = Courses.course_name c
                             /\ all_chars not_comma (Courses.course_name c) = true)
                   new.
Proof.
  rewrite add_user_unfold.
  destruct (lacks_role "admin" self); [discriminate |].
  destruct (negb (forallb _ _)); [discriminate |].
  destruct (negb (validate_email _)); [discriminate |].
  destruct (Py.truthy phone && negb (validate_phone phone)); [discriminate |].
  destruct (insert_users _ (conn self)) as [c | db1] eqn:Ins; [discriminate |].
  apply insert_users_inr in Ins as (-> & _ & _).
  change (String.eqb (Py.val (Some "teacher")) "student") with false.
  change (String.eqb (Py.val (Some "teacher")) "teacher") with true.
  simpl andb. intros _.
  destruct (Py.truthy courses_list).
  - simpl.
    match goal with
    | |- context [with_courses ?u ?ns ?db] =>
        destruct (with_courses_spec u ns db) as (new & Hc & Hn & _)
    end.
    exists new. simpl in Hc. split; [exact Hc |].
    apply List.Forall_forall. intros c Hin.
    apply (course_names_clean courses_list). rewrite <- Hn. apply in_map. exact Hin.
  - simpl. exists []. split; [rewrite app_nil_r; reflexivity | constructor].
Qed.

(** A list with stray commas and spaces. *)
Lemma add_user_teacher_course_names_clean_witness :
  exists new,
    courses (conn (snd (add_user (Some "t2") (Some "pw") (Some "teacher")
                                 (Some "T Two") (Some "t2@school.edu") None None None
                                 (Some " Art ,, Music , ") school)))
    = courses (conn school) ++ new
    /\ List.Forall (fun c => Courses.course_name c <> ""
                             /\ Py.strip (Courses.course_name c)
                                = Courses.course_name c
                             /\ all_chars not_comma (Courses.course_name c) = true)
                   new.
Proof.
  apply (add_user_teacher_course_names_clean
           "t2" (Some "pw") (Some "T Two") (Some "t2@school.edu") None None None
           (Some " Art ,, Music , ") school).
  vm_compute. reflexivity.
Defined.

(** *** What the dashboards show after a call *)

Lemma filter_snoc {A : Type} (p : A -> bool) (l : list A) (x : A) :
  List.filter p (l ++ [x]) = List.filter p l ++ (if p x then [x] else []).
Proof.
  rewrite List.filter_app. simpl. destruct (p x); reflexivity.
Qed.

(** X19.  In a state that the program reaches, when [enroll_student]
    returns [True] the courses tab of that student shows one row more, at
    the end: the one course with the given id; enrolling again adds the
    same course again, and the tabs of the other students do not change. *)
Theorem enroll_student_shows_in_courses_tab
        (env : environment) (student_username : string) (course_id : Z)
        (self : sms) :
  reachable env self ->
  fst (enroll_student student_username course_id self) = Return true ->
  let self' := snd (enroll_student student_username course_id self) in
  (exists course,
      In course (courses (conn self))
      /\ Courses.course_id course = course_id
      /\ student_courses student_username (conn self')
         = student_courses student_username (conn self) ++ [course])
  /\ (forall other, other <> student_username ->
                    student_courses other (conn self')
                    = student_courses other (conn self)).
Proof.
  intros Hreach Hok self'. subst self'. revert Hok.
  apply (reachable_kept env keys_distinct keys_distinct_kept
                        init_keys_distinct) in Hreach
    as [(_ & _ & _ & _ & Hnd & _) _].
  rewrite enroll_student_unfold.
  destruct (existsb (is_student_row _) _); simpl; [| discriminate].
  destruct (int64 _); simpl; [| discriminate].
  destruct (existsb (is_course_row _) _) eqn:C; simpl; [| discriminate].
  intros _. apply course_exists_iff in C as (course & Hin & Hid).
  unfold student_courses. simpl. split.
  - exists course. split; [exact Hin |]. split; [exact Hid |].
    rewrite filter_snoc. unfold enrollment_of_student at 2. simpl.
    rewrite String.eqb_refl, flat_map_app. simpl. rewrite app_nil_r.
    f_equal. unfold course_of. simpl. rewrite <- Hid.
    apply (filter_key Courses.course_id); assumption.
  - intros other Hne. rewrite filter_snoc. unfold enrollment_of_student at 2. simpl.
    assert (String.eqb student_username other = false) as ->
        by (apply eqb_false; congruence).
    rewrite app_nil_r. reflexivity.
Qed.

(** The student of the sample class, enrolled in the first course once
    more, sees it once more. *)
Lemma enroll_student_shows_in_courses_tab_witness :
  exists course,
    In course (courses (conn class_of_t1))
    /\ Courses.course_id course = 1
    /\ student_courses "s1" (conn (snd (enroll_student "s1" 1 class_of_t1)))
       = student_courses "s1" (conn class_of_t1) ++ [course].
Proof.
  apply (enroll_student_shows_in_courses_tab sample_env "s1" 1 class_of_t1).
  - exact class_of_t1_reachable.
  - vm_compute. reflexivity.
Defined.

Lemma filter_none {A : Type} (p : A -> bool) (l : list A) :
  (forall x, In x l -> p x = false) -> List.filter p l = [].
Proof.
  induction l as [|a l IH]; simpl; [reflexivity |].
  intros H. rewrite (H a) by (left; reflexivity).
  apply IH. intros x Hx. apply H. right. exact Hx.
Qed.

(** X20.  [mark_attendance] does not test that the course exists: with a
    teacher logged in and a status among the three, a call for a course id
    that fits the 64 bits of an SQLite INTEGER and that no course has
    returns [True] and stores the row, but no attendance tab, of any
    student or any teacher, shows it. *)
Theorem attendance_for_unknown_course_is_hidden
        (today student_username : string) (course_id : Z) (status : string)
        (self : sms) :
  logged_in_as "teacher" self ->
  int64 course_id = true ->
  In status ["Present"; "Absent"; "Late"] ->
  ~ course_exists (conn self) course_id ->
  let self' :=
    snd (mark_attendance today student_username course_id status self) in
  fst (mark_attendance today student_username course_id status self) = Return true
  /\ (exists id,
         In (Attendance.Row id student_username course_id today status)
            (attendance (conn self')))
  /\ (forall who, student_attendance who (conn self')
                  = student_attendance who (conn self))
  /\ (forall who, teacher_attendance who (conn self')
                  = teacher_attendance who (conn self)).
Proof.
  intros H Hi Hs Hno. cbv zeta.
  rewrite (mark_attendance_done today student_username course_id status self H Hi Hs).
  simpl.
  assert (Hnone : forall (p : Courses.row -> bool),
             List.filter (fun c => (course_id =? Courses.course_id c) && p c)
                         (courses (conn self)) = []).
  { intros p. apply filter_none. intros c Hin.
    apply andb_false_iff. left. apply Z.eqb_neq. intros E.
    apply Hno. exists c. auto. }
  split; [reflexivity |]. split; [eexists; apply in_or_app; right; left; reflexivity |].
  split.
  - intros who. unfold student_attendance. simpl. rewrite filter_snoc.
    destruct (String.eqb _ who); [| rewrite app_nil_r; reflexivity].
    rewrite flat_map_app. simpl. unfold course_of_attendance at 2. simpl.
    specialize (Hnone (fun _ => true)).
    rewrite (filter_ext _ (fun c => (course_id =? Courses.course_id c) && true)),
      Hnone by (intros c; rewrite andb_true_r; reflexivity).
    simpl. rewrite app_nil_r. reflexivity.
  - intros who. unfold teacher_attendance. simpl. rewrite flat_map_app. simpl.
    unfold course_of_attendance at 2. simpl. rewrite (Hnone (taught_by who)).
    simpl. rewrite app_nil_r. reflexivity.
Qed.

(** The teacher of the sample class marks the student present in a course
    numbered 7, which nobody has. *)
Lemma attendance_for_unknown_course_is_hidden_witness :
  fst (mark_attendance "2026-11-04" "s1" 7 "Present" class_of_t1) = Return true
  /\ student_attendance "s1"
       (conn (snd (mark_attendance "2026-11-04" "s1" 7 "Present" class_of_t1)))
     = student_attendance "s1" (conn class_of_t1).
Proof.
  destruct (attendance_for_unknown_course_is_hidden
              "2026-11-04" "s1" 7 "Present" class_of_t1)
    as (H1 & _ & H2 & _).
  - eexists. split; reflexivity.
  - reflexivity.
  - left. reflexivity.
  - intros H. apply course_exists_iff in H. vm_compute in H. discriminate H.
  - split; [exact H1 | apply H2].
Defined.

(** X21.  When [assign_grade] returns [True], every row that the grades
    tab of the student shows for the course carries the grade as bound, and
    the rows for other courses carry what they carried; the grades tab of
    a teacher shows a row for the student and the course only if that
    teacher teaches a course with that id, so a teacher who graded
    another's course does not see the grade. *)
Theorem assign_grade_shows_in_grades_tabs
        (student_username : string) (course_id : Z) (grade : float) (self : sms) :
  fst (assign_grade student_username course_id grade self) = Return true ->
  let self' := snd (assign_grade student_username course_id grade self) in
  (forall cid name g,
      In (cid, name, g) (student_grades student_username (conn self')) ->
      (cid = course_id -> g = bind_real grade)
      /\ (cid <> course_id ->
          In (cid, name, g) (student_grades student_username (conn self))))
  /\ (forall teacher,
         ~ (exists c, In c (courses (conn self))
                      /\ Courses.course_id c = course_id
                      /\ Courses.teacher_username c = Some teacher) ->
         forall name g,
           ~ In (student_username, course_id, name, g)
                (teacher_grades teacher (conn self'))).
Proof.
  intros Hok self'. subst self'. revert Hok. rewrite assign_grade_unfold.
  destruct (lacks_role _ _); [discriminate |].
  destruct (int64 _); [| discriminate].
  destruct (update_enrollments_grade _ _ _ _) as [c | db] eqn:U; [discriminate |].
  intros _. apply update_enrollments_grade_done in U as (-> & _). simpl. split.
  - intros cid name g Hin. unfold student_grades in Hin. simpl in Hin.
    apply in_flat_map in Hin as (e' & He' & Hrow).
    apply filter_In in He' as [He' Hstu].
    apply in_map_iff in Hrow as (c & Hrow & Hc).
    apply in_map_iff in He' as (e & <- & He).
    unfold enrollment_of_student in Hstu.
    destruct (enrollment_of student_username course_id e) eqn:M.
    + simpl in Hrow, Hc, Hstu. injection Hrow as <- <- <-.
      unfold enrollment_of in M. apply andb_true_iff in M as [_ M].
      apply Z.eqb_eq in M. split; [reflexivity | contradiction].
    + injection Hrow as <- <- <-. split.
      * intros E. exfalso. unfold enrollment_of in M.
        apply eqb_true in Hstu. rewrite Hstu, String.eqb_refl, E, Z.eqb_refl in M.
        discriminate M.
      * intros _. unfold student_grades. apply in_flat_map. exists e. split.
        -- apply filter_In. split; [exact He | exact Hstu].
        -- apply in_map_iff. exists c. auto.
  - intros teacher Hno name g Hin. unfold teacher_grades in Hin. simpl in Hin.
    apply in_flat_map in Hin as (e' & He' & Hrow).
    apply in_map_iff in Hrow as (c & Hrow & Hc).
    apply filter_In in Hc as [Hc Hon]. apply andb_true_iff in Hon as [Hon Ht].
    apply Hno. exists c. split; [exact Hc |].
    unfold course_of in Hon. apply Z.eqb_eq in Hon.
    injection Hrow as _ Hcid _ _. split; [congruence |].
    unfold taught_by in Ht. destruct (Courses.teacher_username c) as [t|];
      [| discriminate].
    apply eqb_true in Ht. congruence.
Qed.

(** The sample student sees the grade 85 for the second course. *)
Lemma assign_grade_shows_in_grades_tabs_witness :
  In (2, "Science", Some 85%float)
     (student_grades "s1" (conn (snd (assign_grade "s1" 2 85 class_of_t1))))
  /\ Some 85%float = bind_real 85.
Proof.
  assert (Hin : In (2, "Science", Some 85%float)
                   (student_grades "s1"
                      (conn (snd (assign_grade "s1" 2 85 class_of_t1)))))
    by (vm_compute; right; left; reflexivity).
  split; [exact Hin |].
  apply (proj1 (proj1 (assign_grade_shows_in_grades_tabs "s1" 2 85 class_of_t1
                         ltac:(vm_compute; reflexivity))
                      2 "Science" (Some 85%float) Hin)).
  reflexivity.
Defined.

(** X22.  In a state that the program reaches, a user created with role
    student and no grade level, or grade level 0, can log in but has no
    report: after the successful [add_user], [export_report] for the new
    username returns [False] and writes nothing. *)
Theorem student_without_grade_level_has_no_report
        (env : environment)
        (username password name email : string) (phone : option string)
        (grade_level : option Z) (assigned_teacher courses_list : option string)
        (filename : string) (self : sms) :
  reachable env self ->
  Py.truthy_int grade_level = false ->
  fst (add_user (Some username) (Some password) (Some "student") (Some name)
                (Some email) phone grade_level assigned_teacher courses_list self)
  = Return true ->
  let self' :=
    snd (add_user (Some username) (Some password) (Some "student") (Some name)
                  (Some email) phone grade_level assigned_teacher courses_list self) in
  export_report env username filename self' = (Return false, self')
  /\ fst (login username password self') = Return true.
Proof.
  intros Hreach Hlevel Hok self'.
  assert (Hgood : students_are_student_users (conn self)).
  { apply reachable_good in Hreach as [[H _] _]. exact H. }
  destruct (add_user_success_users _ _ _ _ _ _ _ _ _ _ Hok)
    as (Hu & _ & _ & _ & _ & _ & Hfresh).
  fold self' in Hu. simpl in Hfresh. split.
  2:{ rewrite login_unfold, Hu.
      rewrite (find_last (credentials username password)); [reflexivity | |].
      - intros y Hy. unfold credentials. destruct (Hfresh y Hy) as [Hne _].
        apply eqb_false in Hne. rewrite Hne. reflexivity.
      - apply credentials_true. split; reflexivity. }
  assert (Hst : students (conn self') = students (conn self)).
  { subst self'. revert Hok. rewrite add_user_unfold.
    destruct (lacks_role "admin" self); [discriminate |].
    destruct (negb (forallb _ _)); [discriminate |].
    destruct (negb (validate_email _)); [discriminate |].
    destruct (Py.truthy phone && negb (validate_phone phone)); [discriminate |].
    destruct (insert_users _ (conn self)) as [c | db1] eqn:Ins; [discriminate |].
    apply insert_users_inr in Ins as (-> & _ & _).
    rewrite Hlevel, andb_false_r.
    change (String.eqb (Py.val (Some "student")) "teacher") with false.
    simpl. reflexivity. }
  rewrite export_report_unfold, Hst.
  rewrite find_nowhere; [reflexivity |].
  intros s Hin. unfold is_student_of. apply eqb_false. intros E.
  destruct (Hgood s Hin) as [u (Hin' & Hname & _)].
  destruct (Hfresh u Hin') as [Hne _]. congruence.
Qed.

(** The second student of the sample school. *)
Lemma student_without_grade_level_has_no_report_witness :
  fst (export_report sample_env "s2" "report.txt"
         (snd (add_user (Some "s2") (Some "pw") (Some "student") (Some "S Two")
                        (Some "s2@school.edu") None None (Some "t1") None school)))
  = Return false.
Proof.
  destruct (student_without_grade_level_has_no_report
              sample_env "s2" "pw" "S Two" "s2@school.edu" None None (Some "t1") None
              "report.txt" school school_reachable eq_refl
              ltac:(vm_compute; reflexivity))
    as [-> _].
  reflexivity.
Defined.

(** *** The student id *)

Lemma length_append (a b : string) :
  String.length (a +:+ b) = (String.length a + String.length b)%nat.
Proof.
  induction a as [|c a IH]; [reflexivity |].
  change (S (String.length (a +:+ b)) = S (String.length a + String.length b)).
  rewrite IH. reflexivity.
Qed.

Lemma length_zeros n : String.length (Py.zeros n) = n.
Proof.
  induction n as [|n IH]; simpl; [reflexivity | rewrite IH; reflexivity].
Qed.

Lemma length_last_chars n s : (String.length (Py.last_chars n s) <= n)%nat.
Proof.
  induction s as [|c s IH]; [simpl; lia |].
  change (Py.last_chars n (String c s))
    with (if (String.length (String c s) <=? n)%nat
          then String c s else Py.last_chars n s).
  destruct (Nat.leb_spec (String.length (String c s)) n); [assumption | exact IH].
Qed.

Lemma length_zfill width s :
  String.length (Py.zfill width s) = Nat.max width (String.length s).
Proof.
  unfold Py.zfill. destruct (Nat.leb_spec width (String.length s)); [lia |].
  destruct s as [|c s].
  - rewrite length_zeros. simpl. lia.
  - destruct (Ascii.eqb c "+" || Ascii.eqb c "-").
    + change (S (String.length
                   (Py.zeros (width - String.length (String c s)) +:+ s))
              = Nat.max width (String.length (String c s))).
      rewrite length_append, length_zeros. simpl in *. lia.
    + rewrite length_append, length_zeros. simpl in *. lia.
Qed.

Lemma format_02d_two_digits level :
  1 <= level <= 12 -> String.length (Py.format_02d level) = 2%nat.
Proof.
  intros H.
  assert (F : forallb (fun k => Nat.eqb (String.length (Py.format_02d (Z.of_nat k))) 2)
                      (seq 1 12) = true) by reflexivity.
  rewrite forallb_forall in F.
  rewrite <- (Z2Nat.id level) by lia. apply Nat.eqb_eq. apply F. apply in_seq. lia.
Qed.

(** X23.  For every username, the empty one and one that starts with a
    sign included, and every grade level from 1 to 12, the student id that
    [add_user] derives has nine characters: STU, four characters for the
    end of the username, padded with zeros, and two digits for the level. *)
Theorem student_id_has_nine_characters
        (username : string) (level : Z) (assigned_teacher : option string) :
  1 <= level <= 12 ->
  let id := Students.student_id
              (new_student_row (Some username) (Some level) assigned_teacher) in
  String.length id = 9%nat
  /\ id = "STU" +:+ Py.zfill 4 (Py.last_chars 4 username) +:+ Py.format_02d level
  /\ String.length (Py.zfill 4 (Py.last_chars 4 username)) = 4%nat
  /\ String.length (Py.format_02d level) = 2%nat.
Proof.
  intros H id. subst id. unfold new_student_row. simpl Students.student_id.
  simpl Py.val. simpl Py.int_val.
  pose proof (length_last_chars 4 username) as Hl.
  assert (Hz : String.length (Py.zfill 4 (Py.last_chars 4 username)) = 4%nat)
    by (rewrite length_zfill; lia).
  pose proof (format_02d_two_digits level H) as Hf.
  repeat split; auto.
  rewrite !length_append, Hz, Hf. reflexivity.
Qed.

Lemma student_id_has_nine_characters_witness :
  String.length (Students.student_id (new_student_row (Some "-1") (Some 7) None))
  = 9%nat.
Proof.
  apply (student_id_has_nine_characters "-1" 7 None). lia.
Defined.
